(** * Buddy: schedule resolver, completion ledger and streak analytics

    A shallow embedding of the planning core of the Buddy application
    ([src/core/activity_manager.py], [src/core/completion_manager.py],
    [src/core/analytics_engine.py], [src/utils/validators.py],
    [src/utils/date_utils.py], [src/config/defaults.py] and the two ORM
    models), of the activity suggestions of
    [src/core/smart_suggestions.py] and of the endpoints of
    [api/routers/activities.py] that take the key of an activity,
    followed by the properties of the specification that concern them and
    by further properties of the code.

    Conventions of the embedding:
    - Python [int] is [Z]; [str] is [string] (bytes), with the ASCII case
      mapping for [str.lower];
    - [datetime.date], [datetime.time] and [datetime.datetime] are records,
      with the calendar arithmetic of CPython's [datetime] module;
    - an exception is a value of [exn]; a call that may raise returns
      a [result];
    - the two ORM tables are lists of rows in insertion order, and a
      manager method that touches the session is a function from the
      database to an outcome and the database afterwards;
    - [float] is IEEE-754 binary64, through [SpecFloat]. *)

From Stdlib Require Import ZArith List String Ascii Bool Lia.
From Stdlib Require Import DecimalString.
From Stdlib Require Import Sorting.Sorted Sorting.Permutation.
From Stdlib Require Import Floats.SpecFloat.
Import ListNotations.

Local Open Scope string_scope.
Local Open Scope list_scope.
Local Open Scope Z_scope.

(** ** Python prelude *)

Module Py.

Inductive exn : Type :=
| ValueError (msg : string)
| OverflowError (msg : string).

Inductive result (A : Type) : Type :=
| Ok (a : A)
| Raise (e : exn).

Arguments Ok {A} a.
Arguments Raise {A} e.

Definition bind {A B : Type} (r : result A) (k : A -> result B) : result B :=
  match r with
  | Ok a => k a
  | Raise e => Raise e
  end.

Definition is_ok {A : Type} (r : result A) : bool :=
  match r with Ok _ => true | Raise _ => false end.

(** [str.isascii]: every character is below 128. *)
Definition is_ascii_char (c : ascii) : bool := (N_of_ascii c <? 128)%N.

Fixpoint is_ascii (s : string) : bool :=
  match s with
  | EmptyString => true
  | String c s' => is_ascii_char c && is_ascii s'
  end.

(** [str.lower], on ASCII letters: the case mapping of ASCII text. The
    letters beyond ASCII that [str.lower] maps as well (the Kelvin sign
    to [k], for one) are not modelled, a text that holds one being
    outside the embedding. *)
Definition ascii_lower (c : ascii) : ascii :=
  let n := N_of_ascii c in
  if (65 <=? n)%N && (n <=? 90)%N then ascii_of_N (n + 32) else c.

Fixpoint lower (s : string) : string :=
  match s with
  | EmptyString => EmptyString
  | String c s' => String (ascii_lower c) (lower s')
  end.

(** [sub in s] on strings: [sub] occurs in [s] as a contiguous run. *)
Fixpoint str_in (sub s : string) : bool :=
  prefix sub s ||
  match s with
  | EmptyString => false
  | String _ s' => str_in sub s'
  end.

(** [s[:n]]. *)
Definition slice_to (n : nat) (s : string) : string := substring 0 n s.

(** [x in l] on a list of strings. *)
Definition str_in_list (x : string) (l : list string) : bool :=
  existsb (String.eqb x) l.

(** Truth value of an [Optional[str]]: [None] and the empty string are
    falsy. *)
Definition truthy_str (o : option string) : bool :=
  match o with
  | Some s => negb (String.eqb s "")
  | None => false
  end.

(** Truth value of an [Optional[int]]: [None] and [0] are falsy. *)
Definition truthy_int (o : option Z) : bool :=
  match o with
  | Some n => negb (n =? 0)
  | None => false
  end.

(** [", ".join(l)]. *)
Fixpoint join (sep : string) (l : list string) : string :=
  match l with
  | [] => ""
  | [x] => x
  | x :: rest => (x ++ sep ++ join sep rest)%string
  end.

(** [str.isspace] of one character, on ASCII: the codes 9 to 13 and 28
    to 32. *)
Definition is_space (c : ascii) : bool :=
  let n := N_of_ascii c in
  ((9 <=? n) && (n <=? 13) || (28 <=? n) && (n <=? 32))%N.

Fixpoint lstrip (s : string) : string :=
  match s with
  | EmptyString => EmptyString
  | String c s' => if is_space c then lstrip s' else s
  end.

Fixpoint rstrip (s : string) : string :=
  match s with
  | EmptyString => EmptyString
  | String c s' =>
      match rstrip s' with
      | EmptyString => if is_space c then EmptyString else String c EmptyString
      | r => String c r
      end
  end.

(** [str.strip()], for the white space of ASCII; the white space beyond
    ASCII that [str.strip] removes as well (the no-break space, for one)
    is not modelled. *)
Definition strip (s : string) : string := rstrip (lstrip s).

(** [str(n)] of an [int], and the decimal digits in an f-string. *)
Definition str_int (n : Z) : string := NilZero.string_of_int (Z.to_int n).

Fixpoint zeros (n : nat) : string :=
  match n with
  | O => ""
  | S n' => String "0" (zeros n')
  end.

(** ["%0<width>d" % n]: the sign, then zeros up to the width, then the
    digits. *)
Definition pad0 (width : nat) (n : Z) : string :=
  if n <? 0 then
    let digits := str_int (- n) in
    ("-" ++ zeros (width - 1 - String.length digits) ++ digits)%string
  else
    let digits := str_int n in
    (zeros (width - String.length digits) ++ digits)%string.

(** [sorted(l, key=key)] for a key compared by [ltb]: the stable sort. *)
Section Sorted.
Context {A K : Type} (key : A -> K) (ltb : K -> K -> bool).

Fixpoint insert_by (x : A) (l : list A) : list A :=
  match l with
  | [] => [x]
  | y :: l' => if ltb (key y) (key x) then y :: insert_by x l' else x :: l
  end.

Definition sorted_by (l : list A) : list A :=
  fold_right insert_by [] l.

(** [sorted(l, key=key, reverse=True)]: descending, equal keys in their
    original order. *)
Fixpoint insert_by_rev (x : A) (l : list A) : list A :=
  match l with
  | [] => [x]
  | y :: l' => if ltb (key x) (key y) then y :: insert_by_rev x l' else x :: l
  end.

Definition sorted_by_rev (l : list A) : list A :=
  fold_right insert_by_rev [] l.

End Sorted.

End Py.

Import Py.

Notation "x <- e ;; k" := (Py.bind e (fun x => k))
  (at level 61, e at next level, right associativity).

(** ** The [datetime] module *)

Module Datetime.

Record date : Type := mkdate { year : Z; month : Z; day : Z }.

Record time : Type :=
  mktime { hour : Z; minute : Z; second : Z; microsecond : Z }.

(** A [datetime] is a calendar date and a time of day; [dt_date] is the
    method [.date()]. *)
Record datetime : Type := mkdatetime { dt_date : date; dt_time : time }.

Definition MINYEAR : Z := 1.
Definition MAXYEAR : Z := 9999.
Definition _MAXORDINAL : Z := 3652059.

Definition _is_leap (y : Z) : bool :=
  (y mod 4 =? 0) && (negb (y mod 100 =? 0) || (y mod 400 =? 0)).

Definition _DAYS_IN_MONTH (m : Z) : Z :=
  match m with
  | 1 => 31 | 2 => 28 | 3 => 31 | 4 => 30 | 5 => 31 | 6 => 30
  | 7 => 31 | 8 => 31 | 9 => 30 | 10 => 31 | 11 => 30 | 12 => 31
  | _ => -1
  end.

Definition _DAYS_BEFORE_MONTH (m : Z) : Z :=
  match m with
  | 1 => 0 | 2 => 31 | 3 => 59 | 4 => 90 | 5 => 120 | 6 => 151
  | 7 => 181 | 8 => 212 | 9 => 243 | 10 => 273 | 11 => 304 | 12 => 334
  | _ => -1
  end.

Definition _days_before_year (y : Z) : Z :=
  let y' := y - 1 in y' * 365 + y' / 4 - y' / 100 + y' / 400.

Definition _days_in_month (y m : Z) : Z :=
  if (m =? 2) && _is_leap y then 29 else _DAYS_IN_MONTH m.

Definition _days_before_month (y m : Z) : Z :=
  _DAYS_BEFORE_MONTH m + (if (2 <? m) && _is_leap y then 1 else 0).

Definition _ymd2ord (y m d : Z) : Z :=
  _days_before_year y + _days_before_month y m + d.

Definition _DI400Y : Z := 146097.
Definition _DI100Y : Z := 36524.
Definition _DI4Y : Z := 1461.

Definition _ord2ymd (n : Z) : date :=
  let n := n - 1 in
  let n400 := n / _DI400Y in
  let n := n mod _DI400Y in
  let y := n400 * 400 + 1 in
  let n100 := n / _DI100Y in
  let n := n mod _DI100Y in
  let n4 := n / _DI4Y in
  let n := n mod _DI4Y in
  let n1 := n / 365 in
  let n := n mod 365 in
  let y := y + n100 * 100 + n4 * 4 + n1 in
  if (n1 =? 4) || (n100 =? 4) then mkdate (y - 1) 12 31
  else
    let leapyear := (n1 =? 3) && (negb (n4 =? 24) || (n100 =? 3)) in
    let m := Z.shiftr (n + 50) 5 in
    let preceding :=
      _DAYS_BEFORE_MONTH m + (if (2 <? m) && leapyear then 1 else 0) in
    if n <? preceding then
      let m := m - 1 in
      let preceding :=
        preceding
        - (_DAYS_IN_MONTH m + (if (m =? 2) && leapyear then 1 else 0)) in
      mkdate y m (n - preceding + 1)
    else mkdate y m (n - preceding + 1).

(** The check of the [date] constructor. *)
Definition valid_dateb (d : date) : bool :=
  (MINYEAR <=? year d) && (year d <=? MAXYEAR) &&
  (1 <=? month d) && (month d <=? 12) &&
  (1 <=? day d) && (day d <=? _days_in_month (year d) (month d)).

Definition toordinal (d : date) : Z := _ymd2ord (year d) (month d) (day d).

Definition fromordinal (n : Z) : date := _ord2ymd n.

(** [d.weekday()]: Monday is 0 and Sunday is 6. *)
Definition weekday (d : date) : Z := (toordinal d + 6) mod 7.

(** [d.replace(day=new_day)]: the constructor runs again on the new
    fields and refuses a day that the month does not have. *)
Definition replace_day (d : date) (new_day : Z) : result date :=
  let d' := mkdate (year d) (month d) new_day in
  if valid_dateb d' then Ok d'
  else Raise (ValueError "day is out of range for month").

(** [d + timedelta(days=n)]. *)
Definition add_days (d : date) (n : Z) : result date :=
  let o := toordinal d + n in
  if (0 <? o) && (o <=? _MAXORDINAL) then Ok (fromordinal o)
  else Raise (OverflowError "date value out of range").

(** [d - timedelta(days=n)]. *)
Definition sub_days (d : date) (n : Z) : result date := add_days d (- n).

(** Comparison of dates: the tuples (year, month, day), in order. *)
Definition date_eqb (a b : date) : bool :=
  (year a =? year b) && (month a =? month b) && (day a =? day b).

Definition date_ltb (a b : date) : bool :=
  (year a <? year b) ||
  ((year a =? year b) &&
   ((month a <? month b) || ((month a =? month b) && (day a <? day b)))).

Definition date_leb (a b : date) : bool := date_ltb a b || date_eqb a b.

(** Comparison of times of day, field by field. *)
Definition time_ltb (a b : time) : bool :=
  (hour a <? hour b) ||
  ((hour a =? hour b) &&
   ((minute a <? minute b) ||
    ((minute a =? minute b) &&
     ((second a <? second b) ||
      ((second a =? second b) && (microsecond a <? microsecond b)))))).

(** [d.strftime("%A")] in the C locale. *)
Definition strftime_A (d : date) : string :=
  match weekday d with
  | 0 => "Monday" | 1 => "Tuesday" | 2 => "Wednesday" | 3 => "Thursday"
  | 4 => "Friday" | 5 => "Saturday" | _ => "Sunday"
  end.

(** The constructor [time(hour, minute)], which checks its fields. *)
Definition time_new (hour minute : Z) : result time :=
  if negb ((0 <=? hour) && (hour <=? 23)) then
    Raise (ValueError "hour must be in 0..23")
  else if negb ((0 <=? minute) && (minute <=? 59)) then
    Raise (ValueError "minute must be in 0..59")
  else Ok (mktime hour minute 0 0).

(** [str(d)] of a date, that is [d.isoformat()]. *)
Definition isoformat (d : date) : string :=
  (pad0 4 (year d) ++ "-" ++ pad0 2 (month d) ++ "-" ++ pad0 2 (day d))%string.

(** [t.strftime("%H:%M")]. *)
Definition strftime_HM (t : time) : string :=
  (pad0 2 (hour t) ++ ":" ++ pad0 2 (minute t))%string.

End Datetime.

Import Datetime.

(** ** [src/config/defaults.py] *)

Definition CATEGORIES : list string :=
  ["Work"; "Personal"; "Health"; "Education"; "Errands"; "Social";
   "Finance"; "Other"].

Definition RECURRENCE_OPTIONS : list string :=
  ["once"; "daily"; "weekdays"; "weekends"; "weekly"; "custom"].

Definition COMPLETION_STATUSES : list string :=
  ["done"; "missed"; "partial"; "rescheduled"].

(** ** [src/utils/validators.py] *)

Definition validate_category (category : string) : result string :=
  let category_lower := lower category in
  match find (fun cat => String.eqb (lower cat) category_lower) CATEGORIES with
  | Some cat => Ok cat
  | None =>
      Raise (ValueError
               ("Invalid category: '" ++ category ++ "'. Valid options: "
                ++ join ", " CATEGORIES)%string)
  end.

Definition validate_recurrence (recurrence : string) : result string :=
  let recurrence_lower := lower recurrence in
  if str_in_list recurrence_lower RECURRENCE_OPTIONS then Ok recurrence_lower
  else
    Raise (ValueError
             ("Invalid recurrence: '" ++ recurrence ++ "'. Valid options: "
              ++ join ", " RECURRENCE_OPTIONS)%string).

Definition validate_status (status : string) : result string :=
  let status_lower := lower status in
  if str_in_list status_lower COMPLETION_STATUSES then Ok status_lower
  else
    Raise (ValueError
             ("Invalid status: '" ++ status ++ "'. Valid options: "
              ++ join ", " COMPLETION_STATUSES)%string).

Definition validate_duration (duration : Z) : result Z :=
  if duration <? 1 then
    Raise (ValueError "Duration must be at least 1 minute")
  else if 1440 <? duration then
    Raise (ValueError "Duration cannot exceed 24 hours (1440 minutes)")
  else Ok duration.

Definition validate_prep_time (prep_time : Z) : result Z :=
  if prep_time <? 0 then
    Raise (ValueError "Preparation time cannot be negative")
  else if 180 <? prep_time then
    Raise (ValueError "Preparation time cannot exceed 3 hours (180 minutes)")
  else Ok prep_time.

(** ** [src/utils/date_utils.py] *)

(** [get_week_bounds(target_date, week_start)]; [today] is the reading of
    [date.today()] used when [target_date] is [None]. *)
Definition get_week_bounds (today : date) (target_date : option date)
    (week_start : string) : result (date * date) :=
  let target_date :=
    match target_date with Some d => d | None => today end in
  let start_day := if String.eqb (lower week_start) "monday" then 0 else 6 in
  let days_since_start := (weekday target_date - start_day) mod 7 in
  week_start_date <- sub_days target_date days_since_start ;;
  week_end_date <- add_days week_start_date 6 ;;
  Ok (week_start_date, week_end_date).

Definition is_weekday (d : date) : bool := weekday d <? 5.

Definition is_weekend (d : date) : bool := 5 <=? weekday d.

Definition get_day_name (d : date) : string := lower (strftime_A d).

(** [parse_time] hands the text to [dateutil.parser.parse], which is not
    part of the repository: the parser is a parameter, [None] standing for
    any exception it raises. *)
Definition parse_time (parser_parse : string -> option datetime)
    (time_str : string) : result time :=
  match parser_parse time_str with
  | Some parsed => Ok (dt_time parsed)
  | None =>
      Raise (ValueError
               ("Invalid time format: " ++ time_str
                ++ ". Use HH:MM (e.g., 06:30 or 6:30pm)")%string)
  end.

(** [parse_date]; [today] is the reading of [date.today()], and the
    parser is the one of [parse_time]. *)
Definition parse_date (parser_parse : string -> option datetime)
    (today : date) (date_str : string) : result date :=
  let date_str := strip (lower date_str) in
  if String.eqb date_str "today" then Ok today
  else if String.eqb date_str "tomorrow" then add_days today 1
  else if String.eqb date_str "yesterday" then sub_days today 1
  else
    match parser_parse date_str with
    | Some parsed => Ok (dt_date parsed)
    | None => Raise (ValueError ("Invalid date format: " ++ date_str)%string)
    end.

(** ** The ORM models and the session *)

Module Activity.
Record t : Type := mk {
  id : Z;
  title : string;
  description : option string;
  category : string;
  start_time : time;
  duration : option Z;
  recurrence : string;
  custom_days : option string;
  location : option string;
  prep_time : Z;
  is_outdoor : bool;
  is_active : bool;
  created_at : datetime;
  updated_at : datetime
}.

(** Assignment to one attribute of the object. *)
Definition set_title (v : string) (a : t) : t :=
  mk (id a) v (description a) (category a) (start_time a) (duration a)
     (recurrence a) (custom_days a) (location a) (prep_time a)
     (is_outdoor a) (is_active a) (created_at a) (updated_at a).

Definition set_description (v : option string) (a : t) : t :=
  mk (id a) (title a) v (category a) (start_time a) (duration a)
     (recurrence a) (custom_days a) (location a) (prep_time a)
     (is_outdoor a) (is_active a) (created_at a) (updated_at a).

Definition set_category (v : string) (a : t) : t :=
  mk (id a) (title a) (description a) v (start_time a) (duration a)
     (recurrence a) (custom_days a) (location a) (prep_time a)
     (is_outdoor a) (is_active a) (created_at a) (updated_at a).

Definition set_start_time (v : time) (a : t) : t :=
  mk (id a) (title a) (description a) (category a) v (duration a)
     (recurrence a) (custom_days a) (location a) (prep_time a)
     (is_outdoor a) (is_active a) (created_at a) (updated_at a).

Definition set_duration (v : option Z) (a : t) : t :=
  mk (id a) (title a) (description a) (category a) (start_time a) v
     (recurrence a) (custom_days a) (location a) (prep_time a)
     (is_outdoor a) (is_active a) (created_at a) (updated_at a).

Definition set_recurrence (v : string) (a : t) : t :=
  mk (id a) (title a) (description a) (category a) (start_time a)
     (duration a) v (custom_days a) (location a) (prep_time a)
     (is_outdoor a) (is_active a) (created_at a) (updated_at a).

Definition set_location (v : option string) (a : t) : t :=
  mk (id a) (title a) (description a) (category a) (start_time a)
     (duration a) (recurrence a) (custom_days a) v (prep_time a)
     (is_outdoor a) (is_active a) (created_at a) (updated_at a).

Definition set_prep_time (v : Z) (a : t) : t :=
  mk (id a) (title a) (description a) (category a) (start_time a)
     (duration a) (recurrence a) (custom_days a) (location a) v
     (is_outdoor a) (is_active a) (created_at a) (updated_at a).

Definition set_is_outdoor (v : bool) (a : t) : t :=
  mk (id a) (title a) (description a) (category a) (start_time a)
     (duration a) (recurrence a) (custom_days a) (location a) (prep_time a)
     v (is_active a) (created_at a) (updated_at a).

Definition set_is_active (v : bool) (a : t) : t :=
  mk (id a) (title a) (description a) (category a) (start_time a)
     (duration a) (recurrence a) (custom_days a) (location a) (prep_time a)
     (is_outdoor a) v (created_at a) (updated_at a).

Definition set_updated_at (v : datetime) (a : t) : t :=
  mk (id a) (title a) (description a) (category a) (start_time a)
     (duration a) (recurrence a) (custom_days a) (location a) (prep_time a)
     (is_outdoor a) (is_active a) (created_at a) v.

(** Two states of an object hold the same values in the columns that
    [update] and [toggle] assign. *)
Definition option_eqb {A : Type} (eqb : A -> A -> bool) (x y : option A)
  : bool :=
  match x, y with
  | Some a, Some b => eqb a b
  | None, None => true
  | _, _ => false
  end.

Definition time_eqb (a b : time) : bool :=
  (hour a =? hour b) && (minute a =? minute b) && (second a =? second b)
  && (microsecond a =? microsecond b).

Definition same_columns (a b : t) : bool :=
  String.eqb (title a) (title b)
  && option_eqb String.eqb (description a) (description b)
  && String.eqb (category a) (category b)
  && time_eqb (start_time a) (start_time b)
  && option_eqb Z.eqb (duration a) (duration b)
  && String.eqb (recurrence a) (recurrence b)
  && option_eqb String.eqb (location a) (location b)
  && (prep_time a =? prep_time b)
  && Bool.eqb (is_outdoor a) (is_outdoor b)
  && Bool.eqb (is_active a) (is_active b).

(** The property [duration_formatted]. *)
Definition duration_formatted (a : t) : string :=
  match duration a with
  | None => "N/A"
  | Some d =>
      if negb (truthy_int (duration a)) then "N/A"
      else
        let hours := d / 60 in
        let mins := d mod 60 in
        if negb (hours =? 0) && negb (mins =? 0) then
          (str_int hours ++ "h " ++ str_int mins ++ "m")%string
        else if negb (hours =? 0) then (str_int hours ++ "h")%string
        else (str_int mins ++ "m")%string
  end.
End Activity.

Module Completion.
Record t : Type := mk {
  id : Z;
  activity_id : Z;
  date : Datetime.date;
  status : string;
  completed_at : option datetime;
  notes : option string;
  created_at : datetime
}.
End Completion.

(** The two tables, rows in insertion order. *)
Record DB : Type := mkDB {
  activities : list Activity.t;
  completions : list Completion.t
}.

(** The integers that the [sqlite3] driver binds as a parameter of a
    query: those of 64 bits, signed. A query with any other integer
    raises [OverflowError] in the driver, before it reaches the tables;
    the queries below are modelled for the keys and the limits of this
    range, and the properties of a lookup by key that may fail are stated
    for them. *)
Definition sqlite_int (n : Z) : bool := (- 2 ^ 63 <=? n) && (n <? 2 ^ 63).

(** The integer primary key SQLite gives a new row: one more than the
    largest key in the table. *)
Definition next_id (ids : list Z) : Z := fold_right Z.max 0 ids + 1.

(** ** [src/core/activity_manager.py] *)

Module ActivityManager.

(** [create]; [now] is the clock reading behind the column defaults
    [created_at] and [updated_at]. The outcome comes with the database
    after the call. *)
Definition create (parser_parse : string -> option datetime)
    (now : datetime)
    (title start_time category : string) (description : option string)
    (duration : option Z) (recurrence : string)
    (custom_days location : option string) (prep_time : Z)
    (is_outdoor : bool) (db : DB) : result Activity.t * DB :=
  let validated :=
    parsed_time <- parse_time parser_parse start_time ;;
    validated_category <- validate_category category ;;
    validated_recurrence <- validate_recurrence recurrence ;;
    duration <- match duration with
                | Some d =>
                    if truthy_int duration
                    then (d' <- validate_duration d ;; Ok (Some d'))
                    else Ok duration
                | None => Ok duration
                end ;;
    prep_time <- (if negb (prep_time =? 0) then validate_prep_time prep_time
                  else Ok prep_time) ;;
    Ok (Activity.mk (next_id (map Activity.id (activities db)))
          title description validated_category parsed_time duration
          validated_recurrence custom_days location prep_time is_outdoor
          true now now) in
  match validated with
  | Ok activity =>
      (Ok activity, mkDB (activities db ++ [activity]) (completions db))
  | Raise e => (Raise e, db)
  end.

(** [get_by_id(activity_id)], for a key that is a [sqlite_int]. *)
Definition get_by_id (activity_id : Z) (db : DB) : option Activity.t :=
  find (fun a => Activity.id a =? activity_id) (activities db).

Definition get_all (active_only : bool) (db : DB) : list Activity.t :=
  let rows :=
    if active_only then filter Activity.is_active (activities db)
    else activities db in
  sorted_by Activity.start_time time_ltb rows.

Definition _is_scheduled_for_date (activity : Activity.t)
    (target_date : date) : bool :=
  let recurrence := Activity.recurrence activity in
  if String.eqb recurrence "daily" then true
  else if String.eqb recurrence "weekdays" then is_weekday target_date
  else if String.eqb recurrence "weekends" then is_weekend target_date
  else if String.eqb recurrence "weekly" then
    weekday target_date =? weekday (dt_date (Activity.created_at activity))
  else if String.eqb recurrence "custom"
          && truthy_str (Activity.custom_days activity) then
    let day_name := slice_to 3 (get_day_name target_date) in
    match Activity.custom_days activity with
    | Some custom_days => str_in day_name (lower custom_days)
    | None => false
    end
  else if String.eqb recurrence "once" then
    date_eqb target_date (dt_date (Activity.created_at activity))
  else false.

Definition get_for_date (target_date : date) (db : DB) : list Activity.t :=
  let all_activities := get_all true db in
  let result :=
    fold_left
      (fun result activity =>
         if _is_scheduled_for_date activity target_date
         then result ++ [activity] else result)
      all_activities [] in
  sorted_by Activity.start_time time_ltb result.

(** [activity not in result]: the session hands out one object per row,
    so two activities are the same object exactly when their primary keys
    agree. *)
Definition activity_in (activity : Activity.t) (result : list Activity.t)
  : bool :=
  existsb (fun r => Activity.id r =? Activity.id activity) result.

(** The [for] loop of [get_for_week] for one day. *)
Definition week_day_pass (current : date) (all_activities : list Activity.t)
    (result : list Activity.t) : list Activity.t :=
  fold_left
    (fun result activity =>
       if _is_scheduled_for_date activity current
       then (if negb (activity_in activity result)
             then result ++ [activity] else result)
       else result)
    all_activities result.

(** The [while current <= week_end] loop; [None] is a loop cut short by
    the fuel. *)
Fixpoint week_loop (fuel : nat) (current week_end : date)
    (all_activities result : list Activity.t)
  : option (Py.result (list Activity.t)) :=
  if date_leb current week_end then
    match fuel with
    | O => None
    | S fuel' =>
        let result := week_day_pass current all_activities result in
        match replace_day current (day current + 1) with
        | Ok current' =>
            week_loop fuel' current' week_end all_activities result
        | Raise e => Some (Raise e)
        end
    end
  else Some (Ok result).

(** [get_for_week(target_date)]. A turn of the loop that does not raise
    adds one to the day of the month, which cannot pass 31: the fuel
    given is enough ([week_loop_fuel] below). *)
Definition get_for_week (today : date) (target_date : option date)
    (db : DB) : option (Py.result (list Activity.t)) :=
  match get_week_bounds today target_date "monday" with
  | Raise e => Some (Raise e)
  | Ok (week_start, week_end) =>
      let all_activities := get_all true db in
      let fuel := S (Z.to_nat (32 - day week_start)) in
      match week_loop fuel week_start week_end all_activities [] with
      | Some (Ok result) =>
          Some (Ok (sorted_by Activity.start_time time_ltb result))
      | other => other
      end
  end.

Definition get_by_category (category : string) (active_only : bool)
    (db : DB) : result (list Activity.t) :=
  validated_category <- validate_category category ;;
  let rows :=
    filter (fun a => String.eqb (Activity.category a) validated_category)
           (activities db) in
  let rows := if active_only then filter Activity.is_active rows else rows in
  Ok (sorted_by Activity.start_time time_ltb rows).

(** The UPDATE the session flushes for a changed activity: by primary
    key. *)
Definition update_activity_row (row : Activity.t) (rows : list Activity.t)
  : list Activity.t :=
  map (fun a => if Activity.id a =? Activity.id row then row else a) rows.

(** The flush of a changed object: [updated_at] carries
    [onupdate=datetime.now], which runs when the UPDATE is emitted, that
    is when some column holds a new value; an object whose columns are as
    they were is not written. *)
Definition flush_activity (now : datetime) (before after : Activity.t)
  : Activity.t :=
  if Activity.same_columns before after then after
  else Activity.set_updated_at now after.

(** The assignments of [update], in order; a validator that raises ends
    them. *)
Definition update_fields (parser_parse : string -> option datetime)
    (title start_time category description : option string)
    (duration : option Z) (recurrence location : option string)
    (prep_time : option Z) (is_outdoor : option bool)
    (activity : Activity.t) : result Activity.t :=
  let activity :=
    match title with
    | Some v => if truthy_str title then Activity.set_title v activity
                else activity
    | None => activity
    end in
  activity <- match start_time with
              | Some v =>
                  if truthy_str start_time
                  then (t <- parse_time parser_parse v ;;
                        Ok (Activity.set_start_time t activity))
                  else Ok activity
              | None => Ok activity
              end ;;
  activity <- match category with
              | Some v =>
                  if truthy_str category
                  then (c <- validate_category v ;;
                        Ok (Activity.set_category c activity))
                  else Ok activity
              | None => Ok activity
              end ;;
  let activity :=
    match description with
    | Some v => Activity.set_description (Some v) activity
    | None => activity
    end in
  activity <- match duration with
              | Some v =>
                  if truthy_int duration
                  then (d <- validate_duration v ;;
                        Ok (Activity.set_duration (Some d) activity))
                  else Ok activity
              | None => Ok activity
              end ;;
  activity <- match recurrence with
              | Some v =>
                  if truthy_str recurrence
                  then (r <- validate_recurrence v ;;
                        Ok (Activity.set_recurrence r activity))
                  else Ok activity
              | None => Ok activity
              end ;;
  let activity :=
    match location with
    | Some v => Activity.set_location (Some v) activity
    | None => activity
    end in
  activity <- match prep_time with
              | Some v =>
                  p <- validate_prep_time v ;;
                  Ok (Activity.set_prep_time p activity)
              | None => Ok activity
              end ;;
  Ok match is_outdoor with
     | Some v => Activity.set_is_outdoor v activity
     | None => activity
     end.

(** [update]: [None] for an unknown id; an exception leaves the session
    uncommitted, and the database as it was. *)
Definition update (parser_parse : string -> option datetime)
    (now : datetime) (activity_id : Z)
    (title start_time category description : option string)
    (duration : option Z) (recurrence location : option string)
    (prep_time : option Z) (is_outdoor : option bool) (db : DB)
  : result (option Activity.t) * DB :=
  match get_by_id activity_id db with
  | None => (Ok None, db)
  | Some activity =>
      match update_fields parser_parse title start_time category
              description duration recurrence location prep_time
              is_outdoor activity with
      | Raise e => (Raise e, db)
      | Ok changed =>
          let activity := flush_activity now activity changed in
          (Ok (Some activity),
           mkDB (update_activity_row activity (activities db))
                (completions db))
      end
  end.

(** [delete]: the row goes, and with it, by the cascade of the
    relationship [Activity.completions], the completions that reference
    it. *)
Definition delete (activity_id : Z) (db : DB) : bool * DB :=
  match get_by_id activity_id db with
  | None => (false, db)
  | Some activity =>
      (true,
       mkDB (filter (fun a => negb (Activity.id a =? Activity.id activity))
                    (activities db))
            (filter (fun c => negb (Completion.activity_id c
                                    =? Activity.id activity))
                    (completions db)))
  end.

Definition toggle (now : datetime) (activity_id : Z) (db : DB)
  : option Activity.t * DB :=
  match get_by_id activity_id db with
  | None => (None, db)
  | Some activity =>
      let activity :=
        flush_activity now activity
          (Activity.set_is_active (negb (Activity.is_active activity))
             activity) in
      (Some activity,
       mkDB (update_activity_row activity (activities db)) (completions db))
  end.


(** The [LIKE] of SQLite: [%] stands for any run of characters, [_] for
    any one character, and letters match whatever their case. *)
Fixpoint like (pattern text : string) : bool :=
  match pattern with
  | EmptyString =>
      match text with EmptyString => true | String _ _ => false end
  | String p pattern' =>
      if Ascii.eqb p "%" then
        (fix any (text : string) : bool :=
           like pattern' text ||
           match text with
           | EmptyString => false
           | String _ text' => any text'
           end) text
      else
        match text with
        | EmptyString => false
        | String c text' =>
            (Ascii.eqb p "_" || Ascii.eqb (ascii_lower p) (ascii_lower c))
            && like pattern' text'
        end
  end.

(** [column.ilike(pattern)], which SQLite runs as
    [lower(column) LIKE lower(pattern)]; a [NULL] column gives [NULL]. *)
Definition ilike (column : option string) (pattern : string) : option bool :=
  match column with
  | Some text => Some (like (lower pattern) (lower text))
  | None => None
  end.

(** [OR] of SQL, and the rows a [WHERE] keeps: those whose condition is
    true. *)
Definition sql_or (a b : option bool) : option bool :=
  match a, b with
  | Some true, _ | _, Some true => Some true
  | Some false, Some false => Some false
  | _, _ => None
  end.

Definition sql_where (condition : option bool) : bool :=
  match condition with Some true => true | _ => false end.

Definition search (query : string) (db : DB) : list Activity.t :=
  let search_term := ("%" ++ query ++ "%")%string in
  sorted_by Activity.start_time time_ltb
    (filter (fun a =>
               sql_where
                 (sql_or (ilike (Some (Activity.title a)) search_term)
                         (ilike (Activity.description a) search_term)))
            (activities db)).

End ActivityManager.

(** ** Python [float] *)

Module Float.

Definition prec : Z := 53.
Definition emax : Z := 1024.

Definition float : Type := spec_float.

(** The double nearest to [m * 2 ^ e] (ties to even). *)
Definition of_scaled (m e : Z) : float := binary_normalize prec emax m e false.

(** [float(n)] for an [int]. *)
Definition of_int (n : Z) : float := of_scaled n 0.

Definition add : float -> float -> float := SFadd prec emax.
Definition mul : float -> float -> float := SFmul prec emax.
Definition div : float -> float -> float := SFdiv prec emax.

(** The literals [0.0], [0.5] and [100]. *)
Definition zero : float := S754_zero false.
Definition half : float := of_scaled 1 (-1).
Definition hundred : float := of_int 100.

(** [n / d] rounded to the nearest integer, ties to the even one;
    [0 <= n] and [0 < d]. *)
Definition div_half_even (n d : Z) : Z :=
  let q := n / d in
  let r := n mod d in
  match 2 * r ?= d with
  | Lt => q
  | Gt => q + 1
  | Eq => if Z.even q then q else q + 1
  end.

(** The number of tenths nearest to the exact value of a finite double
    of magnitude [m * 2 ^ e]. *)
Definition tenths (m : positive) (e : Z) : Z :=
  match e with
  | Zneg p => div_half_even (10 * Zpos m) (2 ^ Zpos p)
  | _ => 10 * Zpos m * 2 ^ e
  end.

(** The double nearest to [k / 10], with sign [s]. *)
Definition of_tenths (s : bool) (k : Z) : float :=
  match k with
  | Zpos p => div (S754_finite s p 0) (S754_finite false 10 0)
  | _ => S754_zero s
  end.

(** [round(x, 1)]: the exact value of [x] goes to the nearest decimal
    with one digit after the point, ties to the even digit, and that
    decimal to the nearest double. *)
Definition round1 (x : float) : float :=
  match x with
  | S754_finite s m e => of_tenths s (tenths m e)
  | _ => x
  end.


Definition sub : float -> float -> float := SFsub prec emax.

(** The same double, bit for bit. *)
Definition same (a b : float) : bool :=
  match a, b with
  | S754_zero s, S754_zero s' => Bool.eqb s s'
  | S754_infinity s, S754_infinity s' => Bool.eqb s s'
  | S754_nan, S754_nan => true
  | S754_finite s m e, S754_finite s' m' e' =>
      Bool.eqb s s' && Pos.eqb m m' && (e =? e')
  | _, _ => false
  end.

(** [a < b] on doubles. *)
Definition ltb (a b : float) : bool := SFltb a b.

(** [int(x)]: the integer part, towards zero. *)
Definition trunc (x : float) : Z :=
  match x with
  | S754_finite s m e =>
      let magnitude :=
        match e with
        | Zneg p => Zpos m / 2 ^ Zpos p
        | _ => Zpos m * 2 ^ e
        end in
      if s then - magnitude else magnitude
  | _ => 0
  end.

(** A number that starts as an [int] and becomes a [float] when a
    [float] is added to it. *)
Inductive number : Type :=
| Int (n : Z)
| Flt (x : float).

(** [a + n] for an [int] [n], [a + y] for a [float] [y], [int(a)], and
    the true division [a / d] by an [int]. *)
Definition number_add_int (a : number) (n : Z) : number :=
  match a with
  | Int m => Int (m + n)
  | Flt x => Flt (add x (of_int n))
  end.

Definition number_add_float (a : number) (y : float) : number :=
  match a with
  | Int m => Flt (add (of_int m) y)
  | Flt x => Flt (add x y)
  end.

Definition number_to_int (a : number) : Z :=
  match a with
  | Int m => m
  | Flt x => trunc x
  end.

Definition number_div_int (a : number) (d : Z) : float :=
  match a with
  | Int m => div (of_int m) (of_int d)
  | Flt x => div x (of_int d)
  end.

End Float.

(** ** [src/core/completion_manager.py] *)

(** The readings of the clock a call makes: [date.today()] and
    [datetime.now()]. *)
Record clock : Type := mkclock { today : date; now : datetime }.

Module CompletionManager.

(** The pair query of [mark] and [get_completion_status], [.first()]. *)
Definition find_pair (activity_id : Z) (target_date : date) (db : DB)
  : option Completion.t :=
  find (fun c => (Completion.activity_id c =? activity_id)
                 && date_eqb (Completion.date c) target_date)
       (completions db).

(** What [mark] writes into a row that is already there. *)
Definition remark (k : clock) (validated_status : string)
    (notes : option string) (existing : Completion.t) : Completion.t :=
  Completion.mk
    (Completion.id existing)
    (Completion.activity_id existing)
    (Completion.date existing)
    validated_status
    (if String.eqb validated_status "done" then Some (now k)
     else Completion.completed_at existing)
    (if truthy_str notes then notes else Completion.notes existing)
    (Completion.created_at existing).

(** The UPDATE the session flushes for a changed object: by primary
    key. *)
Definition update_row (row : Completion.t) (rows : list Completion.t)
  : list Completion.t :=
  map (fun c => if Completion.id c =? Completion.id row then row else c) rows.

(** [mark(activity_id, status, target_date, notes)]: the outcome (an
    exception, [None], or the completion) and the database afterwards;
    for a key that is a [sqlite_int]. *)
Definition mark (k : clock) (activity_id : Z) (status : string)
    (target_date : option date) (notes : option string) (db : DB)
  : result (option Completion.t) * DB :=
  match validate_status status with
  | Raise e => (Raise e, db)
  | Ok validated_status =>
      let target_date :=
        match target_date with Some d => d | None => today k end in
      match find (fun a => Activity.id a =? activity_id) (activities db) with
      | None => (Ok None, db)
      | Some _ =>
          match find_pair activity_id target_date db with
          | Some existing =>
              let existing := remark k validated_status notes existing in
              (Ok (Some existing),
               mkDB (activities db) (update_row existing (completions db)))
          | None =>
              let completion :=
                Completion.mk
                  (next_id (map Completion.id (completions db)))
                  activity_id target_date validated_status
                  (if String.eqb validated_status "done" then Some (now k)
                   else None)
                  notes (now k) in
              (Ok (Some completion),
               mkDB (activities db) (completions db ++ [completion]))
          end
      end
  end.

Definition get_completion_status (k : clock) (activity_id : Z)
    (target_date : option date) (db : DB) : option string :=
  let target_date :=
    match target_date with Some d => d | None => today k end in
  option_map Completion.status (find_pair activity_id target_date db).

(** The dictionary [get_stats] returns. *)
Record stats : Type := mkstats {
  total : Z;
  done : Z;
  missed : Z;
  partial : Z;
  rescheduled : Z;
  completion_rate : Float.float
}.

(** [sum(1 for c in completions if c.status == status)]. *)
Definition count_status (status : string) (completions : list Completion.t)
  : Z :=
  fold_left
    (fun acc c => if String.eqb (Completion.status c) status
                  then acc + 1 else acc)
    completions 0.

Definition get_stats (start_date end_date : date) (db : DB) : stats :=
  let completions :=
    filter (fun c => date_leb start_date (Completion.date c)
                     && date_leb (Completion.date c) end_date)
           (completions db) in
  let total := Z.of_nat (List.length completions) in
  if total =? 0 then mkstats 0 0 0 0 0 Float.zero
  else
    let done := count_status "done" completions in
    let missed := count_status "missed" completions in
    let partial := count_status "partial" completions in
    let rescheduled := count_status "rescheduled" completions in
    let completion_rate :=
      Float.mul
        (Float.div
           (Float.add (Float.of_int done)
                      (Float.mul (Float.of_int partial) Float.half))
           (Float.of_int total))
        Float.hundred in
    mkstats total done missed partial rescheduled
            (Float.round1 completion_rate).

(** The rows of one activity with status [done], newest date first. *)
Definition done_rows (activity_id : Z) (db : DB) : list Completion.t :=
  sorted_by_rev Completion.date date_ltb
    (filter (fun c => (Completion.activity_id c =? activity_id)
                      && String.eqb (Completion.status c) "done")
            (completions db)).

(** The [for] loop of [get_streak]; the step back is
    [expected_date.replace(day=expected_date.day - 1)]. *)
Fixpoint streak_loop (completions : list Completion.t) (expected_date : date)
    (streak : Z) : result Z :=
  match completions with
  | [] => Ok streak
  | completion :: rest =>
      if date_eqb (Completion.date completion) expected_date then
        expected_date' <- replace_day expected_date (day expected_date - 1) ;;
        streak_loop rest expected_date' (streak + 1)
      else if date_ltb (Completion.date completion) expected_date then
        Ok streak
      else streak_loop rest expected_date streak
  end.

Definition get_streak (k : clock) (activity_id : Z) (db : DB) : result Z :=
  let completions := done_rows activity_id db in
  match completions with
  | [] => Ok 0
  | _ => streak_loop completions (today k) 0
  end.

(** [LIMIT n] of SQLite: the first [n] rows, and every row when [n] is
    negative. *)
Definition sql_limit {A : Type} (n : Z) (rows : list A) : list A :=
  if n <? 0 then rows else firstn (Z.to_nat n) rows.

(** [get_for_activity(activity_id, limit)]: the history of an activity,
    newest date first; for a key and a limit that are [sqlite_int]. *)
Definition get_for_activity (activity_id : Z) (limit : Z) (db : DB)
  : list Completion.t :=
  sql_limit limit
    (sorted_by_rev Completion.date date_ltb
       (filter (fun c => Completion.activity_id c =? activity_id)
               (completions db))).

End CompletionManager.

(** ** [src/core/analytics_engine.py] *)

Module AnalyticsEngine.

(** The [for] loop of [_calculate_streak]; the step back is
    [expected_date -= timedelta(days=1)]. *)
Fixpoint streak_loop (completions : list Completion.t) (expected_date : date)
    (streak : Z) : result Z :=
  match completions with
  | [] => Ok streak
  | completion :: rest =>
      if date_eqb (Completion.date completion) expected_date then
        expected_date' <- sub_days expected_date 1 ;;
        streak_loop rest expected_date' (streak + 1)
      else if date_ltb (Completion.date completion) expected_date then
        Ok streak
      else streak_loop rest expected_date streak
  end.

Definition _calculate_streak (k : clock) (activity_id : Z) (db : DB)
  : result Z :=
  let completions := CompletionManager.done_rows activity_id db in
  match completions with
  | [] => Ok 0
  | _ => streak_loop completions (today k) 0
  end.

(** One dictionary of the list [get_streaks] returns. *)
Record streak_entry : Type := mkentry {
  entry_activity_id : Z;
  entry_title : string;
  entry_category : string;
  entry_streak : Z
}.

(** The [for] loop of [get_streaks]: one entry per activity, in order,
    unless a streak raises. *)
Fixpoint streak_entries (k : clock) (activities : list Activity.t) (db : DB)
  : result (list streak_entry) :=
  match activities with
  | [] => Ok []
  | activity :: rest =>
      streak <- _calculate_streak k (Activity.id activity) db ;;
      streaks <- streak_entries k rest db ;;
      Ok (mkentry (Activity.id activity) (Activity.title activity)
                  (Activity.category activity) streak :: streaks)
  end.

Definition get_streaks (k : clock) (db : DB) : result (list streak_entry) :=
  let activities := filter Activity.is_active (activities db) in
  streaks <- streak_entries k activities db ;;
  Ok (sorted_by_rev entry_streak Z.ltb streaks).


(** [get_weekly_data]: the bounds of the week and its completions. *)
Definition get_weekly_data (today : date) (target_date : option date)
    (db : DB) : result (date * date * list Completion.t) :=
  bounds <- get_week_bounds today target_date "monday" ;;
  let (week_start, week_end) := bounds : date * date in
  Ok (week_start, week_end,
      filter (fun c => date_leb week_start (Completion.date c)
                       && date_leb (Completion.date c) week_end)
             (completions db)).

(** The dictionaries [{"done": .., "total": ..}] that the two groupings
    count in, keyed by a text, in the order the keys were inserted. *)
Definition tally : Type := (Float.number * Z)%type.

Definition count_completion (completion : Completion.t) (data : tally)
  : tally :=
  let (done, total) := data in
  let total := total + 1 in
  if String.eqb (Completion.status completion) "done" then
    (Float.number_add_int done 1, total)
  else if String.eqb (Completion.status completion) "partial" then
    (Float.number_add_float done Float.half, total)
  else (done, total).

(** [d[key] = f(d[key])], a key that is missing being inserted with the
    default first. *)
Fixpoint dict_update (key : string) (f : tally -> tally) (default : tally)
    (d : list (string * tally)) : list (string * tally) :=
  match d with
  | [] => [(key, f default)]
  | (k, v) :: rest =>
      if String.eqb k key then (k, f v) :: rest
      else (k, v) :: dict_update key f default rest
  end.

Record category_stats : Type := mkcategory_stats {
  cat_done : Z;
  cat_total : Z;
  cat_rate : Float.number
}.

Record day_stats : Type := mkday_stats {
  day_done : Z;
  day_total : Z;
  day_rate : Float.float
}.

Definition _calculate_category_stats (completions : list Completion.t)
    (db : DB) : list (string * category_stats) :=
  let category_data :=
    fold_left
      (fun category_data completion =>
         match find (fun a => Activity.id a
                              =? Completion.activity_id completion)
                    (activities db) with
         | Some activity =>
             dict_update (Activity.category activity)
               (count_completion completion) (Float.Int 0, 0) category_data
         | None => category_data
         end)
      completions [] in
  map (fun item : string * tally =>
         let (category, data) := item in
         let (done, total) := data in
         let rate :=
           if 0 <? total then
             Float.Flt
               (Float.round1
                  (Float.mul (Float.number_div_int done total)
                             Float.hundred))
           else Float.Int 0 in
         (category,
          mkcategory_stats (Float.number_to_int done) total rate))
      category_data.

Definition days : list string :=
  ["Monday"; "Tuesday"; "Wednesday"; "Thursday"; "Friday"; "Saturday";
   "Sunday"].

(** The loop of [_calculate_day_stats] that counts, and the one that
    keeps the days that have completions. *)
Definition day_counts (completions : list Completion.t)
  : list (string * tally) :=
  fold_left
    (fun day_data completion =>
       dict_update (strftime_A (Completion.date completion))
         (count_completion completion) (Float.Int 0, 0) day_data)
    completions
    (map (fun day => (day, (Float.Int 0, 0))) days).

Definition day_rates (day_data : list (string * tally))
  : list (string * day_stats) :=
  flat_map
    (fun item : string * tally =>
       let (day, data) := item in
       let (done, total) := data in
       if 0 <? total then
         let rate :=
           Float.mul (Float.number_div_int done total) Float.hundred in
         [(day,
           mkday_stats (Float.number_to_int done) total (Float.round1 rate))]
       else [])
    day_data.

Definition _calculate_day_stats (completions : list Completion.t)
  : list (string * day_stats) :=
  day_rates (day_counts completions).

(** The dictionary [calculate_stats] returns. *)
Record weekly_stats : Type := mkweekly_stats {
  week_start : date;
  week_end : date;
  total : Z;
  done : Z;
  missed : Z;
  partial : Z;
  rescheduled : Z;
  completion_rate : Float.float;
  by_category : list (string * category_stats);
  by_day : list (string * day_stats);
  best_day : option string;
  worst_day : option string
}.

Definition calculate_stats (today : date) (target_date : option date)
    (db : DB) : result weekly_stats :=
  data <- get_weekly_data today target_date db ;;
  let '(week_start, week_end, completions) := data in
  let total := Z.of_nat (List.length completions) in
  if total =? 0 then
    Ok (mkweekly_stats week_start week_end 0 0 0 0 0 Float.zero [] [] None
          None)
  else
    let done := CompletionManager.count_status "done" completions in
    let missed := CompletionManager.count_status "missed" completions in
    let partial := CompletionManager.count_status "partial" completions in
    let rescheduled :=
      CompletionManager.count_status "rescheduled" completions in
    let completion_rate :=
      Float.mul
        (Float.div
           (Float.add (Float.of_int done)
                      (Float.mul (Float.of_int partial) Float.half))
           (Float.of_int total))
        Float.hundred in
    let by_category := _calculate_category_stats completions db in
    let by_day := _calculate_day_stats completions in
    let '(best_day, worst_day) :=
      match by_day with
      | [] => (None, None)
      | _ :: _ =>
          let sorted_days :=
            sorted_by_rev
              (fun item : string * day_stats => day_rate (snd item))
              Float.ltb by_day in
          let nothing := ("", mkday_stats 0 0 Float.zero) in
          let first := List.hd nothing sorted_days in
          let last := List.last sorted_days nothing in
          (if Float.ltb Float.zero (day_rate (snd first))
           then Some (fst first) else None,
           if 0 <? day_total (snd last) then Some (fst last) else None)
      end in
    Ok (mkweekly_stats week_start week_end total done missed partial
          rescheduled (Float.round1 completion_rate) by_category by_day
          best_day worst_day).

(** The dictionary [compare_weeks] returns. *)
Record comparison : Type := mkcomparison {
  current : weekly_stats;
  previous : weekly_stats;
  rate_change : Float.float;
  improved : bool
}.

Definition compare_weeks (today : date) (current_date : option date)
    (db : DB) : result comparison :=
  let current_date :=
    match current_date with Some d => d | None => today end in
  current_stats <- calculate_stats today (Some current_date) db ;;
  previous_date <- sub_days current_date 7 ;;
  previous_stats <- calculate_stats today (Some previous_date) db ;;
  let rate_change :=
    Float.sub (completion_rate current_stats)
              (completion_rate previous_stats) in
  Ok (mkcomparison current_stats previous_stats (Float.round1 rate_change)
        (Float.ltb Float.zero rate_change)).

End AnalyticsEngine.

(** ** [src/core/smart_suggestions.py] *)

Module SmartSuggestions.

Record Suggestion : Type := mkSuggestion {
  message : string;
  priority : string;
  category : string;
  activity_id : option Z
}.

(** The first loop of [_get_activity_suggestions], over the Health
    activities. [readings] holds what [weather_service.get_current()]
    answers, call after call: the humidity of the answer, or [None] when
    the service has no answer; [calls] counts the calls made. *)
Fixpoint health_loop (readings : nat -> option Z) (calls : nat)
    (health_activities : list Activity.t) (suggestions : list Suggestion)
  : list Suggestion :=
  match health_activities with
  | [] => suggestions
  | activity :: rest =>
      if Activity.is_outdoor activity then
        match readings calls with
        | Some humidity =>
            health_loop readings (S calls) rest
              (if 80 <? humidity then
                 suggestions ++
                 [mkSuggestion
                    ("High humidity (" ++ str_int humidity ++ "%) for '"
                     ++ Activity.title activity ++ "' - take it easy.")%string
                    "medium" "health" (Some (Activity.id activity))]
               else suggestions)
        | None => health_loop readings (S calls) rest suggestions
        end
      else health_loop readings calls rest suggestions
  end.

(** The second loop, over every activity but the last, with the one
    that follows it. *)
Fixpoint back_to_back_loop (activities : list Activity.t)
    (suggestions : list Suggestion) : result (list Suggestion) :=
  match activities with
  | activity :: ((next_activity :: _) as rest) =>
      suggestions <-
        match Activity.duration activity with
        | Some duration =>
            if truthy_int (Activity.duration activity) then
              let end_minutes :=
                hour (Activity.start_time activity) * 60
                + minute (Activity.start_time activity) + duration in
              end_time <- time_new (end_minutes / 60) (end_minutes mod 60) ;;
              let next_start_minutes :=
                hour (Activity.start_time next_activity) * 60
                + minute (Activity.start_time next_activity) in
              let gap := next_start_minutes - end_minutes in
              Ok (if (gap <? 15) && (0 <=? gap) then
                    suggestions ++
                    [mkSuggestion
                       ("Tight schedule: only " ++ str_int gap
                        ++ " min between '" ++ Activity.title activity
                        ++ "' and '" ++ Activity.title next_activity
                        ++ "'")%string
                       "low" "time" None]
                  else suggestions)
            else Ok suggestions
        | None => Ok suggestions
        end ;;
      back_to_back_loop rest suggestions
  | _ => Ok suggestions
  end.

Definition _get_activities_for_date (target_date : date) (db : DB)
  : list Activity.t :=
  ActivityManager.get_for_date target_date db.

Definition _get_activity_suggestions (readings : nat -> option Z)
    (target_date : date) (db : DB) : result (list Suggestion) :=
  let activities := _get_activities_for_date target_date db in
  let health_activities :=
    filter (fun a => String.eqb (Activity.category a) "Health") activities in
  let suggestions := health_loop readings 0 health_activities [] in
  back_to_back_loop activities suggestions.

End SmartSuggestions.

(** ** [api/routers/activities.py] *)

Module Api.

(** How a call of an endpoint ends: with the body it returns, with an
    [HTTPException] it raises, with an exception of a callee that it does
    not handle, or with the [AttributeError] of an attribute read from
    [None]. The endpoints are modelled for the keys and the limits that
    are [sqlite_int]: with any other the first query of the endpoint
    raises [OverflowError] in the driver. *)
Inductive response (A : Type) : Type :=
| Returns (body : A)
| HTTPException (status_code : Z) (detail : string)
| Propagates (e : exn)
| AttributeError (msg : string).

Arguments Returns {A} body.
Arguments HTTPException {A} status_code detail.
Arguments Propagates {A} e.
Arguments AttributeError {A} msg.

Record activity_response : Type := mk_activity_response {
  r_id : Z;
  r_title : string;
  r_start_time : string;
  r_category : string;
  r_description : option string;
  r_duration : option Z;
  r_duration_formatted : string;
  r_recurrence : string;
  r_location : option string;
  r_prep_time : Z;
  r_is_outdoor : bool;
  r_is_active : bool
}.

Definition activity_to_response (activity : Activity.t) : activity_response :=
  mk_activity_response
    (Activity.id activity) (Activity.title activity)
    (strftime_HM (Activity.start_time activity))
    (Activity.category activity) (Activity.description activity)
    (Activity.duration activity) (Activity.duration_formatted activity)
    (Activity.recurrence activity) (Activity.location activity)
    (Activity.prep_time activity) (Activity.is_outdoor activity)
    (Activity.is_active activity).

(** The body of [mark_activity], and the items of a history. *)
Record completion_response : Type := mk_completion_response {
  c_activity_id : Z;
  c_date : string;
  c_status : string;
  c_notes : option string
}.

Record history_item : Type := mk_history_item {
  h_date : string;
  h_status : string;
  h_notes : option string
}.

Record history_response : Type := mk_history_response {
  h_activity : activity_response;
  h_streak : Z;
  h_history : list history_item
}.

(** [mark_activity(activity_id, data)], with the fields of [data]. *)
Definition mark_activity (parser_parse : string -> option datetime)
    (k : clock) (activity_id : Z) (data_status : string)
    (data_notes data_date : option string) (db : DB)
  : response completion_response * DB :=
  match ActivityManager.get_by_id activity_id db with
  | None => (HTTPException 404 "Activity not found", db)
  | Some activity =>
      let target_date :=
        match data_date with
        | Some text =>
            if truthy_str data_date
            then (d <- parse_date parser_parse (today k) text ;; Ok (Some d))
            else Ok None
        | None => Ok None
        end in
      match target_date with
      | Raise (ValueError msg) => (HTTPException 400 msg, db)
      | Raise e => (Propagates e, db)
      | Ok target_date =>
          match CompletionManager.mark k activity_id data_status target_date
                  data_notes db with
          | (Raise (ValueError msg), db') => (HTTPException 400 msg, db')
          | (Raise e, db') => (Propagates e, db')
          | (Ok None, db') =>
              (AttributeError
                 "'NoneType' object has no attribute 'activity_id'", db')
          | (Ok (Some completion), db') =>
              (Returns
                 (mk_completion_response
                    (Completion.activity_id completion)
                    (isoformat (Completion.date completion))
                    (Completion.status completion)
                    (Completion.notes completion)),
               db')
          end
      end
  end.

(** [get_activity_history(activity_id, limit)]. *)
Definition get_activity_history (k : clock) (activity_id limit : Z)
    (db : DB) : response history_response :=
  match ActivityManager.get_by_id activity_id db with
  | None => HTTPException 404 "Activity not found"
  | Some activity =>
      let completions :=
        CompletionManager.get_for_activity activity_id limit db in
      match CompletionManager.get_streak k activity_id db with
      | Raise e => Propagates e
      | Ok streak =>
          Returns
            (mk_history_response
               (activity_to_response activity) streak
               (map (fun c =>
                       mk_history_item (isoformat (Completion.date c))
                         (Completion.status c) (Completion.notes c))
                    completions))
      end
  end.

(** [get_activity], [delete_activity] and [toggle_activity]. *)
Definition get_activity (activity_id : Z) (db : DB)
  : response activity_response :=
  match ActivityManager.get_by_id activity_id db with
  | None => HTTPException 404 "Activity not found"
  | Some activity => Returns (activity_to_response activity)
  end.

Definition delete_activity (activity_id : Z) (db : DB)
  : response string * DB :=
  let (success, db') := ActivityManager.delete activity_id db in
  if negb success then (HTTPException 404 "Activity not found", db')
  else (Returns "Activity deleted", db').

Definition toggle_activity (now : datetime) (activity_id : Z) (db : DB)
  : response activity_response * DB :=
  match ActivityManager.toggle now activity_id db with
  | (None, db') => (HTTPException 404 "Activity not found", db')
  | (Some activity, db') => (Returns (activity_to_response activity), db')
  end.

End Api.

(** ** Vocabulary of the specification *)

(** *** The schedule *)

(** The days of the week; [Datetime.weekday] counts them from Monday. *)
Inductive day_of_week : Type := Mon | Tue | Wed | Thu | Fri | Sat | Sun.

Definition day_of_week_of (d : date) : day_of_week :=
  match weekday d with
  | 0 => Mon | 1 => Tue | 2 => Wed | 3 => Thu | 4 => Fri | 5 => Sat
  | _ => Sun
  end.

(** The 3-letter lowercase abbreviation of a day. *)
Definition abbreviation (w : day_of_week) : string :=
  match w with
  | Mon => "mon" | Tue => "tue" | Wed => "wed" | Thu => "thu"
  | Fri => "fri" | Sat => "sat" | Sun => "sun"
  end.

(** [sub] occurs in [s]. *)
Definition occurs (sub s : string) : Prop :=
  exists pre post, s = (pre ++ sub ++ post)%string.

(** [sub] occurs in [s] up to the case of the letters. *)
Definition occurs_ignoring_case (sub s : string) : Prop :=
  exists pre mid post,
    s = (pre ++ mid ++ post)%string /\ lower mid = lower sub.

(** The last day of the month of a date. *)
Definition month_end (d : date) : date :=
  mkdate (year d) (month d) (_days_in_month (year d) (month d)).

(** The date [i] days before [d], inside the month of [d]. *)
Definition days_back (d : date) (i : Z) : date :=
  mkdate (year d) (month d) (day d - i).

(** *** Orders *)

(** [a] may stand before [b] in ascending order of the keys, and in
    descending order. *)
Definition ascending {A K : Type} (key : A -> K) (ltb : K -> K -> bool)
    (a b : A) : Prop :=
  ltb (key b) (key a) = false.

Definition descending {A K : Type} (key : A -> K) (ltb : K -> K -> bool)
    (a b : A) : Prop :=
  ltb (key a) (key b) = false.

(** The orders of the listings: ascending start time for activities,
    descending date for completions, descending streak for the streak
    listing. *)
Definition start_le : Activity.t -> Activity.t -> Prop :=
  ascending Activity.start_time time_ltb.

Definition date_ge : Completion.t -> Completion.t -> Prop :=
  descending Completion.date date_ltb.

Definition streak_ge (a b : AnalyticsEngine.streak_entry) : Prop :=
  AnalyticsEngine.entry_streak b <= AnalyticsEngine.entry_streak a.

(** *** The ledger *)

(** The date a [mark] call is for: [target_date], or today when it is
    absent. *)
Definition resolved_date (k : clock) (target_date : option date) : date :=
  match target_date with Some d => d | None => today k end.

(** A row is for the pair (activity, date). *)
Definition is_pair (activity_id : Z) (d : date) (c : Completion.t) : bool :=
  (Completion.activity_id c =? activity_id) && date_eqb (Completion.date c) d.

(** The rows of a pair in the completion table. *)
Definition pair_rows (activity_id : Z) (d : date) (db : DB)
  : list Completion.t :=
  filter (is_pair activity_id d) (completions db).

(** The primary key of the completion table. *)
Definition pk_unique (db : DB) : Prop :=
  NoDup (map Completion.id (completions db)).

(** The uniqueness invariant of the ledger: at most one completion per
    pair (activity, date). *)
Definition pair_unique (db : DB) : Prop :=
  forall activity_id d, (List.length (pair_rows activity_id d db) <= 1)%nat.

(** *** Statistics *)

(** The completions whose date lies in a range, and those of them that
    carry a status. *)
Definition in_range (start_date end_date : date) (db : DB)
  : list Completion.t :=
  filter (fun c => date_leb start_date (Completion.date c)
                   && date_leb (Completion.date c) end_date)
         (completions db).

Definition with_status (status : string) (rows : list Completion.t)
  : list Completion.t :=
  filter (fun c => String.eqb (Completion.status c) status) rows.

(** [round(((done + partial * 0.5) / total) * 100, 1)] on doubles. *)
Definition rate_formula (done partial total : Z) : Float.float :=
  Float.round1
    (Float.mul
       (Float.div
          (Float.add (Float.of_int done)
                     (Float.mul (Float.of_int partial) Float.half))
          (Float.of_int total))
       Float.hundred).

(** A number of tenths [k] for which [k / 10] is a number with one
    decimal nearest to the exact rate
    [(done + 0.5 * partial) / total * 100]: at most half a tenth away
    from it. *)
Definition nearest_tenth (k done partial total : Z) : Prop :=
  Z.abs ((2 * done + partial) * 1000 - 2 * k * total) <= total.

(** The rate of the specification, in tenths: the exact rate rounded to
    one decimal, a value halfway between two going up. *)
Definition spec_rate_tenths (done partial total : Z) : Z :=
  ((2 * done + partial) * 1000 + total) / (2 * total).

(** The exact rate lies halfway between two numbers with one decimal. *)
Definition halfway (done partial total : Z) : Prop :=
  ((2 * done + partial) * 1000 + total) mod (2 * total) = 0.

(** The number of tenths [round(x, 1)] gives for a double that is zero
    or positive. *)
Definition rate_tenths (x : Float.float) : option Z :=
  match x with
  | S754_zero false => Some 0
  | S754_finite false m e => Some (Float.tenths m e)
  | _ => None
  end.

(** Two checks by computation, for the ranges of at most [bound]
    completions: the sum [done + partial * 0.5] is the double of its exact
    value, [(2 * done + partial) / 2]; and the rate of [n] halves in
    [total], as the code computes it, is rounded to a nearest tenth. *)
Definition zrange (first : nat) (n : nat) : list Z :=
  map Z.of_nat (seq first n).

Definition sums_exact (bound : nat) : bool :=
  forallb
    (fun done =>
       forallb
         (fun partial =>
            Float.same
              (Float.add (Float.of_int done)
                         (Float.mul (Float.of_int partial) Float.half))
              (Float.of_scaled (2 * done + partial) (-1)))
         (zrange 0 (S bound - Z.to_nat done)))
    (zrange 0 (S bound)).

Definition rates_nearest (bound : nat) : bool :=
  forallb
    (fun total =>
       forallb
         (fun n =>
            match rate_tenths
                    (Float.mul
                       (Float.div (Float.of_scaled n (-1))
                                  (Float.of_int total))
                       Float.hundred) with
            | Some k => Z.abs (n * 1000 - 2 * k * total) <=? total
            | None => false
            end)
         (zrange 0 (S (2 * Z.to_nat total))))
    (zrange 1 bound).

(** The completions of a list that fall on a day of the week, and the
    sum of the totals of a grouping by day. *)
Definition on_day (day : string) (rows : list Completion.t)
  : list Completion.t :=
  filter (fun c => String.eqb (strftime_A (Completion.date c)) day) rows.

Definition sum_totals (by_day : list (string * AnalyticsEngine.day_stats))
  : Z :=
  fold_right (fun item acc => AnalyticsEngine.day_total (snd item) + acc) 0
             by_day.

(** *** Streaks *)

(** The activity has a completion with status [done] for the date. *)
Definition has_done (activity_id : Z) (db : DB) (d : date) : bool :=
  existsb (fun c => (Completion.activity_id c =? activity_id)
                    && String.eqb (Completion.status c) "done"
                    && date_eqb (Completion.date c) d)
          (completions db).

(** Some row of a list is for the date. *)
Definition has_date (rows : list Completion.t) (d : date) : bool :=
  existsb (fun c => date_eqb (Completion.date c) d) rows.

(** The walk back through one month, from day [n] of month [m] of year
    [y]: one more day of streak for every day that [has] holds of, up to
    the first day that it does not hold of; a walk that comes to day 1
    with the streak unbroken ends in the [ValueError] of
    [replace(day=0)]. *)
Fixpoint walk_back (has : date -> bool) (y m : Z) (n : nat) (streak : Z)
  : result Z :=
  match n with
  | O => Ok streak
  | S n' =>
      if has (mkdate y m (Z.of_nat n)) then
        match n' with
        | O => Raise (ValueError "day is out of range for month")
        | S _ => walk_back has y m n' (streak + 1)
        end
      else Ok streak
  end.

(** The date [i] days before [d], whatever the month. *)
Definition days_before (d : date) (i : Z) : date :=
  fromordinal (toordinal d - i).

(** *** The day and the search *)

(** The minute of the day an activity of a duration ends at, and an
    activity whose end, for the duration it has, is not a time of its
    day: at 24:00 or later (or before 0:00, for a negative duration). *)
Definition end_minutes (a : Activity.t) (duration : Z) : Z :=
  hour (Activity.start_time a) * 60 + minute (Activity.start_time a)
  + duration.

Definition off_the_clock (a : Activity.t) : Prop :=
  exists d,
    Activity.duration a = Some d /\ d <> 0 /\
    (end_minutes a d < 0 \/ 1440 <= end_minutes a d).


(** *** The state of the system *)

(** The primary key of the activity table. *)
Definition activity_pk_unique (db : DB) : Prop :=
  NoDup (map Activity.id (activities db)).

(** Every completion belongs to an activity of the table. *)
Definition no_orphans (db : DB) : Prop :=
  forall c, In c (completions db) ->
    ActivityManager.get_by_id (Completion.activity_id c) db <> None.

(** The columns of an activity hold values the validators let through. *)
Definition activity_ok (a : Activity.t) : Prop :=
  In (Activity.category a) CATEGORIES /\
  In (Activity.recurrence a) RECURRENCE_OPTIONS /\
  0 <= Activity.prep_time a <= 180 /\
  (forall n, Activity.duration a = Some n -> 0 <= n <= 1440).

(** The status of a completion is one of the four, and a completion
    that is [done] carries the time it was done at. *)
Definition completion_ok (c : Completion.t) : Prop :=
  In (Completion.status c) COMPLETION_STATUSES /\
  (Completion.status c = "done" -> Completion.completed_at c <> None).

Definition db_wf (db : DB) : Prop :=
  activity_pk_unique db /\ pk_unique db /\ pair_unique db /\
  no_orphans db /\
  Forall activity_ok (activities db) /\
  Forall completion_ok (completions db).

(** The calls that write to the database, with their arguments. *)
Inductive command : Type :=
| Create (title start_time category : string) (description : option string)
    (duration : option Z) (recurrence : string)
    (custom_days location : option string) (prep_time : Z)
    (is_outdoor : bool)
| Update (activity_id : Z)
    (title start_time category description : option string)
    (duration : option Z) (recurrence location : option string)
    (prep_time : option Z) (is_outdoor : option bool)
| Delete (activity_id : Z)
| Toggle (activity_id : Z)
| Mark (activity_id : Z) (status : string) (target_date : option date)
    (notes : option string).

(** The database after a call made at the readings [k] of the clock. *)
Definition run (parser_parse : string -> option datetime) (k : clock)
    (c : command) (db : DB) : DB :=
  match c with
  | Create title start_time category description duration recurrence
      custom_days location prep_time is_outdoor =>
      snd (ActivityManager.create parser_parse (now k) title start_time
             category description duration recurrence custom_days location
             prep_time is_outdoor db)
  | Update activity_id title start_time category description duration
      recurrence location prep_time is_outdoor =>
      snd (ActivityManager.update parser_parse (now k) activity_id title
             start_time category description duration recurrence location
             prep_time is_outdoor db)
  | Delete activity_id => snd (ActivityManager.delete activity_id db)
  | Toggle activity_id => snd (ActivityManager.toggle (now k) activity_id db)
  | Mark activity_id status target_date notes =>
      snd (CompletionManager.mark k activity_id status target_date notes db)
  end.

(** The database after a history of calls, oldest first. *)
Definition run_all (parser_parse : string -> option datetime)
    (history : list (clock * command)) (db : DB) : DB :=
  fold_left (fun db call => run parser_parse (fst call) (snd call) db)
            history db.

(** *** Data for the examples *)

Definition empty_db : DB := mkDB [] [].

(** A clock stopped at a time of a day. *)
Definition clock_at (d : date) (t : time) : clock :=
  mkclock d (mkdatetime d t).

(** An active activity with the defaults of [create]. *)
Definition sample_activity (id : Z) (title recurrence : string)
    (start : time) (created : date) : Activity.t :=
  Activity.mk id title None "Other" start None recurrence None None 15
    false true (mkdatetime created start) (mkdatetime created start).

(** A parser that reads the one text ["09:00"] (on 2024-03-05: the date
    part is the day of the call). *)
Definition sample_parser (s : string) : option datetime :=
  if String.eqb s "09:00"
  then Some (mkdatetime (mkdate 2024 3 5) (mktime 9 0 0 0))
  else None.

(** The completions of an activity on the first days of January 2024,
    one a day with the statuses given, and a ledger of two activities
    over twenty days: of its 40 completions 11 are done, 1 is partial
    and 28 are missed. *)
Definition daily_rows (activity_id first_id : Z) (statuses : list string)
  : list Completion.t :=
  map (fun '(i, status) =>
         let day := mkdate 2024 1 (Z.of_nat i) in
         Completion.mk (first_id + Z.of_nat i) activity_id day status None
           None (mkdatetime day (mktime 21 0 0 0)))
      (combine (seq 1 (List.length statuses)) statuses).

Definition january_ledger : DB :=
  mkDB [sample_activity 1 "Read" "daily" (mktime 9 0 0 0) (mkdate 2024 1 1);
        sample_activity 2 "Walk" "daily" (mktime 18 0 0 0) (mkdate 2024 1 1)]
       (daily_rows 1 0 (repeat "done" 11 ++ ["partial"] ++ repeat "missed" 8)
        ++ daily_rows 2 20 (repeat "missed" 20)).

(** * Properties *)

(** ** Strings *)

Section StringFacts.

Lemma append_nil_r (s : string) : (s ++ "")%string = s.
Proof. induction s as [|c s IH]; simpl; [reflexivity | now rewrite IH]. Qed.

Lemma append_assoc (a b c : string) :
  ((a ++ b) ++ c)%string = (a ++ b ++ c)%string.
Proof. induction a as [|x a IH]; simpl; [reflexivity | now rewrite IH]. Qed.

Lemma lower_app (a b : string) :
  lower (a ++ b) = (lower a ++ lower b)%string.
Proof. induction a as [|x a IH]; simpl; [reflexivity | now rewrite IH]. Qed.



(** A split of [lower s] comes from a split of [s]. *)
Lemma lower_split (s a b : string) :
  lower s = (a ++ b)%string ->
  exists a' b', s = (a' ++ b')%string /\ lower a' = a /\ lower b' = b.
Proof.
  revert s; induction a as [|x a IH]; intros s H; simpl in H.
  - exists "", s. auto.
  - destruct s as [|c s]; simpl in H; [discriminate|].
    injection H as Hc Hs.
    destruct (IH s Hs) as (a' & b' & -> & Ha & Hb).
    exists (String c a'), b'. simpl. now rewrite Hc, Ha.
Qed.

Lemma prefix_iff (sub s : string) :
  prefix sub s = true <-> exists post, s = (sub ++ post)%string.
Proof.
  revert s; induction sub as [|x sub IH]; intros s.
  - split; [intros _; now exists s | now destruct s].
  - destruct s as [|c s]; simpl.
    + split; [discriminate | intros [post H]; discriminate].
    + destruct (ascii_dec x c) as [->|Hne].
      * rewrite IH. split; intros [post H]; exists post.
        -- now rewrite H.
        -- now injection H.
      * split; [discriminate|].
        intros [post H]. injection H as H1 _. congruence.
Qed.

Lemma str_in_iff (sub s : string) : str_in sub s = true <-> occurs sub s.
Proof.
  unfold occurs. induction s as [|c s IH].
  - cbn [str_in]. rewrite orb_false_r, prefix_iff. split.
    + intros [post H]. now exists "", post.
    + intros (pre & post & H). destruct pre; simpl in H.
      * now exists post.
      * discriminate.
  - cbn [str_in]. rewrite orb_true_iff, IH, prefix_iff. split.
    + intros [[post H] | (pre & post & H)].
      * now exists "", post.
      * exists (String c pre), post. simpl. now rewrite H.
    + intros (pre & post & H). destruct pre as [|x pre]; simpl in H.
      * left. now exists post.
      * right. injection H as _ H. now exists pre, post.
Qed.

(** The test of the resolver, [sub in s.lower()], is the search for
    [sub] up to case, when [sub] is itself in lower case. *)
Lemma str_in_lower_iff (sub s : string) :
  lower sub = sub ->
  (str_in sub (lower s) = true <-> occurs_ignoring_case sub s).
Proof.
  intros Hsub. rewrite str_in_iff. unfold occurs, occurs_ignoring_case.
  split.
  - intros (pre & post & H).
    destruct (lower_split _ _ _ H) as (pre' & rest & -> & _ & Hrest).
    destruct (lower_split _ _ _ Hrest) as (mid & post' & -> & Hmid & _).
    exists pre', mid, post'. split; [reflexivity | congruence].
  - intros (pre & mid & post & -> & Hmid).
    exists (lower pre), (lower post).
    rewrite !lower_app. congruence.
Qed.

End StringFacts.

(** ** Lists *)

Section ListFacts.

Lemma NoDup_snoc {A : Type} (l : list A) (x : A) :
  NoDup l -> ~ In x l -> NoDup (l ++ [x]).
Proof.
  induction l as [|y l IH]; simpl; intros Hnd Hnot.
  - constructor; [tauto | constructor].
  - inversion Hnd as [|? ? Hy Hl]; subst. constructor.
    + rewrite in_app_iff. simpl. intuition congruence.
    + apply IH; tauto.
Qed.

Lemma find_app_new {A : Type} (p : A -> bool) (l : list A) (x : A) :
  find p l = None -> p x = true -> find p (l ++ [x]) = Some x.
Proof.
  intros Hnone Hp. induction l as [|y l IH]; simpl in *.
  - now rewrite Hp.
  - destruct (p y); [discriminate | now apply IH].
Qed.

Lemma find_none_filter {A : Type} (p : A -> bool) (l : list A) :
  find p l = None -> filter p l = [].
Proof.
  induction l as [|y l IH]; simpl; [reflexivity|].
  destruct (p y); [discriminate | exact IH].
Qed.

Lemma find_some_filter {A : Type} (p : A -> bool) (l : list A) (x : A) :
  find p l = Some x -> exists rest, filter p l = x :: rest.
Proof.
  induction l as [|y l IH]; simpl; [discriminate|].
  destruct (p y) eqn:Hp.
  - intros H; injection H as ->. now eexists.
  - exact IH.
Qed.

Lemma StronglySorted_impl {A : Type} (R R' : A -> A -> Prop) (l : list A) :
  (forall a b, R a b -> R' a b) ->
  StronglySorted R l -> StronglySorted R' l.
Proof.
  intros Himp Hs. induction Hs as [|a l Hl IH Ha]; constructor; [exact IH|].
  eapply Forall_impl; [|exact Ha]. intros b. apply Himp.
Qed.

End ListFacts.

(** ** Dates *)

Section DateFacts.

Lemma weekday_range (d : date) : 0 <= weekday d < 7.
Proof. unfold weekday. apply Z.mod_pos_bound. lia. Qed.

Lemma date_eqb_eq (a b : date) : date_eqb a b = true <-> a = b.
Proof.
  destruct a as [ya ma da], b as [yb mb db]. unfold date_eqb; simpl.
  rewrite !andb_true_iff, !Z.eqb_eq. split.
  - intros [[-> ->] ->]. reflexivity.
  - intros H. injection H as -> -> ->. auto.
Qed.

Lemma date_eqb_refl (a : date) : date_eqb a a = true.
Proof. now apply date_eqb_eq. Qed.

Lemma date_eqb_neq (a b : date) : date_eqb a b = false <-> a <> b.
Proof.
  rewrite <- date_eqb_eq. destruct (date_eqb a b); split; congruence.
Qed.

(** A week day is one of seven numbers. *)
Lemma weekday_cases (d : date) :
  weekday d = 0 \/ weekday d = 1 \/ weekday d = 2 \/ weekday d = 3 \/
  weekday d = 4 \/ weekday d = 5 \/ weekday d = 6.
Proof. pose proof (weekday_range d). lia. Qed.

Ltac by_weekday d :=
  let H := fresh "Hwd" in
  destruct (weekday_cases d) as [H|[H|[H|[H|[H|[H|H]]]]]].

(** The first three letters of the lowercase day name are the
    abbreviation of the day. *)
Lemma day_name_abbreviation (d : date) :
  slice_to 3 (get_day_name d) = abbreviation (day_of_week_of d).
Proof.
  unfold get_day_name, strftime_A, day_of_week_of.
  by_weekday d; rewrite Hwd; reflexivity.
Qed.

Lemma abbreviation_lower (w : day_of_week) :
  lower (abbreviation w) = abbreviation w.
Proof. destruct w; reflexivity. Qed.

Lemma day_of_week_of_inj (a b : date) :
  day_of_week_of a = day_of_week_of b <-> weekday a = weekday b.
Proof.
  unfold day_of_week_of. split.
  - by_weekday a; by_weekday b; rewrite Hwd, Hwd0; congruence.
  - now intros ->.
Qed.

Lemma is_weekday_iff (d : date) :
  is_weekday d = true <-> In (day_of_week_of d) [Mon; Tue; Wed; Thu; Fri].
Proof.
  unfold is_weekday, day_of_week_of. rewrite Z.ltb_lt. simpl.
  by_weekday d; rewrite Hwd; split; intros H; try lia; auto 6;
    repeat (destruct H as [H|H]; try discriminate); contradiction.
Qed.

Lemma is_weekend_iff (d : date) :
  is_weekend d = true <-> In (day_of_week_of d) [Sat; Sun].
Proof.
  unfold is_weekend, day_of_week_of. rewrite Z.leb_le. simpl.
  by_weekday d; rewrite Hwd; split; intros H; try lia; auto;
    repeat (destruct H as [H|H]; try discriminate); contradiction.
Qed.

Lemma days_in_month_le_31 (y m : Z) : _days_in_month y m <= 31.
Proof.
  unfold _days_in_month, _DAYS_IN_MONTH.
  destruct ((m =? 2) && _is_leap y); [lia|].
  destruct m as [|p|p]; try lia.
  do 4 (destruct p as [p|p|]; try lia).
Qed.

Lemma valid_dateb_iff (d : date) :
  valid_dateb d = true <->
  1 <= year d <= 9999 /\ 1 <= month d <= 12 /\
  1 <= day d <= _days_in_month (year d) (month d).
Proof.
  unfold valid_dateb, MINYEAR, MAXYEAR.
  rewrite !andb_true_iff, !Z.leb_le. tauto.
Qed.

(** [replace(day=...)] either returns the date with the new day, which
    the month has, or raises [ValueError]. *)
Lemma replace_day_ok (d d' : date) (n : Z) :
  replace_day d n = Ok d' ->
  d' = mkdate (year d) (month d) n /\ valid_dateb d' = true.
Proof.
  unfold replace_day.
  destruct (valid_dateb (mkdate (year d) (month d) n)) eqn:Hv; [|discriminate].
  intros H; injection H as <-. auto.
Qed.

Lemma replace_day_raise (d : date) (n : Z) (e : exn) :
  replace_day d n = Raise e ->
  e = ValueError "day is out of range for month".
Proof.
  unfold replace_day. destruct (valid_dateb _); [discriminate|].
  now intros H; injection H as <-.
Qed.

End DateFacts.

(** ** The calendar: ordinals and back *)

(** Linear arithmetic with quotients and remainders. *)
Ltac divmod := Z.div_mod_to_equations; lia.

(** Every case of a disjunction of equations [x = v], with [x]
    replaced by its value. *)
Ltac each_case H :=
  repeat (destruct H as [-> | H]);
  [.. | match type of H with ?x = _ => subst x end].

(** The month tables and the tests on a month, computed. *)
Ltac month_tables :=
  cbn [_DAYS_BEFORE_MONTH _DAYS_IN_MONTH andb Z.eqb Z.ltb Z.compare
       Pos.eqb Pos.compare Pos.compare_cont] in *.

Section Calendar.

(** The days before a year, by the place of the year in the cycles of
    400, 100 and 4 years. *)
Lemma days_before_year_parts (y : Z) :
  1 <= y ->
  let a := (y - 1) / 400 in
  let b := ((y - 1) mod 400) / 100 in
  let c := (((y - 1) mod 400) mod 100) / 4 in
  let e := (((y - 1) mod 400) mod 100) mod 4 in
  _days_before_year y = 146097 * a + 36524 * b + 1461 * c + 365 * e /\
  y = 400 * a + 100 * b + 4 * c + e + 1 /\
  0 <= a /\ 0 <= b <= 3 /\ 0 <= c <= 24 /\ 0 <= e <= 3 /\
  _is_leap y = (e =? 3) && (negb (c =? 24) || (b =? 3)).
Proof.
  intros Hy. cbv zeta. unfold _days_before_year. cbv zeta.
  split; [divmod|]. split; [divmod|]. split; [divmod|].
  split; [divmod|]. split; [divmod|]. split; [divmod|].
  unfold _is_leap. apply eq_true_iff_eq.
  rewrite !andb_true_iff, !orb_true_iff, !negb_true_iff, !Z.eqb_eq,
    !Z.eqb_neq.
  divmod.
Qed.

(** [_ord2ymd] on a day that is not the 366th of its year: the year
    comes out of the cycles, the month and the day out of the estimate
    [(n + 50) >> 5]. *)
Lemma ord2ymd_parts (a b c e doy : Z) (leap : bool) :
  0 <= a -> 0 <= b <= 3 -> 0 <= c <= 24 -> 0 <= e <= 3 ->
  leap = (e =? 3) && (negb (c =? 24) || (b =? 3)) ->
  0 <= doy <= 364 ->
  _ord2ymd (146097 * a + 36524 * b + 1461 * c + 365 * e + doy + 1)
  = let y := 400 * a + 100 * b + 4 * c + e + 1 in
    let m := Z.shiftr (doy + 50) 5 in
    let preceding :=
      _DAYS_BEFORE_MONTH m + (if (2 <? m) && leap then 1 else 0) in
    if doy <? preceding then
      mkdate y (m - 1)
        (doy - (preceding
                - (_DAYS_IN_MONTH (m - 1)
                   + (if (m - 1 =? 2) && leap then 1 else 0))) + 1)
    else mkdate y m (doy - preceding + 1).
Proof.
  intros Ha Hb Hc He Hleap Hdoy.
  unfold _ord2ymd, _DI400Y, _DI100Y, _DI4Y. cbv zeta.
  set (n0 := 146097 * a + 36524 * b + 1461 * c + 365 * e + doy + 1 - 1).
  assert (H1 : n0 / 146097 = a) by (unfold n0; divmod).
  assert (H2 : n0 mod 146097 = 36524 * b + 1461 * c + 365 * e + doy)
    by (unfold n0; divmod).
  rewrite H1, H2.
  set (n1 := 36524 * b + 1461 * c + 365 * e + doy).
  assert (H3 : n1 / 36524 = b) by (unfold n1; divmod).
  assert (H4 : n1 mod 36524 = 1461 * c + 365 * e + doy)
    by (unfold n1; divmod).
  rewrite H3, H4.
  set (n2 := 1461 * c + 365 * e + doy).
  assert (H5 : n2 / 1461 = c) by (unfold n2; divmod).
  assert (H6 : n2 mod 1461 = 365 * e + doy) by (unfold n2; divmod).
  rewrite H5, H6.
  set (n3 := 365 * e + doy).
  assert (H7 : n3 / 365 = e) by (unfold n3; divmod).
  assert (H8 : n3 mod 365 = doy) by (unfold n3; divmod).
  rewrite H7, H8.
  replace ((e =? 4) || (b =? 4)) with false
    by (symmetry; apply orb_false_iff; split; apply Z.eqb_neq; lia).
  rewrite <- Hleap.
  replace (a * 400 + 1 + b * 100 + c * 4 + e)
    with (400 * a + 100 * b + 4 * c + e + 1) by lia.
  reflexivity.
Qed.

(** [_ord2ymd] on the 366th day of a leap year: the two early exits. *)
Lemma ord2ymd_parts_last (a b c e : Z) :
  0 <= a -> 0 <= b <= 3 -> 0 <= c <= 24 -> 0 <= e <= 3 ->
  (e =? 3) && (negb (c =? 24) || (b =? 3)) = true ->
  _ord2ymd (146097 * a + 36524 * b + 1461 * c + 365 * e + 365 + 1)
  = mkdate (400 * a + 100 * b + 4 * c + e + 1) 12 31.
Proof.
  intros Ha Hb Hc He Hleap.
  apply andb_true_iff in Hleap. destruct Hleap as [He3 Hcb].
  apply Z.eqb_eq in He3. subst e.
  unfold _ord2ymd, _DI400Y, _DI100Y, _DI4Y. cbv zeta.
  set (n0 := 146097 * a + 36524 * b + 1461 * c + 365 * 3 + 365 + 1 - 1).
  assert (H1 : n0 / 146097 = a) by (unfold n0; divmod).
  assert (H2 : n0 mod 146097 = 36524 * b + 1461 * c + 1460)
    by (unfold n0; divmod).
  rewrite H1, H2.
  set (n1 := 36524 * b + 1461 * c + 1460).
  destruct (Z.eq_dec c 24) as [->|Hc24].
  - (* the last day of a year that 400 divides *)
    assert (b = 3) as ->.
    { apply orb_true_iff in Hcb. destruct Hcb as [H|H];
        [discriminate | now apply Z.eqb_eq in H]. }
    subst n1. vm_compute (36524 * 3 + 1461 * 24 + 1460).
    change (146096 / 36524) with 4. change (146096 mod 36524) with 0.
    change (0 / 1461) with 0. change (0 mod 1461) with 0.
    change (0 / 365) with 0.
    replace ((0 =? 4) || (4 =? 4)) with true by reflexivity.
    f_equal. lia.
  - assert (H3 : n1 / 36524 = b) by (unfold n1; divmod).
    assert (H4 : n1 mod 36524 = 1461 * c + 1460) by (unfold n1; divmod).
    rewrite H3, H4.
    set (n2 := 1461 * c + 1460).
    assert (H5 : n2 / 1461 = c) by (unfold n2; divmod).
    assert (H6 : n2 mod 1461 = 1460) by (unfold n2; divmod).
    rewrite H5, H6.
    change (1460 / 365) with 4. cbn [Z.eqb Pos.eqb orb]. f_equal. lia.
Qed.

Lemma month_cases (m : Z) :
  1 <= m <= 12 ->
  m = 1 \/ m = 2 \/ m = 3 \/ m = 4 \/ m = 5 \/ m = 6 \/ m = 7 \/ m = 8 \/
  m = 9 \/ m = 10 \/ m = 11 \/ m = 12.
Proof. lia. Qed.

Lemma day_cases (d : Z) :
  1 <= d <= 31 ->
  d = 1 \/ d = 2 \/ d = 3 \/ d = 4 \/ d = 5 \/ d = 6 \/ d = 7 \/ d = 8 \/
  d = 9 \/ d = 10 \/ d = 11 \/ d = 12 \/ d = 13 \/ d = 14 \/ d = 15 \/
  d = 16 \/ d = 17 \/ d = 18 \/ d = 19 \/ d = 20 \/ d = 21 \/ d = 22 \/
  d = 23 \/ d = 24 \/ d = 25 \/ d = 26 \/ d = 27 \/ d = 28 \/ d = 29 \/
  d = 30 \/ d = 31.
Proof. lia. Qed.

(** The estimate of the month and its correction give back the month
    and the day, for every day of every month. *)
Lemma month_day_roundtrip (y m d : Z) (leap : bool) :
  1 <= m <= 12 ->
  1 <= d <= _DAYS_IN_MONTH m + (if (m =? 2) && leap then 1 else 0) ->
  let doy :=
    _DAYS_BEFORE_MONTH m + (if (2 <? m) && leap then 1 else 0) + d - 1 in
  (let m' := Z.shiftr (doy + 50) 5 in
   let preceding :=
     _DAYS_BEFORE_MONTH m' + (if (2 <? m') && leap then 1 else 0) in
   if doy <? preceding then
     mkdate y (m' - 1)
       (doy - (preceding
               - (_DAYS_IN_MONTH (m' - 1)
                  + (if (m' - 1 =? 2) && leap then 1 else 0))) + 1)
   else mkdate y m' (doy - preceding + 1)) = mkdate y m d.
Proof.
  intros Hm Hd.
  pose proof (month_cases m Hm) as Hm'.
  assert (Hd' : 1 <= d <= 31).
  { destruct leap; each_case Hm'; cbn in Hd; lia. }
  apply day_cases in Hd'. clear Hm.
  destruct leap; each_case Hm'; each_case Hd';
    first [reflexivity | exfalso; cbn in Hd; lia].
Qed.

(** The ordinal of a date of the calendar gives the date back. *)
Lemma fromordinal_toordinal (d : date) :
  1 <= year d -> 1 <= month d <= 12 ->
  1 <= day d <= _days_in_month (year d) (month d) ->
  fromordinal (toordinal d) = d.
Proof.
  destruct d as [y m dd]. cbn [year month day]. intros Hy Hm Hd.
  unfold fromordinal, toordinal, _ymd2ord. cbn [year month day].
  destruct (days_before_year_parts y Hy)
    as (Hdby & Hyear & Ha & Hb & Hc & He & Hleap).
  cbv zeta in *.
  set (a := (y - 1) / 400) in *.
  set (b := ((y - 1) mod 400) / 100) in *.
  set (c := (((y - 1) mod 400) mod 100) / 4) in *.
  set (e := (((y - 1) mod 400) mod 100) mod 4) in *.
  rewrite Hdby. unfold _days_before_month, _days_in_month in *.
  set (leap := _is_leap y) in *.
  assert (Hdim : 1 <= dd <= _DAYS_IN_MONTH m
                             + (if (m =? 2) && leap then 1 else 0)).
  { destruct ((m =? 2) && leap) eqn:E; [|lia].
    apply andb_true_iff in E. destruct E as [E _].
    apply Z.eqb_eq in E. subst m. cbn. lia. }
  set (doy := _DAYS_BEFORE_MONTH m
              + (if (2 <? m) && leap then 1 else 0) + dd - 1).
  assert (Hdoy : 0 <= doy <= 364 \/
                 (doy = 365 /\ (if leap then 1 else 0) = 1 /\ m = 12
                  /\ dd = 31)).
  { subst doy. pose proof (month_cases m Hm) as Hm'.
    destruct leap; each_case Hm'; month_tables; lia. }
  replace (146097 * a + 36524 * b + 1461 * c + 365 * e
           + (_DAYS_BEFORE_MONTH m + (if (2 <? m) && leap then 1 else 0))
           + dd)
    with (146097 * a + 36524 * b + 1461 * c + 365 * e + doy + 1)
    by (subst doy; lia).
  destruct Hdoy as [Hdoy | (Hdoy & Hl & -> & ->)].
  - rewrite (ord2ymd_parts a b c e doy leap Ha Hb Hc He Hleap Hdoy).
    rewrite <- Hyear. apply month_day_roundtrip; assumption.
  - rewrite Hdoy, ord2ymd_parts_last; try assumption.
    + now rewrite <- Hyear.
    + rewrite <- Hleap. now destruct leap.
Qed.

(** The ordinal of a date that the constructor accepts is in range. *)
Lemma toordinal_range (d : date) :
  valid_dateb d = true -> 1 <= toordinal d <= _MAXORDINAL.
Proof.
  intros Hv. apply valid_dateb_iff in Hv.
  destruct d as [y m dd]. cbn [year month day] in Hv.
  destruct Hv as (Hy & Hm & Hd).
  unfold toordinal, _ymd2ord, _MAXORDINAL. cbn [year month day].
  assert (Hdoy : 1 <= _days_before_month y m + dd
                 <= 365 + (if _is_leap y then 1 else 0)).
  { unfold _days_before_month, _days_in_month in *.
    pose proof (month_cases m Hm) as Hm'.
    destruct (_is_leap y); each_case Hm'; month_tables; lia. }
  destruct (Z.eq_dec y 9999) as [->|Hne].
  - change (_is_leap 9999) with false in Hdoy.
    change (_days_before_year 9999) with 3651694. lia.
  - assert (0 <= _days_before_year y <= 3651329)
      by (unfold _days_before_year; cbv zeta; divmod).
    destruct (_is_leap y); lia.
Qed.

(** Inside a month, the date one day back by [timedelta] is the date
    with the day before. *)
Lemma sub_days_in_month (e : date) :
  valid_dateb e = true ->
  2 <= day e ->
  sub_days e 1 = Ok (mkdate (year e) (month e) (day e - 1)).
Proof.
  intros Hv Hday. pose proof (toordinal_range e Hv) as Hrange.
  apply valid_dateb_iff in Hv.
  unfold sub_days, add_days.
  set (e' := mkdate (year e) (month e) (day e - 1)).
  assert (Hord : toordinal e + - (1) = toordinal e').
  { unfold e', toordinal, _ymd2ord. cbn [year month day]. lia. }
  rewrite Hord.
  replace ((0 <? toordinal e') && (toordinal e' <=? _MAXORDINAL)) with true.
  - f_equal. apply fromordinal_toordinal; unfold e'; cbn [year month day]; lia.
  - symmetry. apply andb_true_iff. rewrite Z.ltb_lt, Z.leb_le.
    assert (1 <= toordinal e').
    { unfold e', toordinal, _ymd2ord, _days_before_year, _days_before_month.
      cbn [year month day]. cbv zeta.
      assert (0 <= _DAYS_BEFORE_MONTH (month e)).
      { destruct Hv as (_ & Hm & _). remember (month e) as m.
        pose proof (month_cases _ Hm) as Hm'.
        clear Heqm. each_case Hm'; cbn; lia. }
      destruct ((2 <? month e) && _is_leap (year e)); divmod. }
    lia.
Qed.

End Calendar.

(** ** Orders and sorting *)

Section OrderFacts.

Lemma date_ltb_lt (a b : date) :
  date_ltb a b = true <->
  year a < year b \/
  (year a = year b /\
   (month a < month b \/ (month a = month b /\ day a < day b))).
Proof.
  unfold date_ltb.
  rewrite !orb_true_iff, !andb_true_iff, !orb_true_iff, !andb_true_iff,
    !Z.ltb_lt, !Z.eqb_eq.
  tauto.
Qed.

Lemma date_ltb_ge (a b : date) :
  date_ltb a b = false <->
  year b < year a \/
  (year a = year b /\
   (month b < month a \/ (month a = month b /\ day b <= day a))).
Proof.
  rewrite <- not_true_iff_false, date_ltb_lt. lia.
Qed.

Lemma date_eqb_fields (a b : date) :
  date_eqb a b = true <->
  year a = year b /\ month a = month b /\ day a = day b.
Proof.
  unfold date_eqb. rewrite !andb_true_iff, !Z.eqb_eq. tauto.
Qed.

Lemma date_leb_le (a b : date) :
  date_leb a b = true <->
  year a < year b \/
  (year a = year b /\
   (month a < month b \/ (month a = month b /\ day a <= day b))).
Proof.
  unfold date_leb. rewrite orb_true_iff, date_ltb_lt, date_eqb_fields. lia.
Qed.

Lemma date_ltb_asym (a b : date) :
  date_ltb a b = true -> date_ltb b a = false.
Proof. rewrite date_ltb_lt, date_ltb_ge. lia. Qed.

Lemma date_ge_trans (a b c : date) :
  date_ltb a b = false -> date_ltb b c = false -> date_ltb a c = false.
Proof. rewrite !date_ltb_ge. lia. Qed.

Lemma time_ltb_lt (a b : time) :
  time_ltb a b = true <->
  hour a < hour b \/
  (hour a = hour b /\
   (minute a < minute b \/
    (minute a = minute b /\
     (second a < second b \/
      (second a = second b /\ microsecond a < microsecond b))))).
Proof.
  unfold time_ltb.
  rewrite !orb_true_iff, !andb_true_iff, !orb_true_iff, !andb_true_iff,
    !orb_true_iff, !andb_true_iff, !Z.ltb_lt, !Z.eqb_eq.
  tauto.
Qed.

Lemma time_ltb_asym (a b : time) :
  time_ltb a b = true -> time_ltb b a = false.
Proof.
  intros H. apply not_true_iff_false. revert H. rewrite !time_ltb_lt. lia.
Qed.

Lemma time_ge_trans (a b c : time) :
  time_ltb b a = false -> time_ltb c b = false -> time_ltb c a = false.
Proof.
  rewrite <- !not_true_iff_false, !time_ltb_lt. lia.
Qed.

End OrderFacts.

Section SortFacts.

Context {A K : Type} (key : A -> K) (ltb : K -> K -> bool).
Hypothesis ltb_asym : forall x y, ltb x y = true -> ltb y x = false.
Hypothesis ge_trans :
  forall x y z, ltb y x = false -> ltb z y = false -> ltb z x = false.

Lemma insert_by_perm (x : A) (l : list A) :
  Permutation (insert_by key ltb x l) (x :: l).
Proof.
  induction l as [|y l IH]; simpl; [reflexivity|].
  destruct (ltb (key y) (key x)); [|reflexivity].
  rewrite IH. apply perm_swap.
Qed.

Lemma sorted_by_perm (l : list A) : Permutation (sorted_by key ltb l) l.
Proof.
  induction l as [|x l IH]; simpl; [reflexivity|].
  rewrite insert_by_perm. now constructor.
Qed.

Lemma insert_by_sorted (x : A) (l : list A) :
  StronglySorted (ascending key ltb) l ->
  StronglySorted (ascending key ltb) (insert_by key ltb x l).
Proof.
  induction l as [|y l IH]; intros Hs; simpl.
  - repeat constructor.
  - inversion Hs as [|? ? Hl Hy]; subst.
    destruct (ltb (key y) (key x)) eqn:Hyx.
    + constructor; [now apply IH|].
      eapply Permutation_Forall; [symmetry; apply insert_by_perm|].
      constructor; [|exact Hy]. unfold ascending. now apply ltb_asym.
    + constructor; [exact Hs|]. constructor; [exact Hyx|].
      eapply Forall_impl; [|exact Hy]. unfold ascending. intros z Hz.
      eapply ge_trans; eassumption.
Qed.

Lemma sorted_by_sorted (l : list A) :
  StronglySorted (ascending key ltb) (sorted_by key ltb l).
Proof.
  induction l as [|x l IH]; simpl; [constructor | now apply insert_by_sorted].
Qed.

Lemma insert_by_rev_perm (x : A) (l : list A) :
  Permutation (insert_by_rev key ltb x l) (x :: l).
Proof.
  induction l as [|y l IH]; simpl; [reflexivity|].
  destruct (ltb (key x) (key y)); [|reflexivity].
  rewrite IH. apply perm_swap.
Qed.

Lemma sorted_by_rev_perm (l : list A) :
  Permutation (sorted_by_rev key ltb l) l.
Proof.
  induction l as [|x l IH]; simpl; [reflexivity|].
  rewrite insert_by_rev_perm. now constructor.
Qed.

Lemma insert_by_rev_sorted (x : A) (l : list A) :
  StronglySorted (descending key ltb) l ->
  StronglySorted (descending key ltb) (insert_by_rev key ltb x l).
Proof.
  induction l as [|y l IH]; intros Hs; simpl.
  - repeat constructor.
  - inversion Hs as [|? ? Hl Hy]; subst.
    destruct (ltb (key x) (key y)) eqn:Hxy.
    + constructor; [now apply IH|].
      eapply Permutation_Forall; [symmetry; apply insert_by_rev_perm|].
      constructor; [|exact Hy]. unfold descending. now apply ltb_asym.
    + constructor; [exact Hs|]. constructor; [exact Hxy|].
      eapply Forall_impl; [|exact Hy]. unfold descending. intros z Hz.
      eapply ge_trans; eassumption.
Qed.

Lemma sorted_by_rev_sorted (l : list A) :
  StronglySorted (descending key ltb) (sorted_by_rev key ltb l).
Proof.
  induction l as [|x l IH]; simpl;
    [constructor | now apply insert_by_rev_sorted].
Qed.

End SortFacts.

(** ** The calendar: order and steps *)

Section CalendarOrder.

(** A day of the year is a day of one of its months. *)
Lemma day_of_year_split (leap : bool) (doy : Z) :
  0 <= doy <= 364 + (if leap then 1 else 0) ->
  exists m d,
    1 <= m <= 12 /\
    1 <= d <= _DAYS_IN_MONTH m + (if (m =? 2) && leap then 1 else 0) /\
    doy = _DAYS_BEFORE_MONTH m + (if (2 <? m) && leap then 1 else 0) + d - 1.
Proof.
  intros H.
  assert (Hcut : forall k, doy < k \/ k <= doy) by (intros; lia).
  destruct leap.
  - destruct (Hcut 31); [exists 1, (doy + 1); month_tables; lia|].
    destruct (Hcut 60); [exists 2, (doy - 30); month_tables; lia|].
    destruct (Hcut 91); [exists 3, (doy - 59); month_tables; lia|].
    destruct (Hcut 121); [exists 4, (doy - 90); month_tables; lia|].
    destruct (Hcut 152); [exists 5, (doy - 120); month_tables; lia|].
    destruct (Hcut 182); [exists 6, (doy - 151); month_tables; lia|].
    destruct (Hcut 213); [exists 7, (doy - 181); month_tables; lia|].
    destruct (Hcut 244); [exists 8, (doy - 212); month_tables; lia|].
    destruct (Hcut 274); [exists 9, (doy - 243); month_tables; lia|].
    destruct (Hcut 305); [exists 10, (doy - 273); month_tables; lia|].
    destruct (Hcut 335); [exists 11, (doy - 304); month_tables; lia|].
    exists 12, (doy - 334); month_tables; lia.
  - destruct (Hcut 31); [exists 1, (doy + 1); month_tables; lia|].
    destruct (Hcut 59); [exists 2, (doy - 30); month_tables; lia|].
    destruct (Hcut 90); [exists 3, (doy - 58); month_tables; lia|].
    destruct (Hcut 120); [exists 4, (doy - 89); month_tables; lia|].
    destruct (Hcut 151); [exists 5, (doy - 119); month_tables; lia|].
    destruct (Hcut 181); [exists 6, (doy - 150); month_tables; lia|].
    destruct (Hcut 212); [exists 7, (doy - 180); month_tables; lia|].
    destruct (Hcut 243); [exists 8, (doy - 211); month_tables; lia|].
    destruct (Hcut 273); [exists 9, (doy - 242); month_tables; lia|].
    destruct (Hcut 304); [exists 10, (doy - 272); month_tables; lia|].
    destruct (Hcut 334); [exists 11, (doy - 303); month_tables; lia|].
    exists 12, (doy - 333); month_tables; lia.
Qed.

(** Every ordinal from 1 on is the ordinal of the date [fromordinal]
    gives, and that date is a date of the calendar. *)
Lemma toordinal_fromordinal (n : Z) (d : date) :
  1 <= n ->
  fromordinal n = d ->
  toordinal d = n /\ 1 <= year d /\ 1 <= month d <= 12 /\
  1 <= day d <= _days_in_month (year d) (month d).
Proof.
  intros Hn Hfrom.
  set (n0 := n - 1).
  set (a := n0 / 146097). set (r1 := n0 mod 146097).
  set (b := r1 / 36524). set (r2 := r1 mod 36524).
  set (c := r2 / 1461). set (r3 := r2 mod 1461).
  set (e := r3 / 365). set (doy := r3 mod 365).
  assert (Hparts : n = 146097 * a + 36524 * b + 1461 * c + 365 * e + doy + 1
                   /\ 0 <= a /\ 0 <= b <= 4 /\ 0 <= c <= 24 /\ 0 <= e <= 4
                   /\ 0 <= doy <= 364
                   /\ (b = 4 -> c = 0 /\ e = 0 /\ doy = 0)
                   /\ (e = 4 -> doy = 0 /\ c <= 23))
    by (unfold doy, e, r3, c, r2, b, r1, a, n0; divmod).
  destruct Hparts as (Hnval & Ha & Hb & Hc & He & Hdoy & Hb4 & He4).
  clearbody a b c e doy. clear n0 r1 r2 r3.
  assert (Hfinish : forall y m dd,
             fromordinal n = mkdate y m dd ->
             1 <= y -> 1 <= m <= 12 -> 1 <= dd <= _days_in_month y m ->
             _ymd2ord y m dd = n ->
             toordinal d = n /\ 1 <= year d /\ 1 <= month d <= 12 /\
             1 <= day d <= _days_in_month (year d) (month d)).
  { intros y m dd Hy0 Hy Hm Hd Hord.
    assert (d = mkdate y m dd) as -> by congruence.
    unfold toordinal. cbn [year month day]. auto. }
  clear Hfrom.
  destruct (Z.eq_dec b 4) as [Hb4'|Hb4'].
  - (* the last day of a cycle of 400 years *)
    destruct (Hb4 Hb4') as (-> & -> & ->). subst b.
    apply (Hfinish (400 * a + 400) 12 31); try lia.
    + unfold fromordinal. rewrite Hnval.
      replace (146097 * a + 36524 * 4 + 1461 * 0 + 365 * 0 + 0 + 1)
        with (146097 * a + 36524 * 3 + 1461 * 24 + 365 * 3 + 365 + 1) by lia.
      rewrite ord2ymd_parts_last; try lia. f_equal; lia.
    + unfold _days_in_month. simpl. lia.
    + unfold _ymd2ord, _days_before_month.
      destruct (days_before_year_parts (400 * a + 400)) as (Hd & _); [lia|].
      cbv zeta in Hd. rewrite Hd.
      replace (_is_leap (400 * a + 400)) with true.
      * month_tables. divmod.
      * symmetry. unfold _is_leap.
        rewrite !andb_true_iff, !orb_true_iff, !negb_true_iff, !Z.eqb_eq,
          !Z.eqb_neq. divmod.
  - destruct (Z.eq_dec e 4) as [He4'|He4'].
    + (* the last day of a leap year *)
      destruct (He4 He4') as (-> & Hc23). subst e.
      set (y := 400 * a + 100 * b + 4 * c + 4).
      assert (Hleap : _is_leap y = true).
      { unfold _is_leap, y.
        rewrite !andb_true_iff, !orb_true_iff, !negb_true_iff, !Z.eqb_eq,
          !Z.eqb_neq. divmod. }
      apply (Hfinish y 12 31); try (unfold y; lia).
      * unfold fromordinal. rewrite Hnval.
        replace (146097 * a + 36524 * b + 1461 * c + 365 * 4 + 0 + 1)
          with (146097 * a + 36524 * b + 1461 * c + 365 * 3 + 365 + 1) by lia.
        rewrite ord2ymd_parts_last; try lia. f_equal; unfold y; lia.
      * unfold _days_in_month. simpl. lia.
      * unfold _ymd2ord, _days_before_month. rewrite Hleap.
        destruct (days_before_year_parts y) as (Hd & _); [unfold y; lia|].
        cbv zeta in Hd. rewrite Hd. month_tables. unfold y. divmod.
    + (* any other day *)
      set (y := 400 * a + 100 * b + 4 * c + e + 1).
      set (leap := (e =? 3) && (negb (c =? 24) || (b =? 3))).
      destruct (day_of_year_split leap doy) as (m & dd & Hm & Hdd & Hsplit);
        [destruct leap; lia|].
      destruct (days_before_year_parts y)
        as (Hd & Hy & Ha' & Hb' & Hc' & He' & Hl); [unfold y; lia|].
      cbv zeta in *.
      assert (Hsame : (y - 1) / 400 = a /\ ((y - 1) mod 400) / 100 = b /\
                      (((y - 1) mod 400) mod 100) / 4 = c /\
                      (((y - 1) mod 400) mod 100) mod 4 = e)
        by (unfold y; divmod).
      destruct Hsame as (Ea & Eb & Ec & Ee).
      rewrite Ea, Eb, Ec, Ee in *. fold leap in Hl.
      apply (Hfinish y m dd); try lia.
      * unfold fromordinal. rewrite Hnval.
        rewrite (ord2ymd_parts a b c e doy leap); try lia; [|reflexivity].
        fold y. rewrite Hsplit. apply month_day_roundtrip; assumption.
      * unfold _days_in_month. rewrite Hl.
        destruct ((m =? 2) && leap) eqn:E; [|lia].
        apply andb_true_iff in E. destruct E as [E _].
        apply Z.eqb_eq in E. subst m. revert Hdd. month_tables.
        destruct leap; lia.
      * unfold _ymd2ord, _days_before_month. rewrite Hd, Hl. lia.
Qed.

Lemma days_before_year_succ (y : Z) :
  1 <= y ->
  _days_before_year (y + 1)
  = _days_before_year y + 365 + (if _is_leap y then 1 else 0).
Proof.
  intros Hy. unfold _days_before_year, _is_leap. cbv zeta.
  destruct ((y mod 4 =? 0) && (negb (y mod 100 =? 0) || (y mod 400 =? 0)))
    eqn:E.
  - rewrite !andb_true_iff, !orb_true_iff, !negb_true_iff, !Z.eqb_eq,
      !Z.eqb_neq in E. divmod.
  - apply not_true_iff_false in E.
    rewrite !andb_true_iff, !orb_true_iff, !negb_true_iff, !Z.eqb_eq,
      !Z.eqb_neq in E. divmod.
Qed.

Lemma days_before_year_mono (y1 y2 : Z) :
  1 <= y1 <= y2 -> _days_before_year y1 <= _days_before_year y2.
Proof. intros H. unfold _days_before_year. cbv zeta. divmod. Qed.

(** The place of a day in its year. *)
Lemma day_of_year_range (y m d : Z) :
  1 <= m <= 12 -> 1 <= d <= _days_in_month y m ->
  1 <= _days_before_month y m + d <= 365 + (if _is_leap y then 1 else 0).
Proof.
  intros Hm Hd. unfold _days_before_month, _days_in_month in *.
  pose proof (month_cases m Hm) as Hm'.
  destruct (_is_leap y); each_case Hm'; month_tables; lia.
Qed.

Lemma days_before_month_mono (y m1 m2 d : Z) :
  1 <= m1 -> m1 < m2 -> m2 <= 12 -> d <= _days_in_month y m1 ->
  _days_before_month y m1 + d <= _days_before_month y m2.
Proof.
  intros H1 H12 H2 Hd. unfold _days_before_month, _days_in_month in *.
  assert (Hm1 : 1 <= m1 <= 12) by lia. assert (Hm2 : 1 <= m2 <= 12) by lia.
  pose proof (month_cases m1 Hm1) as C1. pose proof (month_cases m2 Hm2) as C2.
  clear Hm1 Hm2 H1 H2.
  destruct (_is_leap y); each_case C1; each_case C2; month_tables; lia.
Qed.

(** The order of the dates of the calendar is the order of their
    ordinals. *)
Lemma toordinal_lt (a b : date) :
  valid_dateb a = true -> valid_dateb b = true ->
  (date_ltb a b = true <-> toordinal a < toordinal b).
Proof.
  intros Ha Hb. apply valid_dateb_iff in Ha, Hb.
  destruct a as [ya ma da], b as [yb mb db]. cbn [year month day] in *.
  assert (Hfwd : forall y1 m1 d1 y2 m2 d2,
             1 <= y1 -> 1 <= m1 <= 12 -> 1 <= d1 <= _days_in_month y1 m1 ->
             1 <= y2 -> 1 <= m2 <= 12 -> 1 <= d2 <= _days_in_month y2 m2 ->
             date_ltb (mkdate y1 m1 d1) (mkdate y2 m2 d2) = true ->
             _ymd2ord y1 m1 d1 < _ymd2ord y2 m2 d2).
  { intros y1 m1 d1 y2 m2 d2 Hy1 Hm1 Hd1 Hy2 Hm2 Hd2 Hlt.
    apply date_ltb_lt in Hlt. cbn [year month day] in Hlt.
    unfold _ymd2ord.
    pose proof (day_of_year_range y1 m1 d1 Hm1 Hd1) as R1.
    pose proof (day_of_year_range y2 m2 d2 Hm2 Hd2) as R2.
    destruct Hlt as [Hy | [-> [Hm | [-> Hd]]]].
    - pose proof (days_before_year_succ y1 Hy1) as Hs.
      pose proof (days_before_year_mono (y1 + 1) y2) as Hmono.
      destruct (_is_leap y1); lia.
    - pose proof (days_before_month_mono y2 m1 m2 d1). lia.
    - lia. }
  unfold toordinal. cbn [year month day]. split.
  - apply Hfwd; lia.
  - intros Hlt.
    destruct (date_ltb (mkdate ya ma da) (mkdate yb mb db)) eqn:E;
      [reflexivity|].
    exfalso. apply date_ltb_ge in E. cbn [year month day] in E.
    assert (Hcases : date_ltb (mkdate yb mb db) (mkdate ya ma da) = true
                     \/ (ya = yb /\ ma = mb /\ da = db)).
    { rewrite date_ltb_lt. cbn [year month day]. lia. }
    destruct Hcases as [Hgt | (-> & -> & ->)]; [|lia].
    apply Hfwd in Hgt; lia.
Qed.

Lemma toordinal_le (a b : date) :
  valid_dateb a = true -> valid_dateb b = true ->
  (date_leb a b = true <-> toordinal a <= toordinal b).
Proof.
  intros Ha Hb. unfold date_leb.
  rewrite orb_true_iff, (toordinal_lt a b Ha Hb), date_eqb_eq. split.
  - intros [H | ->]; lia.
  - intros H. destruct (Z.eq_dec (toordinal a) (toordinal b)) as [E|E];
      [right | left; lia].
    apply valid_dateb_iff in Ha, Hb.
    rewrite <- (fromordinal_toordinal a), <- (fromordinal_toordinal b), E;
      try reflexivity; lia.
Qed.

(** The date of an ordinal in range is accepted by the constructor. *)
Lemma fromordinal_valid (n : Z) (d : date) :
  1 <= n <= _MAXORDINAL ->
  fromordinal n = d ->
  valid_dateb d = true /\ toordinal d = n.
Proof.
  intros Hn Hfrom.
  destruct (toordinal_fromordinal n d) as (Hord & Hy & Hm & Hd);
    [lia | exact Hfrom |].
  clear Hfrom. split; [|exact Hord]. apply valid_dateb_iff.
  assert (year d <= 9999); [|lia].
  destruct (Z_le_gt_dec (year d) 9999) as [Hle|Hgt]; [exact Hle|].
  exfalso. unfold toordinal, _ymd2ord in Hord.
  pose proof (day_of_year_range _ _ _ Hm Hd) as R.
  pose proof (days_before_year_mono 10000 (year d)) as Hmono.
  assert (H10000 : _days_before_year 10000 = 3652059) by reflexivity.
  rewrite H10000 in Hmono. unfold _MAXORDINAL in Hn. lia.
Qed.

(** [d + timedelta(days=n)]: the ordinal moves by [n], and the sum is
    refused exactly when it leaves the calendar. *)
Lemma add_days_ok (d d' : date) (n : Z) :
  add_days d n = Ok d' ->
  valid_dateb d' = true /\ toordinal d' = toordinal d + n.
Proof.
  unfold add_days.
  destruct ((0 <? toordinal d + n) && (toordinal d + n <=? _MAXORDINAL))
    eqn:E; [|discriminate].
  intros H; injection H as H.
  apply andb_true_iff in E. rewrite Z.ltb_lt, Z.leb_le in E.
  apply fromordinal_valid; [lia | exact H].
Qed.

Lemma add_days_in_range (d : date) (n : Z) :
  1 <= toordinal d + n <= _MAXORDINAL ->
  exists d', add_days d n = Ok d'.
Proof.
  intros H. unfold add_days.
  replace ((0 <? toordinal d + n) && (toordinal d + n <=? _MAXORDINAL))
    with true; [now eexists|].
  symmetry. apply andb_true_iff. rewrite Z.ltb_lt, Z.leb_le. lia.
Qed.

Lemma add_days_raise (d : date) (n : Z) (e : exn) :
  add_days d n = Raise e ->
  e = OverflowError "date value out of range" /\
  (toordinal d + n < 1 \/ _MAXORDINAL < toordinal d + n).
Proof.
  unfold add_days.
  destruct ((0 <? toordinal d + n) && (toordinal d + n <=? _MAXORDINAL))
    eqn:E; [discriminate|].
  intros H; injection H as <-. split; [reflexivity|].
  apply not_true_iff_false in E.
  rewrite andb_true_iff, Z.ltb_lt, Z.leb_le in E. lia.
Qed.

End CalendarOrder.

(** ** The schedule resolver *)

Section Resolver.

Import ActivityManager.

(** The recurrence test falls through the rules it does not match. *)
Lemma scheduled_custom (a : Activity.t) (d : date) :
  Activity.recurrence a = "custom" ->
  _is_scheduled_for_date a d =
  match Activity.custom_days a with
  | Some text =>
      negb (String.eqb text "")
      && str_in (abbreviation (day_of_week_of d)) (lower text)
  | None => false
  end.
Proof.
  intros Hr. unfold _is_scheduled_for_date. rewrite Hr. cbn -[str_in].
  rewrite day_name_abbreviation.
  destruct (Activity.custom_days a) as [text|]; [|reflexivity].
  cbn -[str_in]. now destruct (String.eqb text "").
Qed.

(** C1. The due-decision of the schedule resolver follows the recurrence
    table: [daily] is always due; [weekdays] is due exactly from Monday to
    Friday; [weekends] exactly on Saturday and Sunday; [weekly] exactly on
    the week day of the creation timestamp; [custom] exactly when the
    3-letter lowercase abbreviation of the date's week day occurs, up to
    case, in the custom-days text; [once] exactly on the calendar date of
    the creation timestamp; any other recurrence value is never due. *)
Theorem is_scheduled_decision_table (a : Activity.t) (d : date) :
  let recurrence := Activity.recurrence a in
  let created := dt_date (Activity.created_at a) in
  let due := _is_scheduled_for_date a d = true in
  (recurrence = "daily" -> due) /\
  (recurrence = "weekdays" ->
   (due <-> In (day_of_week_of d) [Mon; Tue; Wed; Thu; Fri])) /\
  (recurrence = "weekends" -> (due <-> In (day_of_week_of d) [Sat; Sun])) /\
  (recurrence = "weekly" ->
   (due <-> day_of_week_of d = day_of_week_of created)) /\
  (recurrence = "custom" ->
   (due <-> exists text,
       Activity.custom_days a = Some text /\
       occurs_ignoring_case (abbreviation (day_of_week_of d)) text)) /\
  (recurrence = "once" -> (due <-> d = created)) /\
  (~ In recurrence RECURRENCE_OPTIONS -> _is_scheduled_for_date a d = false).
Proof.
  cbv zeta. repeat split.
  - intros Hr. unfold _is_scheduled_for_date. now rewrite Hr.
  - unfold _is_scheduled_for_date. rewrite H. cbn. apply is_weekday_iff.
  - unfold _is_scheduled_for_date. rewrite H. cbn. apply is_weekday_iff.
  - unfold _is_scheduled_for_date. rewrite H. cbn. apply is_weekend_iff.
  - unfold _is_scheduled_for_date. rewrite H. cbn. apply is_weekend_iff.
  - unfold _is_scheduled_for_date. rewrite H. cbn. rewrite Z.eqb_eq.
    apply day_of_week_of_inj.
  - unfold _is_scheduled_for_date. rewrite H. cbn. rewrite Z.eqb_eq.
    apply day_of_week_of_inj.
  - rewrite (scheduled_custom a d H).
    destruct (Activity.custom_days a) as [text|]; [|discriminate].
    rewrite andb_true_iff. intros [_ Hin]. exists text. split; [reflexivity|].
    apply str_in_lower_iff; [apply abbreviation_lower | exact Hin].
  - rewrite (scheduled_custom a d H). intros (text & -> & Hocc).
    apply andb_true_iff. split.
    + destruct Hocc as (pre & mid & post & -> & Hmid).
      destruct pre; [|reflexivity]. destruct mid; [|reflexivity].
      simpl in Hmid. now destruct (day_of_week_of d).
    + apply str_in_lower_iff; [apply abbreviation_lower | exact Hocc].
  - unfold _is_scheduled_for_date. rewrite H. cbn. apply date_eqb_eq.
  - unfold _is_scheduled_for_date. rewrite H. cbn. apply date_eqb_eq.
  - intros Hnot. unfold _is_scheduled_for_date.
    simpl in Hnot.
    repeat match goal with
    | |- context [String.eqb ?r ?k] =>
        destruct (String.eqb_spec r k) as [Heq|_];
        [exfalso; apply Hnot; auto 10|]
    end.
    reflexivity.
Qed.

(** The table of C1 at one activity: created on Wednesday 2024-01-31,
    custom days ["Mon,WED"], seen on Wednesday 2024-02-07. *)
Lemma is_scheduled_decision_table_witness :
  let created := mkdatetime (mkdate 2024 1 31) (mktime 9 0 0 0) in
  let a r :=
    Activity.mk 1 "Gym" None "Health" (mktime 9 0 0 0) None r
      (Some "Mon,WED") None 15 false true created created in
  let d := mkdate 2024 2 7 in
  _is_scheduled_for_date (a "daily") d = true /\
  (_is_scheduled_for_date (a "weekly") d = true <->
   day_of_week_of d = day_of_week_of (mkdate 2024 1 31)) /\
  (_is_scheduled_for_date (a "once") d = true <-> d = mkdate 2024 1 31) /\
  _is_scheduled_for_date (a "monthly") d = false.
Proof.
  intros created a d.
  pose proof (is_scheduled_decision_table (a "daily") d) as Hdaily.
  pose proof (is_scheduled_decision_table (a "weekly") d) as Hweekly.
  pose proof (is_scheduled_decision_table (a "once") d) as Honce.
  pose proof (is_scheduled_decision_table (a "monthly") d) as Hother.
  cbv zeta in Hdaily, Hweekly, Honce, Hother.
  split; [|split; [|split]].
  - exact (proj1 Hdaily eq_refl).
  - exact (proj1 (proj2 (proj2 (proj2 Hweekly))) eq_refl).
  - exact (proj1 (proj2 (proj2 (proj2 (proj2 (proj2 Honce))))) eq_refl).
  - apply (proj2 (proj2 (proj2 (proj2 (proj2 (proj2 Hother)))))).
    simpl. intros H.
    repeat (destruct H as [H|H]; [discriminate|]). exact H.
Defined.

End Resolver.

(** ** The week listing *)

Section Week.

Import ActivityManager.

(** The rows the loop collects have distinct primary keys. *)
Lemma week_day_pass_nodup (current : date) (all result : list Activity.t) :
  NoDup (map Activity.id result) ->
  NoDup (map Activity.id (week_day_pass current all result)).
Proof.
  unfold week_day_pass. revert result.
  induction all as [|a all IH]; intros result Hnd; simpl; [exact Hnd|].
  apply IH. destruct (_is_scheduled_for_date a current); [|exact Hnd].
  destruct (activity_in a result) eqn:Hin; simpl; [exact Hnd|].
  rewrite map_app. simpl. apply NoDup_snoc; [exact Hnd|].
  intros Hmem. apply in_map_iff in Hmem. destruct Hmem as (r & Hid & Hr).
  unfold activity_in in Hin.
  assert (existsb (fun r => Activity.id r =? Activity.id a) result = true)
    as Hex; [|congruence].
  apply existsb_exists. exists r. split; [exact Hr | now apply Z.eqb_eq].
Qed.

Lemma week_loop_nodup (fuel : nat) (current week_end : date)
    (all result l : list Activity.t) :
  NoDup (map Activity.id result) ->
  week_loop fuel current week_end all result = Some (Ok l) ->
  NoDup (map Activity.id l).
Proof.
  revert current result.
  induction fuel as [|fuel IH]; intros current result Hnd; simpl.
  - destruct (date_leb current week_end); [discriminate|].
    now intros H; injection H as <-.
  - destruct (date_leb current week_end).
    + destruct (replace_day current (day current + 1)) as [c'|e];
        [|discriminate].
      apply IH. now apply week_day_pass_nodup.
    + now intros H; injection H as <-.
Qed.

(** The loop is never cut short: a turn that goes on has raised the day
    of the month, which stays below 32. *)
Lemma week_loop_fuel (fuel : nat) (current week_end : date)
    (all result : list Activity.t) :
  (Z.to_nat (32 - day current) < fuel)%nat ->
  week_loop fuel current week_end all result <> None.
Proof.
  revert current result.
  induction fuel as [|fuel IH]; intros current result Hfuel; [lia|].
  simpl. destruct (date_leb current week_end); [|discriminate].
  destruct (replace_day current (day current + 1)) as [c'|e] eqn:Hr;
    [|discriminate].
  apply IH. apply replace_day_ok in Hr. destruct Hr as [-> Hv].
  apply valid_dateb_iff in Hv. cbn [year month day] in *.
  pose proof (days_in_month_le_31 (year current) (month current)). lia.
Qed.

(** When the last day of the month of [current] is not after
    [week_end], the loop reaches it and the step to the next day
    raises. *)
Lemma week_loop_month_end (fuel : nat) (current week_end : date)
    (all result : list Activity.t) :
  valid_dateb current = true ->
  date_leb (month_end current) week_end = true ->
  (Z.to_nat (32 - day current) < fuel)%nat ->
  week_loop fuel current week_end all result
  = Some (Raise (ValueError "day is out of range for month")).
Proof.
  revert current result.
  induction fuel as [|fuel IH]; intros current result Hv Hend Hfuel; [lia|].
  simpl.
  assert (Hle : date_leb current week_end = true).
  { apply valid_dateb_iff in Hv. revert Hend. rewrite !date_leb_le.
    unfold month_end. simpl. lia. }
  rewrite Hle.
  destruct (replace_day current (day current + 1)) as [c'|e] eqn:Hr.
  - apply replace_day_ok in Hr. destruct Hr as [-> Hv'].
    apply IH; [exact Hv' | exact Hend |].
    apply valid_dateb_iff in Hv'. cbn [year month day] in *.
    pose proof (days_in_month_le_31 (year current) (month current)). lia.
  - now rewrite (replace_day_raise _ _ _ Hr).
Qed.

(** When [week_end] is before the last day of the month of [current],
    the loop returns a list. *)
Lemma week_loop_inside_month (fuel : nat) (current week_end : date)
    (all result : list Activity.t) :
  valid_dateb current = true ->
  date_ltb week_end (month_end current) = true ->
  (Z.to_nat (32 - day current) < fuel)%nat ->
  exists l, week_loop fuel current week_end all result = Some (Ok l).
Proof.
  revert current result.
  induction fuel as [|fuel IH]; intros current result Hv Hend Hfuel; [lia|].
  simpl. destruct (date_leb current week_end) eqn:Hle; [|now eexists].
  assert (Hday : day current < _days_in_month (year current) (month current)).
  { revert Hle Hend. rewrite date_leb_le, date_ltb_lt.
    unfold month_end. simpl. lia. }
  apply valid_dateb_iff in Hv.
  assert (Hv' : valid_dateb (mkdate (year current) (month current)
                                    (day current + 1)) = true).
  { apply valid_dateb_iff. simpl. lia. }
  unfold replace_day. rewrite Hv'.
  apply IH; [exact Hv' | exact Hend |]. cbn [year month day].
  pose proof (days_in_month_le_31 (year current) (month current)). lia.
Qed.

(** [get_for_week] always comes to an end. *)
Lemma get_for_week_total (today : date) (target_date : option date)
    (db : DB) :
  exists r, get_for_week today target_date db = Some r.
Proof.
  unfold get_for_week.
  destruct (get_week_bounds today target_date "monday") as [[ws we]|e];
    [|now eexists].
  destruct (week_loop _ ws we (get_all true db) []) as [[l|e]|] eqn:Hloop;
    [now eexists | now eexists |].
  exfalso. revert Hloop. apply week_loop_fuel. lia.
Qed.

(** A list that [get_for_week] returns holds every activity at most once
    and is in ascending order of the start times. *)
Lemma get_for_week_nodup_sorted (today : date) (target_date : option date)
    (db : DB) (l : list Activity.t) :
  get_for_week today target_date db = Some (Ok l) ->
  NoDup (map Activity.id l) /\ NoDup l /\ StronglySorted start_le l.
Proof.
  unfold get_for_week.
  destruct (get_week_bounds today target_date "monday") as [[ws we]|e];
    [|discriminate].
  destruct (week_loop _ ws we (get_all true db) []) as [[r|e]|] eqn:Hloop;
    [|discriminate|discriminate].
  intros H; injection H as <-.
  apply week_loop_nodup in Hloop; [|constructor].
  assert (Hids : NoDup (map Activity.id
                          (sorted_by Activity.start_time time_ltb r))).
  { eapply Permutation_NoDup; [|exact Hloop].
    apply Permutation_map. symmetry. apply sorted_by_perm. }
  split; [exact Hids|]. split; [eapply NoDup_map_inv; exact Hids|].
  apply sorted_by_sorted; [apply time_ltb_asym|].
  intros x y z. apply time_ge_trans.
Qed.

(** [get_for_week] raises [ValueError] for every week that holds the
    last day of the month of its Monday, and returns a list for every
    other week. *)
Lemma get_for_week_month_end (today : date) (target_date : option date)
    (db : DB) (week_start week_end : date) :
  get_week_bounds today target_date "monday" = Ok (week_start, week_end) ->
  valid_dateb week_start = true ->
  if date_leb (month_end week_start) week_end
  then get_for_week today target_date db
       = Some (Raise (ValueError "day is out of range for month"))
  else exists l, get_for_week today target_date db = Some (Ok l).
Proof.
  intros Hb Hv. unfold get_for_week. rewrite Hb.
  destruct (date_leb (month_end week_start) week_end) eqn:Hend.
  - rewrite week_loop_month_end; [reflexivity | exact Hv | exact Hend | lia].
  - destruct (week_loop_inside_month
                (S (Z.to_nat (32 - day week_start))) week_start week_end
                (get_all true db) [] Hv) as [l Hl].
    + apply not_true_iff_false in Hend. rewrite date_leb_le in Hend.
      apply date_ltb_lt. lia.
    + lia.
    + rewrite Hl. now eexists.
Qed.

(** C3, at a week with a month end: on Wednesday 2024-01-31 the week runs
    from Monday 2024-01-29 to Sunday 2024-02-04, and [get_for_week] raises
    [ValueError] when it steps from 2024-01-31 to the next day, whatever
    the activities are. *)
Theorem get_for_week_raises_at_month_end (db : DB) :
  get_for_week (mkdate 2024 1 31) None db
  = Some (Raise (ValueError "day is out of range for month")).
Proof.
  pose proof (get_for_week_month_end (mkdate 2024 1 31) None db
                (mkdate 2024 1 29) (mkdate 2024 2 4) eq_refl eq_refl) as H.
  exact H.
Qed.

(** A week inside a month: on Wednesday 2024-03-13 a daily activity at
    08:00 and a weekday activity at 07:30 are each due on several days of
    the week and are listed once, the earlier start first; the inactive
    activity is left out. *)
Example get_for_week_inside_month :
  let daily := sample_activity 1 "Walk" "daily" (mktime 8 0 0 0)
                 (mkdate 2024 1 1) in
  let weekdays := sample_activity 2 "Mail" "weekdays" (mktime 7 30 0 0)
                    (mkdate 2024 1 1) in
  let inactive :=
    Activity.mk 3 "Swim" None "Health" (mktime 6 0 0 0) None "daily" None
      None 15 false false (mkdatetime (mkdate 2024 1 1) (mktime 6 0 0 0))
      (mkdatetime (mkdate 2024 1 1) (mktime 6 0 0 0)) in
  get_for_week (mkdate 2024 3 13) None (mkDB [daily; weekdays; inactive] [])
  = Some (Ok [weekdays; daily]).
Proof. vm_compute. reflexivity. Qed.

End Week.

(** ** Construction of activities *)

Section Construction.

Import ActivityManager.

Lemma validate_category_ok (category v : string) :
  validate_category category = Ok v -> In v CATEGORIES.
Proof.
  unfold validate_category.
  destruct (find _ CATEGORIES) as [cat|] eqn:Hfind; [|discriminate].
  intros H; injection H as <-. now apply find_some in Hfind.
Qed.

Lemma validate_recurrence_ok (recurrence v : string) :
  validate_recurrence recurrence = Ok v -> In v RECURRENCE_OPTIONS.
Proof.
  unfold validate_recurrence.
  destruct (str_in_list (lower recurrence) RECURRENCE_OPTIONS) eqn:Hin;
    [|discriminate].
  intros H; injection H as <-.
  unfold str_in_list in Hin. apply existsb_exists in Hin.
  destruct Hin as (x & Hx & Heq). apply String.eqb_eq in Heq. now subst.
Qed.

Lemma validate_duration_ok (duration v : Z) :
  validate_duration duration = Ok v -> v = duration /\ 1 <= v <= 1440.
Proof.
  unfold validate_duration.
  destruct (duration <? 1) eqn:H1; [discriminate|].
  destruct (1440 <? duration) eqn:H2; [discriminate|].
  intros H; injection H as <-. lia.
Qed.

Lemma validate_prep_time_ok (prep_time v : Z) :
  validate_prep_time prep_time = Ok v -> v = prep_time /\ 0 <= v <= 180.
Proof.
  unfold validate_prep_time.
  destruct (prep_time <? 0) eqn:H1; [discriminate|].
  destruct (180 <? prep_time) eqn:H2; [discriminate|].
  intros H; injection H as <-. lia.
Qed.

(** C9, as amended. An activity that [create] returns has a category of
    the enumerated set, a recurrence of the enumerated kinds, a duration
    within 1..1440 when it is present and not zero, and a preparation time
    within 0..180; its title is the text given, which [create] does not
    check; the activity is the new last row of the table. *)
Theorem create_invariants (parser_parse : string -> option datetime)
    (now : datetime) (title start_time category : string)
    (description : option string) (duration : option Z) (recurrence : string)
    (custom_days location : option string) (prep_time : Z)
    (is_outdoor : bool) (db db' : DB) (a : Activity.t) :
  create parser_parse now title start_time category description duration
         recurrence custom_days location prep_time is_outdoor db
  = (Ok a, db') ->
  Activity.title a = title /\
  In (Activity.category a) CATEGORIES /\
  In (Activity.recurrence a) RECURRENCE_OPTIONS /\
  (forall n, Activity.duration a = Some n -> n <> 0 -> 1 <= n <= 1440) /\
  0 <= Activity.prep_time a <= 180 /\
  db' = mkDB (activities db ++ [a]) (completions db).
Proof.
  unfold create, parse_time.
  destruct (parser_parse start_time) as [parsed|]; [|discriminate].
  cbn [bind].
  destruct (validate_category category) as [vc|] eqn:Hc; [|discriminate].
  cbn [bind].
  destruct (validate_recurrence recurrence) as [vr|] eqn:Hr; [|discriminate].
  cbn [bind].
  apply validate_category_ok in Hc. apply validate_recurrence_ok in Hr.
  assert (Hdur :
    forall r, match duration with
              | Some d =>
                  if truthy_int duration
                  then (d' <- validate_duration d ;; Ok (Some d'))
                  else Ok duration
              | None => Ok duration
              end = Ok r ->
              forall n, r = Some n -> n <> 0 -> 1 <= n <= 1440).
  { intros r Hres n -> Hn. destruct duration as [d|]; simpl in Hres.
    - destruct (d =? 0) eqn:Hd; simpl in Hres.
      + injection Hres as ->. apply Z.eqb_eq in Hd. contradiction.
      + destruct (validate_duration d) as [v|] eqn:Hv; [|discriminate].
        simpl in Hres. injection Hres as ->.
        now apply validate_duration_ok in Hv.
    - discriminate. }
  destruct (match duration with Some _ => _ | None => _ end) as [dur|];
    [|discriminate].
  specialize (Hdur dur eq_refl). cbn [bind].
  assert (Hprep :
    forall r, (if negb (prep_time =? 0) then validate_prep_time prep_time
               else Ok prep_time) = Ok r -> 0 <= r <= 180).
  { intros r. destruct (prep_time =? 0) eqn:Hp; simpl.
    - intros H; injection H as <-. apply Z.eqb_eq in Hp. lia.
    - intros H. now apply validate_prep_time_ok in H. }
  destruct (if negb (prep_time =? 0) then _ else _) as [prep|]; [|discriminate].
  specialize (Hprep prep eq_refl). cbn [bind].
  intros H; injection H as <- <-. simpl. auto 10.
Qed.

(** C9 on a call: ["Read"], at ["09:00"], category ["health"], 45
    minutes, ["Weekly"]. *)
Lemma create_invariants_witness :
  let now := mkdatetime (mkdate 2024 3 5) (mktime 20 0 0 0) in
  exists a db',
    create sample_parser now "Read" "09:00" "health" None (Some 45) "Weekly"
           None None 15 false empty_db = (Ok a, db') /\
    Activity.title a = "Read" /\
    In (Activity.category a) CATEGORIES /\
    In (Activity.recurrence a) RECURRENCE_OPTIONS /\
    (forall n, Activity.duration a = Some n -> n <> 0 -> 1 <= n <= 1440) /\
    0 <= Activity.prep_time a <= 180 /\
    db' = mkDB [a] [].
Proof.
  intros now.
  set (a := Activity.mk 1 "Read" None "Health" (mktime 9 0 0 0) (Some 45)
              "weekly" None None 15 false true now now).
  exists a, (mkDB [a] []).
  split; [reflexivity|].
  exact (create_invariants sample_parser now "Read" "09:00" "health" None
           (Some 45) "Weekly" None None 15 false empty_db (mkDB [a] []) a
           eq_refl).
Defined.

(** C9 as stated fails: [create] with an empty title returns an activity
    whose title is empty. *)
Lemma create_accepts_empty_title :
  let now := mkdatetime (mkdate 2024 3 5) (mktime 20 0 0 0) in
  exists a db',
    create sample_parser now "" "09:00" "Other" None None "once" None None
           15 false empty_db = (Ok a, db') /\
    Activity.title a = "".
Proof.
  intros now. eexists. eexists. split; reflexivity.
Qed.

End Construction.

(** ** The completion ledger: [mark] *)

Section Ledger.

Import CompletionManager.

Lemma validate_status_ok (status v : string) :
  validate_status status = Ok v ->
  v = lower status /\ In v COMPLETION_STATUSES.
Proof.
  unfold validate_status.
  destruct (str_in_list (lower status) COMPLETION_STATUSES) eqn:Hin;
    [|discriminate].
  intros H; injection H as <-. split; [reflexivity|].
  unfold str_in_list in Hin. apply existsb_exists in Hin.
  destruct Hin as (x & Hx & Heq). apply String.eqb_eq in Heq. now subst.
Qed.

Lemma validate_status_in (status : string) :
  In (lower status) COMPLETION_STATUSES ->
  validate_status status = Ok (lower status).
Proof.
  intros Hin. unfold validate_status.
  replace (str_in_list (lower status) COMPLETION_STATUSES) with true;
    [reflexivity|].
  symmetry. apply existsb_exists. exists (lower status).
  split; [exact Hin | apply String.eqb_refl].
Qed.

Lemma validate_status_not_in (status : string) :
  ~ In (lower status) COMPLETION_STATUSES ->
  exists msg, validate_status status = Raise (ValueError msg).
Proof.
  intros Hnot. unfold validate_status.
  destruct (str_in_list (lower status) COMPLETION_STATUSES) eqn:Hin.
  - exfalso. apply Hnot. unfold str_in_list in Hin.
    apply existsb_exists in Hin. destruct Hin as (x & Hx & Heq).
    apply String.eqb_eq in Heq. now subst.
  - eexists. reflexivity.
Qed.

Lemma is_pair_true (activity_id : Z) (d : date) (c : Completion.t) :
  is_pair activity_id d c = true <->
  Completion.activity_id c = activity_id /\ Completion.date c = d.
Proof.
  unfold is_pair. now rewrite andb_true_iff, Z.eqb_eq, date_eqb_eq.
Qed.

Lemma remark_is_pair (k : clock) (v : string) (notes : option string)
    (e : Completion.t) (activity_id : Z) (d : date) :
  is_pair activity_id d (remark k v notes e) = is_pair activity_id d e.
Proof. reflexivity. Qed.

(** After the UPDATE, the pair query finds the row as rewritten. *)
Lemma find_update_row (p : Completion.t -> bool) (e e' : Completion.t)
    (rows : list Completion.t) :
  find p rows = Some e ->
  p e' = true ->
  Completion.id e' = Completion.id e ->
  find p (update_row e' rows) = Some e'.
Proof.
  intros Hfind Hp Hid. induction rows as [|c rows IH]; [discriminate|].
  simpl in *. destruct (p c) eqn:Hpc.
  - injection Hfind as ->. rewrite Hid, Z.eqb_refl. now rewrite Hp.
  - destruct (Completion.id c =? Completion.id e').
    + now rewrite Hp.
    + rewrite Hpc. now apply IH.
Qed.

Lemma max_ids_bound (ids : list Z) (x : Z) :
  In x ids -> x <= fold_right Z.max 0 ids.
Proof.
  induction ids as [|y ids IH]; simpl; [contradiction|].
  intros [->|Hin]; [lia | specialize (IH Hin); lia].
Qed.

Lemma next_id_fresh (ids : list Z) : ~ In (next_id ids) ids.
Proof.
  intros Hin. apply max_ids_bound in Hin. unfold next_id in Hin. lia.
Qed.

(** Under the primary key, the UPDATE rewrites one row and leaves the
    key, the activity and the date of every row as they were. *)
Lemma update_row_keys (e e' : Completion.t) (rows : list Completion.t) :
  NoDup (map Completion.id rows) ->
  In e rows ->
  Completion.id e' = Completion.id e ->
  Completion.activity_id e' = Completion.activity_id e ->
  Completion.date e' = Completion.date e ->
  forall c, In c rows ->
    let c' := if Completion.id c =? Completion.id e' then e' else c in
    Completion.id c' = Completion.id c /\
    Completion.activity_id c' = Completion.activity_id c /\
    Completion.date c' = Completion.date c.
Proof.
  intros Hnd He Hid Haid Hdate c Hc. cbv zeta.
  destruct (Completion.id c =? Completion.id e') eqn:Heq; [|auto].
  apply Z.eqb_eq in Heq. rewrite Hid in Heq.
  assert (c = e) as ->; [|auto].
  clear - Hnd He Hc Heq. induction rows as [|r rows IH]; [contradiction|].
  simpl in Hnd. inversion Hnd as [|? ? Hnotin Hnd']; subst.
  destruct Hc as [->|Hc], He as [->|He]; auto.
  - exfalso. apply Hnotin. rewrite Heq. now apply in_map.
  - exfalso. apply Hnotin. rewrite <- Heq. now apply in_map.
Qed.

Lemma map_ext_in_keys {B : Type} (key : Completion.t -> B)
    (f : Completion.t -> Completion.t) (rows : list Completion.t) :
  (forall c, In c rows -> key (f c) = key c) ->
  map key (map f rows) = map key rows.
Proof.
  intros H. rewrite map_map. apply map_ext_in. exact H.
Qed.

Lemma filter_length_ext_in (p : Completion.t -> bool)
    (f : Completion.t -> Completion.t) (rows : list Completion.t) :
  (forall c, In c rows -> p (f c) = p c) ->
  List.length (filter p (map f rows)) = List.length (filter p rows).
Proof.
  intros H. induction rows as [|c rows IH]; [reflexivity|].
  simpl. rewrite (H c (or_introl eq_refl)).
  assert (IH' := IH (fun x Hx => H x (or_intror Hx))).
  destruct (p c); simpl; now rewrite IH'.
Qed.

Lemma find_pair_is (activity_id : Z) (d : date) (db : DB) :
  find_pair activity_id d db = find (is_pair activity_id d) (completions db).
Proof. reflexivity. Qed.

Lemma find_some_pair (activity_id : Z) (d : date) (db : DB)
    (e : Completion.t) :
  find_pair activity_id d db = Some e ->
  In e (completions db) /\
  Completion.activity_id e = activity_id /\ Completion.date e = d.
Proof.
  rewrite find_pair_is. intros H. apply find_some in H.
  destruct H as [Hin Hp]. apply is_pair_true in Hp. tauto.
Qed.

(** What a call of [mark] that returns a completion has done: the row of
    the pair was rewritten in place when there was one, and appended
    otherwise; the pair query now finds the completion returned. *)
Lemma mark_returns (k : clock) (activity_id : Z) (status : string)
    (target_date : option date) (notes : option string) (db db' : DB)
    (c : Completion.t) :
  mark k activity_id status target_date notes db = (Ok (Some c), db') ->
  let d := resolved_date k target_date in
  In (lower status) COMPLETION_STATUSES /\
  activities db' = activities db /\
  find_pair activity_id d db' = Some c /\
  match find_pair activity_id d db with
  | Some old =>
      c = remark k (lower status) notes old /\
      completions db' = update_row c (completions db)
  | None =>
      c = Completion.mk (next_id (map Completion.id (completions db)))
            activity_id d (lower status)
            (if String.eqb (lower status) "done" then Some (now k) else None)
            notes (now k) /\
      completions db' = completions db ++ [c]
  end.
Proof.
  unfold mark, resolved_date. intros H.
  destruct (validate_status status) as [v|e] eqn:Hv; [|discriminate].
  apply validate_status_ok in Hv. destruct Hv as [-> Hin].
  destruct (find _ (activities db)) as [a|]; [|discriminate].
  set (d := match target_date with Some d => d | None => today k end) in *.
  cbv zeta.
  destruct (find_pair activity_id d db) as [old|] eqn:Hold.
  - injection H as <- <-. cbn [activities completions].
    repeat split; auto.
    rewrite find_pair_is in *. cbn [completions].
    apply find_update_row with (e := old); auto.
    rewrite remark_is_pair. now apply find_some in Hold.
  - injection H as <- <-. cbn [activities completions].
    repeat split; auto.
    rewrite find_pair_is in *. cbn [completions].
    apply find_app_new; [exact Hold|].
    apply is_pair_true. auto.
Qed.

(** [mark] goes through when the status is one of the four and the
    activity is there. *)
Lemma mark_succeeds (k : clock) (activity_id : Z) (status : string)
    (target_date : option date) (notes : option string) (db : DB) :
  In (lower status) COMPLETION_STATUSES ->
  ActivityManager.get_by_id activity_id db <> None ->
  exists c db',
    mark k activity_id status target_date notes db = (Ok (Some c), db').
Proof.
  intros Hin Hact. unfold mark.
  rewrite (validate_status_in _ Hin).
  unfold ActivityManager.get_by_id in Hact.
  destruct (find _ (activities db)) as [a|]; [|congruence].
  destruct (find_pair _ _ db); eexists; eexists; reflexivity.
Qed.

(** A call that does not return a completion leaves the database as it
    was. *)
Lemma mark_fails_unchanged (k : clock) (activity_id : Z) (status : string)
    (target_date : option date) (notes : option string) (db : DB) :
  (forall c, fst (mark k activity_id status target_date notes db)
             <> Ok (Some c)) ->
  snd (mark k activity_id status target_date notes db) = db.
Proof.
  unfold mark. intros H.
  destruct (validate_status status); [|reflexivity].
  destruct (find _ (activities db)); [|reflexivity].
  destruct (find_pair _ _ db); exfalso; eapply H; reflexivity.
Qed.

(** [mark] keeps the primary key and the uniqueness of the pairs. *)
Lemma mark_invariant (k : clock) (activity_id : Z) (status : string)
    (target_date : option date) (notes : option string) (db : DB) :
  pk_unique db -> pair_unique db ->
  let db' := snd (mark k activity_id status target_date notes db) in
  pk_unique db' /\ pair_unique db'.
Proof.
  intros Hpk Hpair. cbv zeta.
  destruct (mark k activity_id status target_date notes db) as [r db'] eqn:Hm.
  destruct r as [[c|]|e].
  2:{ unfold mark in Hm.
      destruct (validate_status status); [|discriminate].
      destruct (find _ (activities db)).
      - destruct (find_pair _ _ db); discriminate.
      - injection Hm as <-. auto. }
  2:{ unfold mark in Hm.
      destruct (validate_status status).
      - destruct (find _ (activities db)); [|discriminate].
        destruct (find_pair _ _ db); discriminate.
      - injection Hm as _ <-. auto. }
  apply mark_returns in Hm. cbv zeta in Hm.
  destruct Hm as (_ & _ & _ & Hcase). simpl.
  set (d := resolved_date k target_date) in *.
  destruct (find_pair activity_id d db) as [old|] eqn:Hold.
  - destruct Hcase as [Hc Hrows].
    destruct (find_some_pair _ _ _ _ Hold) as (Hin & Haid & Hdate).
    assert (Hkeys := update_row_keys old c (completions db) Hpk Hin).
    assert (Completion.id c = Completion.id old) as Hid by now subst c.
    assert (Completion.activity_id c = Completion.activity_id old) as Ha
      by now subst c.
    assert (Completion.date c = Completion.date old) as Hd by now subst c.
    specialize (Hkeys Hid Ha Hd). cbv zeta in Hkeys.
    split.
    + unfold pk_unique. rewrite Hrows. unfold update_row.
      rewrite map_ext_in_keys; [exact Hpk|].
      intros x Hx. now apply Hkeys.
    + intros a' d'. unfold pair_rows. rewrite Hrows. unfold update_row.
      rewrite filter_length_ext_in; [apply Hpair|].
      intros x Hx. destruct (Hkeys x Hx) as (_ & Hxa & Hxd).
      unfold is_pair. now rewrite Hxa, Hxd.
  - destruct Hcase as [Hc Hrows]. split.
    + unfold pk_unique. rewrite Hrows, map_app. simpl.
      apply NoDup_snoc; [exact Hpk|].
      rewrite Hc. simpl. apply next_id_fresh.
    + intros a' d'. unfold pair_rows. rewrite Hrows, filter_app.
      rewrite length_app. simpl.
      destruct (is_pair a' d' c) eqn:Hp; simpl.
      * apply is_pair_true in Hp. rewrite Hc in Hp. simpl in Hp.
        destruct Hp as [<- <-].
        rewrite find_pair_is in Hold.
        rewrite (find_none_filter _ _ Hold). simpl. lia.
      * specialize (Hpair a' d'). unfold pair_rows in Hpair. lia.
Qed.

Lemma empty_db_invariant : pk_unique empty_db /\ pair_unique empty_db.
Proof.
  split; [constructor|]. intros a d. simpl. lia.
Qed.

Lemma pair_rows_single (activity_id : Z) (d : date) (db : DB)
    (c : Completion.t) :
  find_pair activity_id d db = Some c ->
  (List.length (pair_rows activity_id d db) <= 1)%nat ->
  pair_rows activity_id d db = [c].
Proof.
  rewrite find_pair_is. unfold pair_rows. intros Hfind Hlen.
  destruct (find_some_filter _ _ _ Hfind) as [rest Hrest].
  rewrite Hrest in *. destruct rest; [reflexivity | simpl in Hlen; lia].
Qed.

Lemma update_row_length (row : Completion.t) (rows : list Completion.t) :
  List.length (update_row row rows) = List.length rows.
Proof. unfold update_row. apply length_map. Qed.

(** C4. Two successive [mark] calls for one pair (activity, date) leave
    at most one completion for the pair; when both go through, the second
    rewrites the row of the first in place (same primary key, same number
    of rows) and the stored status is the status of the second call, in
    lower case. The calls go through when the activity exists and the
    statuses are among the four. *)
Theorem mark_twice_one_record (k1 k2 : clock) (activity_id : Z)
    (status1 status2 : string) (target1 target2 : option date)
    (notes1 notes2 : option string) (d : date) (db : DB) :
  pk_unique db -> pair_unique db ->
  resolved_date k1 target1 = d -> resolved_date k2 target2 = d ->
  let first := mark k1 activity_id status1 target1 notes1 db in
  let second := mark k2 activity_id status2 target2 notes2 (snd first) in
  (List.length (pair_rows activity_id d (snd second)) <= 1)%nat /\
  (forall c1 c2,
      fst first = Ok (Some c1) -> fst second = Ok (Some c2) ->
      pair_rows activity_id d (snd second) = [c2] /\
      Completion.status c2 = lower status2 /\
      Completion.id c2 = Completion.id c1 /\
      completions (snd second) = update_row c2 (completions (snd first)) /\
      List.length (completions (snd second))
      = List.length (completions (snd first))) /\
  (ActivityManager.get_by_id activity_id db <> None ->
   In (lower status1) COMPLETION_STATUSES ->
   In (lower status2) COMPLETION_STATUSES ->
   exists c1 c2, fst first = Ok (Some c1) /\ fst second = Ok (Some c2)).
Proof.
  intros Hpk Hpair Hd1 Hd2 first second.
  destruct (mark_invariant k1 activity_id status1 target1 notes1 db Hpk Hpair)
    as [Hpk1 Hpair1]. fold first in Hpk1, Hpair1.
  destruct (mark_invariant k2 activity_id status2 target2 notes2 (snd first)
              Hpk1 Hpair1) as [Hpk2 Hpair2]. fold second in Hpk2, Hpair2.
  split; [apply Hpair2|]. split.
  - intros c1 c2 H1 H2.
    assert (first = (Ok (Some c1), snd first)) as E1
      by (rewrite <- H1; apply surjective_pairing).
    assert (second = (Ok (Some c2), snd second)) as E2
      by (rewrite <- H2; apply surjective_pairing).
    apply mark_returns in E1, E2. cbv zeta in E1, E2.
    rewrite Hd1 in E1. rewrite Hd2 in E2.
    destruct E1 as (_ & _ & Hf1 & _).
    destruct E2 as (_ & _ & Hf2 & Hcase).
    rewrite Hf1 in Hcase. destruct Hcase as [Hc2 Hrows].
    split; [apply pair_rows_single; [exact Hf2 | apply Hpair2]|].
    split; [now rewrite Hc2|].
    split; [now rewrite Hc2|].
    split; [exact Hrows|].
    rewrite Hrows. apply update_row_length.
  - intros Hact Hs1 Hs2.
    destruct (mark_succeeds k1 activity_id status1 target1 notes1 db Hs1 Hact)
      as (c1 & db1 & E1).
    fold first in E1.
    assert (Hact1 : ActivityManager.get_by_id activity_id (snd first) <> None).
    { pose proof (mark_returns _ _ _ _ _ _ _ _ E1) as (_ & Hacts & _).
      unfold ActivityManager.get_by_id in *. rewrite E1. simpl.
      now rewrite Hacts. }
    destruct (mark_succeeds k2 activity_id status2 target2 notes2 (snd first)
                Hs2 Hact1) as (c2 & db2 & E2).
    fold second in E2. exists c1, c2. now rewrite E1, E2.
Qed.

(** C4 on a run: activity 1 is marked [done] and then [MISSED] for
    2024-03-05; one row is left, with status [missed]. *)
Lemma mark_twice_one_record_witness :
  let d := mkdate 2024 3 5 in
  let k1 := clock_at d (mktime 8 0 0 0) in
  let k2 := clock_at d (mktime 21 0 0 0) in
  let db :=
    mkDB [sample_activity 1 "Run" "daily" (mktime 7 0 0 0) (mkdate 2024 1 1)]
         [] in
  let first := CompletionManager.mark k1 1 "done" None None db in
  let second :=
    CompletionManager.mark k2 1 "MISSED" (Some d) (Some "rain") (snd first) in
  (List.length (pair_rows 1 d (snd second)) <= 1)%nat /\
  map Completion.status (pair_rows 1 d (snd second)) = ["missed"].
Proof.
  intros d k1 k2 db first second.
  assert (Hpk : pk_unique db) by constructor.
  assert (Hpair : pair_unique db) by (intros a x; simpl; lia).
  pose proof (mark_twice_one_record k1 k2 1 "done" "MISSED" None (Some d)
                None (Some "rain") d db Hpk Hpair eq_refl eq_refl) as H.
  cbv zeta in H. destruct H as [Hle _].
  split; [exact Hle | reflexivity].
Defined.

(** C5, as amended. A status that is not, in lower case, one of the four
    makes [mark] raise [ValueError]; with a good status and an activity id
    that the driver can bind (a signed integer of 64 bits) and that
    references no activity, [mark] raises nothing and returns [None].
    Either way the database is left as it was. *)
Theorem mark_failure_modes (k : clock) (activity_id : Z) (status : string)
    (target_date : option date) (notes : option string) (db : DB) :
  (~ In (lower status) COMPLETION_STATUSES ->
   exists msg,
     mark k activity_id status target_date notes db
     = (Raise (ValueError msg), db)) /\
  (In (lower status) COMPLETION_STATUSES ->
   sqlite_int activity_id = true ->
   ActivityManager.get_by_id activity_id db = None ->
   mark k activity_id status target_date notes db = (Ok None, db)).
Proof.
  split.
  - intros Hnot. destruct (validate_status_not_in status Hnot) as [msg Hv].
    exists msg. unfold mark. now rewrite Hv.
  - intros Hin _ Hact. unfold mark. rewrite (validate_status_in _ Hin).
    unfold ActivityManager.get_by_id in Hact. now rewrite Hact.
Qed.

(** C5 on two calls against a database with activity 1 and one
    completion: a status outside of the four, and the unknown
    activity 2. *)
Lemma mark_failure_modes_witness :
  let d := mkdate 2024 3 5 in
  let k := clock_at d (mktime 8 0 0 0) in
  let db :=
    mkDB [sample_activity 1 "Run" "daily" (mktime 7 0 0 0) (mkdate 2024 1 1)]
         [Completion.mk 1 1 d "done" (Some (now k)) None (now k)] in
  (exists msg, mark k 1 "skipped" None None db = (Raise (ValueError msg), db))
  /\ mark k 2 "Done" None None db = (Ok None, db).
Proof.
  intros d k db. split.
  - apply (proj1 (mark_failure_modes k 1 "skipped" None None db)).
    simpl. intros H.
    repeat (destruct H as [H|H]; [discriminate|]). exact H.
  - apply (proj2 (mark_failure_modes k 2 "Done" None None db)).
    + simpl. auto.
    + reflexivity.
    + reflexivity.
Defined.

(** C5 as stated fails: [mark] for an activity that does not exist
    raises no error. *)
Lemma mark_unknown_activity_returns_none :
  let k := clock_at (mkdate 2024 3 5) (mktime 8 0 0 0) in
  sqlite_int 7 = true /\
  ActivityManager.get_by_id 7 empty_db = None /\
  mark k 7 "done" None None empty_db = (Ok None, empty_db) /\
  ~ (exists e, fst (mark k 7 "done" None None empty_db) = Raise e).
Proof.
  cbv zeta. split; [reflexivity|]. split; [reflexivity|].
  split; [reflexivity|]. intros [e H]. discriminate H.
Qed.

(** C8. A [mark] that goes through writes the clock reading into the
    completion timestamp exactly when the status written is [done];
    otherwise the timestamp is the one the row had before (none for a new
    row). Hence a later [mark] for the same pair with another status
    leaves the timestamp of the earlier call as it was. *)
Theorem mark_completion_timestamp (k1 k2 : clock) (activity_id : Z)
    (status1 status2 : string) (target1 target2 : option date)
    (notes1 notes2 : option string) (db db1 db2 : DB)
    (c1 c2 : Completion.t) :
  mark k1 activity_id status1 target1 notes1 db = (Ok (Some c1), db1) ->
  mark k2 activity_id status2 target2 notes2 db1 = (Ok (Some c2), db2) ->
  resolved_date k2 target2 = resolved_date k1 target1 ->
  Completion.completed_at c1
  = (if String.eqb (Completion.status c1) "done" then Some (now k1)
     else match find_pair activity_id (resolved_date k1 target1) db with
          | Some old => Completion.completed_at old
          | None => None
          end) /\
  Completion.completed_at c2
  = (if String.eqb (Completion.status c2) "done" then Some (now k2)
     else Completion.completed_at c1) /\
  find_pair activity_id (resolved_date k1 target1) db2 = Some c2.
Proof.
  intros H1 H2 Hd.
  apply mark_returns in H1, H2. cbv zeta in H1, H2. rewrite Hd in H2.
  destruct H1 as (_ & _ & Hf1 & Hcase1).
  destruct H2 as (_ & _ & Hf2 & Hcase2).
  rewrite Hf1 in Hcase2. destruct Hcase2 as [-> _].
  split; [|split; [reflexivity | exact Hf2]].
  destruct (find_pair activity_id (resolved_date k1 target1) db);
    destruct Hcase1 as [-> _]; reflexivity.
Qed.

(** C8 on a run: marked [done] at 08:00 and [missed] at 21:00, the
    completion keeps the timestamp of 08:00. *)
Lemma mark_completion_timestamp_witness :
  let d := mkdate 2024 3 5 in
  let k1 := clock_at d (mktime 8 0 0 0) in
  let k2 := clock_at d (mktime 21 0 0 0) in
  let db :=
    mkDB [sample_activity 1 "Run" "daily" (mktime 7 0 0 0) (mkdate 2024 1 1)]
         [] in
  exists c1 c2 db1 db2,
    mark k1 1 "done" None None db = (Ok (Some c1), db1) /\
    mark k2 1 "missed" None None db1 = (Ok (Some c2), db2) /\
    Completion.completed_at c1 = Some (now k1) /\
    Completion.completed_at c2 = Some (now k1) /\
    find_pair 1 d db2 = Some c2.
Proof.
  intros d k1 k2 db.
  set (a := sample_activity 1 "Run" "daily" (mktime 7 0 0 0) (mkdate 2024 1 1)).
  set (c1 := Completion.mk 1 1 d "done" (Some (now k1)) None (now k1)).
  set (c2 := Completion.mk 1 1 d "missed" (Some (now k1)) None (now k1)).
  exists c1, c2, (mkDB [a] [c1]), (mkDB [a] [c2]).
  pose proof (mark_completion_timestamp k1 k2 1 "done" "missed" None None
                None None db (mkDB [a] [c1]) (mkDB [a] [c2]) c1 c2
                eq_refl eq_refl eq_refl) as (H1 & H2 & H3).
  split; [reflexivity|]. split; [reflexivity|].
  split; [exact H1|]. split; [exact H2 | exact H3].
Defined.

(** C10. A [mark] for a pair that already has a completion, with the
    notes absent or empty, goes through and keeps the notes the row
    had. *)
Theorem remark_keeps_notes (k : clock) (activity_id : Z) (status : string)
    (target_date : option date) (notes : option string) (db : DB)
    (old : Completion.t) :
  In (lower status) COMPLETION_STATUSES ->
  ActivityManager.get_by_id activity_id db <> None ->
  find_pair activity_id (resolved_date k target_date) db = Some old ->
  notes = None \/ notes = Some "" ->
  exists c db',
    mark k activity_id status target_date notes db = (Ok (Some c), db') /\
    find_pair activity_id (resolved_date k target_date) db' = Some c /\
    Completion.notes c = Completion.notes old.
Proof.
  intros Hin Hact Hold Hnotes.
  destruct (mark_succeeds k activity_id status target_date notes db Hin Hact)
    as (c & db' & Hm).
  exists c, db'. split; [exact Hm|].
  apply mark_returns in Hm. cbv zeta in Hm.
  destruct Hm as (_ & _ & Hf & Hcase). rewrite Hold in Hcase.
  destruct Hcase as [-> _]. split; [exact Hf|].
  destruct Hnotes as [-> | ->]; reflexivity.
Qed.

(** C10 on a run: the completion of 2024-03-05 carries the note
    ["5 km"]; marking it [partial] with an empty note keeps the note. *)
Lemma remark_keeps_notes_witness :
  let d := mkdate 2024 3 5 in
  let k := clock_at d (mktime 21 0 0 0) in
  let old := Completion.mk 1 1 d "done" (Some (now k)) (Some "5 km") (now k) in
  let db :=
    mkDB [sample_activity 1 "Run" "daily" (mktime 7 0 0 0) (mkdate 2024 1 1)]
         [old] in
  exists c db',
    mark k 1 "partial" None (Some "") db = (Ok (Some c), db') /\
    find_pair 1 d db' = Some c /\
    Completion.notes c = Some "5 km".
Proof.
  intros d k old db.
  apply (remark_keeps_notes k 1 "partial" None (Some "") db old).
  - simpl. auto.
  - discriminate.
  - reflexivity.
  - right. reflexivity.
Defined.

End Ledger.

(** ** Range statistics *)

Section Statistics.

Import CompletionManager.

Lemma count_status_acc (status : string) (rows : list Completion.t) (acc : Z) :
  fold_left
    (fun acc c => if String.eqb (Completion.status c) status
                  then acc + 1 else acc)
    rows acc
  = acc + Z.of_nat (List.length (with_status status rows)).
Proof.
  revert acc. induction rows as [|c rows IH]; intros acc; simpl; [lia|].
  rewrite IH. destruct (String.eqb (Completion.status c) status); simpl; lia.
Qed.

Lemma count_status_filter (status : string) (rows : list Completion.t) :
  count_status status rows = Z.of_nat (List.length (with_status status rows)).
Proof. unfold count_status. now rewrite count_status_acc. Qed.

(** No completion is counted as done and as partial. *)
Lemma done_and_partial_bounded (rows : list Completion.t) :
  Z.of_nat (List.length (with_status "done" rows))
  + Z.of_nat (List.length (with_status "partial" rows))
  <= Z.of_nat (List.length rows).
Proof.
  assert (H : (List.length (with_status "done" rows)
               + List.length (with_status "partial" rows)
               <= List.length rows)%nat); [|lia].
  unfold with_status.
  induction rows as [|c rows IH]; simpl; [lia|].
  destruct (String.eqb (Completion.status c) "done") eqn:Hd.
  - apply String.eqb_eq in Hd. rewrite Hd. simpl. lia.
  - destruct (String.eqb (Completion.status c) "partial"); simpl; lia.
Qed.

(** What the two checks give for a range within their bound. *)
Lemma zrange_forallb (f : Z -> bool) (first n : nat) (z : Z) :
  forallb f (zrange first n) = true ->
  Z.of_nat first <= z < Z.of_nat first + Z.of_nat n ->
  f z = true.
Proof.
  intros Hall Hz. unfold zrange in Hall. rewrite forallb_forall in Hall.
  apply Hall. apply in_map_iff. exists (Z.to_nat z). split; [lia|].
  apply in_seq. lia.
Qed.

Lemma same_eq (a b : Float.float) : Float.same a b = true -> a = b.
Proof.
  destruct a as [s|s| |s m e], b as [s'|s'| |s' m' e']; simpl;
    try discriminate; try reflexivity.
  - intros H. apply Bool.eqb_prop in H. now subst.
  - intros H. apply Bool.eqb_prop in H. now subst.
  - intros H. apply andb_prop in H. destruct H as [H He].
    apply andb_prop in H. destruct H as [Hs Hm].
    apply Bool.eqb_prop in Hs. apply Pos.eqb_eq in Hm. apply Z.eqb_eq in He.
    now subst.
Qed.

Lemma sums_exact_sound (bound : nat) (done partial : Z) :
  sums_exact bound = true ->
  0 <= done -> 0 <= partial -> done + partial <= Z.of_nat bound ->
  Float.add (Float.of_int done) (Float.mul (Float.of_int partial) Float.half)
  = Float.of_scaled (2 * done + partial) (-1).
Proof.
  intros Hall Hd Hp Hsum. apply same_eq. unfold sums_exact in Hall.
  apply (zrange_forallb _ _ _ done) in Hall; [|lia].
  apply (zrange_forallb _ _ _ partial) in Hall; [exact Hall|lia].
Qed.

Lemma rates_nearest_sound (bound : nat) (n total : Z) :
  rates_nearest bound = true ->
  0 < total <= Z.of_nat bound -> 0 <= n <= 2 * total ->
  exists k,
    rate_tenths
      (Float.mul (Float.div (Float.of_scaled n (-1)) (Float.of_int total))
                 Float.hundred) = Some k /\
    Z.abs (n * 1000 - 2 * k * total) <= total.
Proof.
  intros Hall Ht Hn. unfold rates_nearest in Hall.
  apply (zrange_forallb _ _ _ total) in Hall; [|lia].
  apply (zrange_forallb _ _ _ n) in Hall; [|lia].
  cbv beta in Hall.
  destruct (rate_tenths _) as [k|]; [|discriminate].
  exists k. split; [reflexivity|]. now apply Z.leb_le.
Qed.

(** The checks hold for the ranges of at most 100 completions. *)
Lemma sums_exact_100 : sums_exact 100 = true.
Proof. vm_compute. reflexivity. Qed.

Lemma rates_nearest_100 : rates_nearest 100 = true.
Proof. vm_compute. reflexivity. Qed.

(** With at most 100 completions the rate of the code is a nearest
    tenth of the exact rate. *)
Lemma rate_formula_nearest (done partial total : Z) :
  0 <= done -> 0 <= partial -> done + partial <= total ->
  0 < total <= 100 ->
  exists k, rate_formula done partial total = Float.of_tenths false k /\
            nearest_tenth k done partial total.
Proof.
  intros Hd Hp Hsum Ht.
  destruct (rates_nearest_sound 100 (2 * done + partial) total
              rates_nearest_100) as (k & Hk & Hnear); [lia | lia |].
  unfold rate_formula.
  rewrite (sums_exact_sound 100 done partial sums_exact_100 Hd Hp);
    [|lia].
  exists k. split; [|exact Hnear].
  destruct (Float.mul (Float.div (Float.of_scaled (2 * done + partial) (-1))
                         (Float.of_int total)) Float.hundred)
    as [[|]|s| |[|] m e]; cbv beta iota delta [rate_tenths] in Hk;
    try discriminate; injection Hk as <-; reflexivity.
Qed.

(** Off the halfway points the nearest tenth is the one the exact
    rounding gives. *)
Lemma nearest_tenth_unique (k done partial total : Z) :
  0 < total ->
  nearest_tenth k done partial total ->
  ~ halfway done partial total ->
  k = spec_rate_tenths done partial total.
Proof.
  unfold nearest_tenth, halfway, spec_rate_tenths.
  generalize ((2 * done + partial) * 1000). intros x Ht Hk Hhalf.
  assert (Hlo : 2 * total * k <= x + total) by lia.
  assert (Hhi : x + total <= 2 * total * k + 2 * total) by lia.
  assert (Hne : x + total <> 2 * total * k).
  { intros E. apply Hhalf. rewrite E, Z.mul_comm. apply Z.mod_mul. lia. }
  assert (Hne' : x + total <> 2 * total * (k + 1)).
  { intros E. apply Hhalf. rewrite E, Z.mul_comm. apply Z.mod_mul. lia. }
  apply (Z.div_unique _ _ _ (x + total - 2 * total * k)); lia.
Qed.

(** C6. The statistics of a date range count the completions of the
    range, in all and per status. The completion rate is
    [round((done + partial * 0.5) / total * 100, 1)] evaluated on doubles,
    and [0.0] when the range is empty. For a range of at most 100
    completions it is the double of a number with one decimal that is
    nearest to the exact rate [(done + 0.5 * partial) / total * 100], and
    of the exact rate rounded to one decimal unless the exact rate lies
    halfway between two such numbers. With 4 completions, 2 of them done
    and 2 partial, the rate is 75.0. *)
Theorem get_stats_counts_and_rate (start_date end_date : date) (db : DB) :
  let rows := in_range start_date end_date db in
  let count status := Z.of_nat (List.length (with_status status rows)) in
  let s := get_stats start_date end_date db in
  total s = Z.of_nat (List.length rows) /\
  done s = count "done" /\
  missed s = count "missed" /\
  partial s = count "partial" /\
  rescheduled s = count "rescheduled" /\
  completion_rate s
  = (if total s =? 0 then Float.zero
     else rate_formula (done s) (partial s) (total s)) /\
  (0 < total s <= 100 ->
   exists k,
     completion_rate s = Float.of_tenths false k /\
     nearest_tenth k (done s) (partial s) (total s) /\
     (~ halfway (done s) (partial s) (total s) ->
      k = spec_rate_tenths (done s) (partial s) (total s))) /\
  (total s = 4 -> done s = 2 -> partial s = 2 ->
   completion_rate s = Float.of_int 75).
Proof.
  intros rows count s.
  assert (Hs : s = if Z.of_nat (List.length rows) =? 0
                   then mkstats 0 0 0 0 0 Float.zero
                   else mkstats (Z.of_nat (List.length rows))
                          (count "done") (count "missed") (count "partial")
                          (count "rescheduled")
                          (rate_formula (count "done") (count "partial")
                             (Z.of_nat (List.length rows)))).
  { unfold s, get_stats, count, rate_formula.
    fold (in_range start_date end_date db). fold rows. destruct (Z.of_nat (List.length rows) =? 0); [reflexivity|].
    now rewrite !count_status_filter. }
  assert (Hrate : completion_rate s
                  = if total s =? 0 then Float.zero
                    else rate_formula (done s) (partial s) (total s)).
  { rewrite Hs. destruct (Z.of_nat (List.length rows) =? 0) eqn:H0;
      simpl; [reflexivity | now rewrite H0]. }
  assert (Hcounts :
    total s = Z.of_nat (List.length rows) /\ done s = count "done" /\
    missed s = count "missed" /\ partial s = count "partial" /\
    rescheduled s = count "rescheduled").
  { rewrite Hs. destruct (Z.of_nat (List.length rows) =? 0) eqn:H0;
      simpl; [|auto].
    apply Z.eqb_eq in H0. destruct rows; [|discriminate]. auto. }
  destruct Hcounts as (Ht & Hd & Hm & Hp & Hr).
  split; [exact Ht|]. split; [exact Hd|]. split; [exact Hm|].
  split; [exact Hp|]. split; [exact Hr|]. split; [exact Hrate|].
  split.
  - intros Hrange.
    destruct (rate_formula_nearest (done s) (partial s) (total s))
      as (k & Hk & Hnear).
    + rewrite Hd. subst count. cbv beta. lia.
    + rewrite Hp. subst count. cbv beta. lia.
    + rewrite Hd, Hp, Ht. apply done_and_partial_bounded.
    + exact Hrange.
    + exists k. split; [|split; [exact Hnear|]].
      * rewrite Hrate. destruct (total s =? 0) eqn:H0; [|exact Hk].
        apply Z.eqb_eq in H0. lia.
      * intros Hoff. apply nearest_tenth_unique; [lia | exact Hnear | exact Hoff].
  - intros Ht4 Hd2 Hp2. rewrite Hrate, Ht4, Hd2, Hp2. vm_compute. reflexivity.
Qed.

(** C6 on a ledger: four completions in the week of 2024-03-04, two done
    and two partial, and a fifth one outside of it. *)
Lemma get_stats_counts_and_rate_witness :
  let t := mkdatetime (mkdate 2024 3 10) (mktime 21 0 0 0) in
  let row id aid d status := Completion.mk id aid d status None None t in
  let db :=
    mkDB []
         [row 1 1 (mkdate 2024 3 4) "done";
          row 2 1 (mkdate 2024 3 5) "partial";
          row 3 2 (mkdate 2024 3 5) "done";
          row 4 2 (mkdate 2024 3 10) "partial";
          row 5 1 (mkdate 2024 3 11) "missed"] in
  let s := get_stats (mkdate 2024 3 4) (mkdate 2024 3 10) db in
  total s = 4 /\ done s = 2 /\ partial s = 2 /\ missed s = 0 /\
  rescheduled s = 0 /\ completion_rate s = Float.of_int 75 /\
  exists k, completion_rate s = Float.of_tenths false k /\
            nearest_tenth k 2 2 4 /\ k = spec_rate_tenths 2 2 4.
Proof.
  intros t row db s.
  pose proof (get_stats_counts_and_rate (mkdate 2024 3 4) (mkdate 2024 3 10) db)
    as H.
  cbv zeta in H. fold s in H.
  destruct H as (Ht & Hd & Hm & Hp & Hr & _ & Hnear & H75).
  change (total s = 4) in Ht. change (done s = 2) in Hd.
  change (partial s = 2) in Hp.
  split; [exact Ht|]. split; [exact Hd|]. split; [exact Hp|].
  split; [exact Hm|]. split; [exact Hr|].
  split; [apply H75; [exact Ht | exact Hd | exact Hp]|].
  rewrite Ht, Hd, Hp in Hnear.
  destruct Hnear as (k & Hk & Hn & Hu); [lia|].
  exists k. split; [exact Hk|]. split; [exact Hn|].
  apply Hu. unfold halfway. vm_compute. discriminate.
Defined.

(** C6, where the rate is not the exact rate rounded to one decimal:
    with 11 completions done and 1 partial out of 40 the exact rate is
    28.75, which rounds to 28.8, and the rate of the code is 28.7. *)
Lemma get_stats_rate_below_half_up :
  let s := get_stats (mkdate 2024 1 1) (mkdate 2024 1 31) january_ledger in
  total s = 40 /\ done s = 11 /\ partial s = 1 /\ missed s = 28 /\
  rescheduled s = 0 /\
  (2 * done s + partial s) * 50 * 100 = 2875 * total s /\
  halfway (done s) (partial s) (total s) /\
  spec_rate_tenths (done s) (partial s) (total s) = 288 /\
  completion_rate s = Float.of_tenths false 287 /\
  completion_rate s
  <> Float.of_tenths false (spec_rate_tenths (done s) (partial s) (total s)).
Proof.
  vm_compute. repeat (split; [reflexivity|]). discriminate.
Qed.

(** The rate is computed on doubles: with 11 completions done and 1
    partial out of 40 the quotient is the double just below 28.75, and the
    rate is 28.7. *)
Example rate_formula_below_tie :
  rate_formula 11 1 40 = Float.of_tenths false 287 /\
  Float.mul (Float.div (Float.add (Float.of_int 11)
                          (Float.mul (Float.of_int 1) Float.half))
               (Float.of_int 40))
    Float.hundred
  = S754_finite false 8092405580431359 (-48).
Proof. split; vm_compute; reflexivity. Qed.

End Statistics.

(** ** Streaks *)

Section Streaks.

Import CompletionManager.

Lemma walk_back_ext (has1 has2 : date -> bool) (y m : Z) (n : nat) (s : Z) :
  (forall j, (1 <= j <= n)%nat ->
             has1 (mkdate y m (Z.of_nat j)) = has2 (mkdate y m (Z.of_nat j))) ->
  walk_back has1 y m n s = walk_back has2 y m n s.
Proof.
  revert s. induction n as [|n IH]; intros s H; [reflexivity|].
  cbn [walk_back]. rewrite (H (S n)) by lia.
  destruct (has2 _); [|reflexivity].
  destruct n as [|n']; [reflexivity|].
  apply IH. intros j Hj. apply H. lia.
Qed.

Lemma has_date_cons (c : Completion.t) (rows : list Completion.t) (d : date) :
  has_date (c :: rows) d = date_eqb (Completion.date c) d || has_date rows d.
Proof. reflexivity. Qed.

Lemma has_date_false_below (rows : list Completion.t) (c : Completion.t)
    (e : date) :
  Forall (date_ge c) rows ->
  date_ltb (Completion.date c) e = true ->
  has_date rows e = false.
Proof.
  intros Hall Hlt. induction rows as [|r rows IH]; [reflexivity|].
  inversion Hall as [|? ? Hr Hrows]; subst.
  rewrite has_date_cons, (IH Hrows), orb_false_r.
  apply not_true_iff_false. unfold date_ge, descending in Hr.
  revert Hr Hlt. rewrite date_eqb_fields, date_ltb_ge, date_ltb_lt. lia.
Qed.

(** On rows in descending order of their dates, the loop of
    [get_streak] is the walk back through the month of the expected
    date. *)
Lemma streak_loop_walk (rows : list Completion.t) :
  StronglySorted date_ge rows ->
  forall (e : date) (s : Z),
    valid_dateb e = true ->
    streak_loop rows e s
    = walk_back (has_date rows) (year e) (month e) (Z.to_nat (day e)) s.
Proof.
  induction rows as [|c rows IH]; intros Hsorted e s Hv.
  - apply valid_dateb_iff in Hv.
    destruct (Z.to_nat (day e)) eqn:Hn; [lia | reflexivity].
  - inversion Hsorted as [|? ? Hrows Hc]; subst.
    pose proof Hv as Hv0. apply valid_dateb_iff in Hv.
    assert (He : e = mkdate (year e) (month e)
                       (Z.of_nat (Z.to_nat (day e)))).
    { destruct e as [y m d]. simpl in *. f_equal. lia. }
    cbn [streak_loop].
    destruct (date_eqb (Completion.date c) e) eqn:Heq.
    + (* the row is for the expected date *)
      destruct (Z.to_nat (day e)) as [|n'] eqn:Hn; [lia|].
      cbn [walk_back]. rewrite <- He, has_date_cons, Heq. cbn [orb].
      unfold replace_day.
      destruct n' as [|n''].
      * assert (day e = 1) as Hd by lia.
        replace (valid_dateb _) with false; [reflexivity|].
        symmetry. apply not_true_iff_false. rewrite valid_dateb_iff.
        cbn [year month day]. lia.
      * assert (Hv' : valid_dateb (mkdate (year e) (month e) (day e - 1))
                      = true).
        { apply valid_dateb_iff. cbn [year month day]. lia. }
        rewrite Hv'. cbn [bind]. rewrite (IH Hrows _ _ Hv').
        cbn [year month day].
        replace (Z.to_nat (day e - 1)) with (S n'') by lia.
        apply walk_back_ext. intros j Hj.
        rewrite has_date_cons.
        replace (date_eqb (Completion.date c) _) with false; [reflexivity|].
        symmetry. apply not_true_iff_false.
        apply date_eqb_eq in Heq. rewrite Heq, date_eqb_fields.
        cbn [year month day]. lia.
    + destruct (date_ltb (Completion.date c) e) eqn:Hlt.
      * (* the row is older than the expected date: a gap *)
        destruct (Z.to_nat (day e)) as [|n'] eqn:Hn; [lia|].
        cbn [walk_back]. rewrite <- He, has_date_cons, Heq.
        now rewrite (has_date_false_below rows c e Hc Hlt).
      * (* the row is newer than the expected date: skipped *)
        rewrite (IH Hrows _ _ Hv0).
        apply walk_back_ext. intros j Hj.
        rewrite has_date_cons.
        replace (date_eqb (Completion.date c) _) with false; [reflexivity|].
        symmetry. apply not_true_iff_false.
        apply not_true_iff_false in Heq.
        revert Heq Hlt. rewrite !date_eqb_fields, date_ltb_ge.
        cbn [year month day]. lia.
Qed.

Lemma done_rows_sorted (activity_id : Z) (db : DB) :
  StronglySorted date_ge (done_rows activity_id db).
Proof.
  unfold done_rows.
  apply (sorted_by_rev_sorted Completion.date date_ltb date_ltb_asym).
  intros x y z Hyx Hzy. eapply date_ge_trans; eassumption.
Qed.

Lemma has_date_perm (l l' : list Completion.t) (d : date) :
  Permutation l l' -> has_date l d = has_date l' d.
Proof.
  intros Hp. unfold has_date.
  destruct (existsb _ l') eqn:H'.
  - apply existsb_exists in H'. destruct H' as (x & Hx & Hd).
    apply existsb_exists. exists x. split; [|exact Hd].
    eapply Permutation_in; [symmetry; exact Hp | exact Hx].
  - apply not_true_iff_false. intros H. apply existsb_exists in H.
    destruct H as (x & Hx & Hd).
    assert (existsb (fun c => date_eqb (Completion.date c) d) l' = true)
      as Hex; [|congruence].
    apply existsb_exists. exists x. split; [|exact Hd].
    eapply Permutation_in; [exact Hp | exact Hx].
Qed.

Lemma has_date_done_rows (activity_id : Z) (db : DB) (d : date) :
  has_date (done_rows activity_id db) d = has_done activity_id db d.
Proof.
  unfold done_rows.
  rewrite (has_date_perm _ _ d (sorted_by_rev_perm _ _ _)).
  unfold has_date, has_done.
  induction (completions db) as [|c rows IH]; [reflexivity|].
  simpl. destruct ((Completion.activity_id c =? activity_id)
                   && String.eqb (Completion.status c) "done"); simpl.
  - now rewrite IH.
  - exact IH.
Qed.

(** What [get_streak] computes: the walk back from today through the
    days of the month for which the activity is done. *)
Lemma get_streak_walk (k : clock) (activity_id : Z) (db : DB) :
  valid_dateb (today k) = true ->
  get_streak k activity_id db
  = walk_back (has_done activity_id db) (year (today k)) (month (today k))
      (Z.to_nat (day (today k))) 0.
Proof.
  intros Hv. unfold get_streak.
  rewrite <- (walk_back_ext _ _ _ _ _ _
                (fun j _ => has_date_done_rows activity_id db _)).
  rewrite <- (streak_loop_walk _ (done_rows_sorted activity_id db) _ _ Hv).
  now destruct (done_rows activity_id db).
Qed.

End Streaks.

(** ** The streak of the ledger and the streak of the analytics *)

Section LedgerAndAnalytics.

Import CompletionManager.

(** [days_back] is the subtraction of a [timedelta] as long as it stays
    inside the month. *)
Lemma sub_days_days_back (d : date) (i : Z) :
  valid_dateb d = true ->
  0 <= i < day d ->
  sub_days d i = Ok (days_back d i).
Proof.
  intros Hv Hi. pose proof (toordinal_range d Hv) as Hrange.
  pose proof Hv as Hv0. apply valid_dateb_iff in Hv.
  assert (Hv' : valid_dateb (days_back d i) = true).
  { apply valid_dateb_iff. unfold days_back. cbn [year month day]. lia. }
  pose proof (toordinal_range _ Hv') as Hrange'.
  unfold sub_days, add_days.
  replace (toordinal d + - i) with (toordinal (days_back d i))
    by (unfold days_back, toordinal, _ymd2ord; cbn [year month day]; lia).
  replace ((0 <? toordinal (days_back d i))
           && (toordinal (days_back d i) <=? _MAXORDINAL)) with true
    by (symmetry; apply andb_true_iff; rewrite Z.ltb_lt, Z.leb_le; lia).
  f_equal. apply valid_dateb_iff in Hv'.
  apply fromordinal_toordinal; lia.
Qed.

Lemma walk_back_run (has : date -> bool) (y m : Z) (N n : nat) (s : Z) :
  (N < n)%nat ->
  (forall i, (i < N)%nat -> has (mkdate y m (Z.of_nat (n - i))) = true) ->
  has (mkdate y m (Z.of_nat (n - N))) = false ->
  walk_back has y m n s = Ok (s + Z.of_nat N).
Proof.
  revert n s. induction N as [|N IH]; intros n s Hlt Hrun Hgap.
  - destruct n as [|n]; [lia|]. cbn [walk_back].
    rewrite Nat.sub_0_r in Hgap. rewrite Hgap. f_equal. lia.
  - destruct n as [|n]; [lia|]. cbn [walk_back].
    assert (H0 := Hrun 0%nat). rewrite Nat.sub_0_r in H0.
    rewrite H0 by lia.
    destruct n as [|n']; [lia|].
    rewrite IH.
    + f_equal. lia.
    + lia.
    + intros i Hi. specialize (Hrun (S i)).
      replace (S (S n') - S i)%nat with (S n' - i)%nat in Hrun by lia.
      apply Hrun. lia.
    + replace (S (S n') - S N)%nat with (S n' - N)%nat in Hgap by lia.
      exact Hgap.
Qed.

Lemma walk_back_all (has : date -> bool) (y m : Z) (n : nat) (s : Z) :
  (1 <= n)%nat ->
  (forall j, (1 <= j <= n)%nat -> has (mkdate y m (Z.of_nat j)) = true) ->
  walk_back has y m n s = Raise (ValueError "day is out of range for month").
Proof.
  revert s. induction n as [|n IH]; intros s Hn Hall; [lia|].
  cbn [walk_back]. rewrite (Hall (S n)) by lia.
  destruct n as [|n']; [reflexivity|].
  apply IH; [lia|]. intros j Hj. apply Hall. lia.
Qed.

Lemma streak_loop_no_row (rows : list Completion.t) (e : date) (s : Z) :
  has_date rows e = false -> streak_loop rows e s = Ok s.
Proof.
  induction rows as [|c rows IH]; intros Hnot; [reflexivity|].
  rewrite has_date_cons in Hnot. apply orb_false_iff in Hnot.
  destruct Hnot as [Hc Hrest]. cbn [streak_loop]. rewrite Hc.
  destruct (date_ltb (Completion.date c) e); [reflexivity | now apply IH].
Qed.

(** Without a [done] completion for today the streak is 0. *)
Lemma get_streak_zero (k : clock) (activity_id : Z) (db : DB) :
  has_done activity_id db (today k) = false ->
  get_streak k activity_id db = Ok 0.
Proof.
  intros Hnot. rewrite <- has_date_done_rows in Hnot. unfold get_streak.
  rewrite <- (streak_loop_no_row _ _ 0 Hnot).
  now destruct (done_rows activity_id db).
Qed.

(** Inside the month of today the streak is as specified: with a
    [done] completion for each of the last [N] days and none for the day
    before them, it is [N]. *)
Lemma get_streak_in_month (k : clock) (activity_id : Z) (db : DB) (N : Z) :
  valid_dateb (today k) = true ->
  0 <= N < day (today k) ->
  (forall i, 0 <= i < N ->
             has_done activity_id db (days_back (today k) i) = true) ->
  has_done activity_id db (days_back (today k) N) = false ->
  get_streak k activity_id db = Ok N.
Proof.
  intros Hv HN Hrun Hgap. rewrite (get_streak_walk _ _ _ Hv).
  rewrite (walk_back_run _ _ _ (Z.to_nat N)).
  - f_equal. lia.
  - lia.
  - intros i Hi. specialize (Hrun (Z.of_nat i)). unfold days_back in Hrun.
    replace (Z.of_nat (Z.to_nat (day (today k)) - i))
      with (day (today k) - Z.of_nat i) by lia.
    apply Hrun. lia.
  - unfold days_back in Hgap.
    replace (Z.of_nat (Z.to_nat (day (today k)) - Z.to_nat N))
      with (day (today k) - N) by lia.
    exact Hgap.
Qed.

(** A streak that reaches the first day of the month of today makes
    [get_streak] raise. *)
Lemma get_streak_month_start (k : clock) (activity_id : Z) (db : DB) :
  valid_dateb (today k) = true ->
  (forall i, 0 <= i < day (today k) ->
             has_done activity_id db (days_back (today k) i) = true) ->
  get_streak k activity_id db
  = Raise (ValueError "day is out of range for month").
Proof.
  intros Hv Hrun. rewrite (get_streak_walk _ _ _ Hv).
  apply valid_dateb_iff in Hv.
  apply walk_back_all; [lia|].
  intros j Hj. specialize (Hrun (day (today k) - Z.of_nat j)).
  unfold days_back in Hrun.
  replace (day (today k) - (day (today k) - Z.of_nat j))
    with (Z.of_nat j) in Hrun by lia.
  apply Hrun. lia.
Qed.

(** C2, at the first day of a month: activity 1 is done on 2024-02-29
    and on 2024-03-01, not on 2024-02-28; on 2024-03-01 the streak should
    be 2, and [get_streak] raises [ValueError] on the step back from the
    first of March. *)
Theorem get_streak_raises_on_first_of_month :
  let k := clock_at (mkdate 2024 3 1) (mktime 21 0 0 0) in
  let row id d := Completion.mk id 1 d "done" (Some (now k)) None (now k) in
  let db :=
    mkDB [sample_activity 1 "Run" "daily" (mktime 7 0 0 0) (mkdate 2024 1 1)]
         [row 1 (mkdate 2024 2 29); row 2 (mkdate 2024 3 1)] in
  has_done 1 db (mkdate 2024 3 1) = true /\
  has_done 1 db (mkdate 2024 2 29) = true /\
  has_done 1 db (mkdate 2024 2 28) = false /\
  sub_days (mkdate 2024 3 1) 1 = Ok (mkdate 2024 2 29) /\
  get_streak k 1 db = Raise (ValueError "day is out of range for month").
Proof.
  cbv zeta. repeat split; vm_compute; reflexivity.
Qed.

(** Where the streak of the ledger is a number, the streak of the
    analytics is the same number. *)
Lemma streak_loop_refines (rows : list Completion.t) (e : date) (s n : Z) :
  valid_dateb e = true ->
  streak_loop rows e s = Ok n ->
  AnalyticsEngine.streak_loop rows e s = Ok n.
Proof.
  revert e s. induction rows as [|c rows IH]; intros e s Hv; [auto|].
  cbn [streak_loop AnalyticsEngine.streak_loop].
  destruct (date_eqb (Completion.date c) e).
  - destruct (replace_day e (day e - 1)) as [e'|err] eqn:Hr; [|discriminate].
    apply replace_day_ok in Hr. destruct Hr as [-> Hv'].
    assert (Hday : 2 <= day e).
    { apply valid_dateb_iff in Hv'. cbn [year month day] in Hv'. lia. }
    rewrite (sub_days_in_month e Hv Hday). cbn [bind]. now apply IH.
  - destruct (date_ltb (Completion.date c) e); [auto | now apply IH].
Qed.

Lemma calculate_streak_refines (k : clock) (activity_id : Z) (db : DB)
    (n : Z) :
  valid_dateb (today k) = true ->
  get_streak k activity_id db = Ok n ->
  AnalyticsEngine._calculate_streak k activity_id db = Ok n.
Proof.
  unfold get_streak, AnalyticsEngine._calculate_streak. intros Hv.
  destruct (done_rows activity_id db) as [|c rows]; [auto|].
  now apply streak_loop_refines.
Qed.

(** The listing of [get_streaks] has one entry per active activity, in
    descending order of the streaks, each with the streak that
    [_calculate_streak] gives. *)
Lemma streak_entries_spec (k : clock) (acts : list Activity.t) (db : DB)
    (l : list AnalyticsEngine.streak_entry) :
  AnalyticsEngine.streak_entries k acts db = Ok l ->
  map AnalyticsEngine.entry_activity_id l = map Activity.id acts /\
  Forall (fun entry =>
            AnalyticsEngine._calculate_streak k
              (AnalyticsEngine.entry_activity_id entry) db
            = Ok (AnalyticsEngine.entry_streak entry)) l.
Proof.
  revert l. induction acts as [|a acts IH]; intros l; simpl.
  - intros H; injection H as <-. split; [reflexivity | constructor].
  - destruct (AnalyticsEngine._calculate_streak k (Activity.id a) db)
      as [n|] eqn:Hn; [|discriminate]. cbn [bind].
    destruct (AnalyticsEngine.streak_entries k acts db) as [rest|];
      [|discriminate]. cbn [bind].
    intros H; injection H as <-. destruct (IH rest eq_refl) as [Hids Hall].
    split; [simpl; now rewrite Hids|]. constructor; [exact Hn | exact Hall].
Qed.

Lemma get_streaks_spec (k : clock) (db : DB)
    (l : list AnalyticsEngine.streak_entry) :
  AnalyticsEngine.get_streaks k db = Ok l ->
  StronglySorted streak_ge l /\
  Permutation (map AnalyticsEngine.entry_activity_id l)
              (map Activity.id (filter Activity.is_active (activities db))) /\
  Forall (fun entry =>
            AnalyticsEngine._calculate_streak k
              (AnalyticsEngine.entry_activity_id entry) db
            = Ok (AnalyticsEngine.entry_streak entry)) l.
Proof.
  unfold AnalyticsEngine.get_streaks.
  destruct (AnalyticsEngine.streak_entries k _ db) as [entries|] eqn:He;
    [|discriminate]. cbn [bind].
  intros H; injection H as <-.
  apply streak_entries_spec in He. destruct He as [Hids Hall].
  assert (Hperm := sorted_by_rev_perm AnalyticsEngine.entry_streak Z.ltb
                     entries).
  split; [|split].
  - eapply StronglySorted_impl;
      [| apply (sorted_by_rev_sorted AnalyticsEngine.entry_streak Z.ltb)].
    + intros a b Hab. unfold streak_ge. apply Z.ltb_ge. exact Hab.
    + intros x y Hxy. apply Z.ltb_ge. apply Z.ltb_lt in Hxy. lia.
    + intros x y z Hyx Hzy. apply Z.ltb_ge.
      apply Z.ltb_ge in Hyx, Hzy. lia.
  - rewrite <- Hids. now apply Permutation_map.
  - eapply Permutation_Forall; [symmetry; exact Hperm | exact Hall].
Qed.

(** C7, at the first day of a month: with the completions of C2 above,
    the listing of the analytics reports the streak 2 for activity 1,
    where the streak of the ledger is the [ValueError]. *)
Theorem get_streaks_differs_on_first_of_month :
  let k := clock_at (mkdate 2024 3 1) (mktime 21 0 0 0) in
  let row id d := Completion.mk id 1 d "done" (Some (now k)) None (now k) in
  let db :=
    mkDB [sample_activity 1 "Run" "daily" (mktime 7 0 0 0) (mkdate 2024 1 1)]
         [row 1 (mkdate 2024 2 29); row 2 (mkdate 2024 3 1)] in
  AnalyticsEngine.get_streaks k db
  = Ok [AnalyticsEngine.mkentry 1 "Run" "Other" 2] /\
  get_streak k 1 db = Raise (ValueError "day is out of range for month").
Proof.
  cbv zeta. split; vm_compute; reflexivity.
Qed.

End LedgerAndAnalytics.

(** ** The validators *)

Section Validators.

Lemma str_in_list_iff (x : string) (l : list string) :
  str_in_list x l = true <-> In x l.
Proof.
  unfold str_in_list. rewrite existsb_exists. split.
  - intros (y & Hy & Heq). apply String.eqb_eq in Heq. now subst.
  - intros H. exists x. split; [exact H | apply String.eqb_refl].
Qed.

Lemma validate_category_cases (category : string) :
  match validate_category category with
  | Ok c =>
      In c CATEGORIES /\ lower c = lower category /\
      validate_category c = Ok c
  | Raise e =>
      (forall c, In c CATEGORIES -> lower c <> lower category) /\
      exists msg, e = ValueError msg
  end.
Proof.
  unfold validate_category at 1.
  destruct (find _ CATEGORIES) as [c|] eqn:Hfind.
  - apply find_some in Hfind. destruct Hfind as [Hin Heq].
    apply String.eqb_eq in Heq. split; [exact Hin|]. split; [exact Heq|].
    clear Heq. simpl in Hin.
    repeat (destruct Hin as [<- | Hin]; [reflexivity|]). contradiction.
  - split; [|eexists; reflexivity].
    intros c Hin Heq.
    pose proof (find_none _ _ Hfind c Hin) as Hc. simpl in Hc.
    apply String.eqb_neq in Hc. contradiction.
Qed.

(** X1. Of the texts of ASCII characters [validate_category] accepts
    exactly those that are, up to the case of the letters, one of the
    eight categories, and returns that category in its canonical
    spelling; a category is its own validation. Any other text of ASCII
    characters raises [ValueError]. *)
Theorem validate_category_canonical (category : string) :
  is_ascii category = true ->
  match validate_category category with
  | Ok c =>
      In c CATEGORIES /\ lower c = lower category /\
      validate_category c = Ok c
  | Raise e =>
      (forall c, In c CATEGORIES -> lower c <> lower category) /\
      exists msg, e = ValueError msg
  end.
Proof.
  intros _. exact (validate_category_cases category).
Qed.

(** X1 on two texts: a category in capitals, and a text that is none. *)
Lemma validate_category_canonical_witness :
  validate_category "WORK" = Ok "Work" /\
  validate_category "Work" = Ok "Work" /\
  exists msg, validate_category "Chores" = Raise (ValueError msg).
Proof.
  pose proof (validate_category_canonical "WORK" eq_refl) as Hwork.
  pose proof (validate_category_canonical "Chores" eq_refl) as Hnone.
  change (validate_category "WORK") with (@Ok string "Work") in Hwork.
  destruct Hwork as (_ & _ & Hself).
  split; [reflexivity|]. split; [exact Hself|].
  destruct (validate_category "Chores") as [c|e] eqn:Hv.
  - destruct Hnone as (Hin & Hlow & _). simpl in Hlow.
    simpl in Hin.
    repeat (destruct Hin as [<- | Hin]; [discriminate Hlow|]).
    contradiction.
  - destruct Hnone as (_ & msg & ->). exists msg. reflexivity.
Defined.

End Validators.

(** ** The week of a date *)

Section WeekBounds.

Lemma weekday_add_days (d d' : date) (n : Z) :
  add_days d n = Ok d' -> weekday d' = (weekday d + n) mod 7.
Proof.
  intros H. apply add_days_ok in H. destruct H as [_ Hord].
  unfold weekday. rewrite Hord. divmod.
Qed.

(** What [get_week_bounds] returns, by ordinals. *)
Lemma get_week_bounds_ok (today : date) (target_date : option date)
    (week_start : string) (ws we : date) :
  get_week_bounds today target_date week_start = Ok (ws, we) ->
  let t := match target_date with Some d => d | None => today end in
  let start_day := if String.eqb (lower week_start) "monday" then 0 else 6 in
  valid_dateb ws = true /\ valid_dateb we = true /\
  toordinal ws = toordinal t - (weekday t - start_day) mod 7 /\
  toordinal we = toordinal ws + 6.
Proof.
  unfold get_week_bounds. cbv zeta.
  set (t := match target_date with Some d => d | None => today end).
  set (start_day := if String.eqb (lower week_start) "monday" then 0 else 6).
  destruct (sub_days t ((weekday t - start_day) mod 7)) as [ws'|] eqn:Hs;
    [|discriminate]. cbn [bind].
  destruct (add_days ws' 6) as [we'|] eqn:He; [|discriminate]. cbn [bind].
  intros H; injection H as <- <-.
  apply add_days_ok in Hs, He. destruct Hs as [Hv1 H1], He as [Hv2 H2].
  split; [exact Hv1|]. split; [exact Hv2|]. split; lia.
Qed.

(** X2. The week [get_week_bounds] returns for a date starts on the day
    of the convention (Monday, or Sunday for any other [week_start]), ends
    six days later, and holds the date. *)
Theorem get_week_bounds_week (today : date) (target_date : option date)
    (week_start : string) (ws we : date) :
  let t := match target_date with Some d => d | None => today end in
  valid_dateb t = true ->
  get_week_bounds today target_date week_start = Ok (ws, we) ->
  weekday ws = (if String.eqb (lower week_start) "monday" then 0 else 6) /\
  weekday we = (if String.eqb (lower week_start) "monday" then 6 else 5) /\
  toordinal we = toordinal ws + 6 /\
  date_leb ws t = true /\ date_leb t we = true.
Proof.
  intros t Hvt Hb. apply get_week_bounds_ok in Hb. cbv zeta in Hb. fold t in Hb.
  destruct Hb as (Hvs & Hve & Hs & He).
  pose proof (weekday_range t) as Hr.
  rewrite (toordinal_le ws t Hvs Hvt), (toordinal_le t we Hvt Hve).
  unfold weekday in *.
  destruct (String.eqb (lower week_start) "monday");
    (split; [divmod|]; split; [divmod|]; split; [lia|]; split; divmod).
Qed.

Lemma get_week_bounds_week_witness :
  let t := mkdate 2024 3 6 in
  let ws := mkdate 2024 3 3 in
  let we := mkdate 2024 3 9 in
  weekday ws = 6 /\ weekday we = 5 /\ toordinal we = toordinal ws + 6 /\
  date_leb ws t = true /\ date_leb t we = true.
Proof.
  intros t ws we.
  exact (get_week_bounds_week (mkdate 2024 1 1) (Some t) "Sunday" ws we
           eq_refl eq_refl).
Defined.

(** X3. Every date of a week has the bounds of that week. *)
Theorem get_week_bounds_same_week (today : date) (target_date : option date)
    (week_start : string) (ws we other : date) :
  let t := match target_date with Some d => d | None => today end in
  valid_dateb t = true ->
  get_week_bounds today target_date week_start = Ok (ws, we) ->
  valid_dateb other = true ->
  date_leb ws other = true -> date_leb other we = true ->
  get_week_bounds today (Some other) week_start = Ok (ws, we).
Proof.
  intros t Hvt Hb Hvo Hlo Hhi.
  pose proof Hb as Hb0.
  apply get_week_bounds_ok in Hb. cbv zeta in Hb. fold t in Hb.
  destruct Hb as (Hvs & Hve & Hs & He).
  rewrite (toordinal_le ws other Hvs Hvo) in Hlo.
  rewrite (toordinal_le other we Hvo Hve) in Hhi.
  set (start_day := if String.eqb (lower week_start) "monday" then 0 else 6)
    in *.
  assert (Hsd : start_day = 0 \/ start_day = 6)
    by (unfold start_day; destruct (String.eqb _ _); auto).
  assert (Hk : (weekday other - start_day) mod 7
               = toordinal other - toordinal ws).
  { unfold weekday in *. destruct Hsd as [-> | ->]; divmod. }
  unfold get_week_bounds. fold start_day. rewrite Hk.
  pose proof (toordinal_range ws Hvs) as Rs.
  pose proof (toordinal_range we Hve) as Re.
  assert (Hsub : sub_days other (toordinal other - toordinal ws) = Ok ws).
  { unfold sub_days, add_days.
    replace (toordinal other + - (toordinal other - toordinal ws))
      with (toordinal ws) by lia.
    replace ((0 <? toordinal ws) && (toordinal ws <=? _MAXORDINAL)) with true
      by (symmetry; apply andb_true_iff; rewrite Z.ltb_lt, Z.leb_le; lia).
    f_equal. apply valid_dateb_iff in Hvs.
    apply fromordinal_toordinal; lia. }
  rewrite Hsub. cbn [bind].
  assert (Hadd : add_days ws 6 = Ok we).
  { unfold add_days. rewrite <- He.
    replace ((0 <? toordinal we) && (toordinal we <=? _MAXORDINAL)) with true
      by (symmetry; apply andb_true_iff; rewrite Z.ltb_lt, Z.leb_le; lia).
    f_equal. apply valid_dateb_iff in Hve.
    apply fromordinal_toordinal; lia. }
  now rewrite Hadd.
Qed.

Lemma get_week_bounds_same_week_witness :
  get_week_bounds (mkdate 2024 1 1) (Some (mkdate 2024 3 3)) "monday"
  = Ok (mkdate 2024 2 26, mkdate 2024 3 3).
Proof.
  exact (get_week_bounds_same_week (mkdate 2024 2 28) None "monday"
           (mkdate 2024 2 26) (mkdate 2024 3 3) (mkdate 2024 3 3)
           eq_refl eq_refl eq_refl eq_refl eq_refl).
Defined.

(** X4. With the Monday convention [get_week_bounds] fails only at the
    end of the calendar: it returns a week for every date up to
    9999-12-26, and raises [OverflowError] for the five dates after
    it. *)
Theorem get_week_bounds_monday_total (today : date)
    (target_date : option date) :
  let t := match target_date with Some d => d | None => today end in
  valid_dateb t = true ->
  if toordinal t <=? toordinal (mkdate 9999 12 26)
  then exists ws we,
         get_week_bounds today target_date "monday" = Ok (ws, we)
  else get_week_bounds today target_date "monday"
       = Raise (OverflowError "date value out of range").
Proof.
  intros t Hvt. pose proof (toordinal_range t Hvt) as Rt.
  assert (H26 : toordinal (mkdate 9999 12 26) = 3652054) by reflexivity.
  rewrite H26. unfold _MAXORDINAL in Rt.
  unfold get_week_bounds. fold t.
  replace (String.eqb (lower "monday") "monday") with true by reflexivity.
  set (k := (weekday t - 0) mod 7).
  assert (Hk : 0 <= k <= 6 /\ 1 <= toordinal t - k
               /\ (toordinal t - k + 6) mod 7 = 0).
  { unfold k, weekday. divmod. }
  destruct (add_days_in_range t (- k)) as [ws Hws];
    [unfold _MAXORDINAL; lia|].
  unfold sub_days. fold k. rewrite Hws. cbn [bind].
  pose proof (add_days_ok _ _ _ Hws) as [Hvs Hos].
  destruct (toordinal t <=? 3652054) eqn:Hle.
  - apply Z.leb_le in Hle.
    destruct (add_days_in_range ws 6) as [we Hwe];
      [unfold _MAXORDINAL; destruct Hk as (Hk1 & Hk2 & Hk3); divmod|].
    rewrite Hwe. now exists ws, we.
  - apply Z.leb_gt in Hle.
    destruct (add_days ws 6) as [we|e] eqn:Hwe.
    + exfalso. apply add_days_ok in Hwe. destruct Hwe as [Hve Hoe].
      pose proof (toordinal_range we Hve) as Re. unfold _MAXORDINAL in Re.
      destruct Hk as (Hk1 & Hk2 & Hk3). divmod.
    + cbn [bind]. apply add_days_raise in Hwe. destruct Hwe as [-> _].
      reflexivity.
Qed.

Lemma get_week_bounds_monday_total_witness :
  get_week_bounds (mkdate 9999 12 27) None "monday"
  = Raise (OverflowError "date value out of range").
Proof.
  exact (get_week_bounds_monday_total (mkdate 9999 12 27) None eq_refl).
Defined.

End WeekBounds.

(** ** Listings of activities *)

Section Listings.

Lemma fold_left_collect {A : Type} (p : A -> bool) (l acc : list A) :
  fold_left (fun result x => if p x then result ++ [x] else result) l acc
  = acc ++ filter p l.
Proof.
  revert acc. induction l as [|x l IH]; intros acc; simpl.
  - now rewrite app_nil_r.
  - rewrite IH. destruct (p x); [|reflexivity].
    now rewrite <- app_assoc.
Qed.

Lemma sorted_by_start_time (rows : list Activity.t) :
  StronglySorted start_le (sorted_by Activity.start_time time_ltb rows).
Proof.
  apply sorted_by_sorted; [apply time_ltb_asym|].
  intros x y z. apply time_ge_trans.
Qed.

Lemma in_sorted_by_start_time (a : Activity.t) (rows : list Activity.t) :
  In a (sorted_by Activity.start_time time_ltb rows) <-> In a rows.
Proof.
  split; apply Permutation_in;
    [|symmetry]; apply sorted_by_perm.
Qed.

Lemma in_get_all (a : Activity.t) (active_only : bool) (db : DB) :
  In a (ActivityManager.get_all active_only db) <->
  In a (activities db) /\ (active_only = true -> Activity.is_active a = true).
Proof.
  unfold ActivityManager.get_all. rewrite in_sorted_by_start_time.
  destruct active_only.
  - rewrite filter_In. tauto.
  - split; [intros H; split; [exact H | discriminate] | tauto].
Qed.

(** X5. [get_for_date] lists exactly the active activities that are due
    on the date, in ascending order of their start times. *)
Theorem get_for_date_lists_due (target_date : date) (db : DB) :
  (forall a,
      In a (ActivityManager.get_for_date target_date db) <->
      In a (activities db) /\ Activity.is_active a = true /\
      ActivityManager._is_scheduled_for_date a target_date = true) /\
  StronglySorted start_le (ActivityManager.get_for_date target_date db) /\
  (List.length (ActivityManager.get_for_date target_date db)
   <= List.length (activities db))%nat.
Proof.
  unfold ActivityManager.get_for_date. rewrite fold_left_collect. cbn [app].
  split; [|split].
  - intros a. rewrite in_sorted_by_start_time, filter_In, in_get_all. tauto.
  - apply sorted_by_start_time.
  - rewrite (Permutation_length (sorted_by_perm _ _ _)).
    etransitivity; [apply filter_length_le|].
    unfold ActivityManager.get_all.
    rewrite (Permutation_length (sorted_by_perm _ _ _)).
    apply filter_length_le.
Qed.

(** X6. [get_by_category] raises [ValueError] for a text that is no
    category, and otherwise lists exactly the activities of the category
    (the active ones, when asked for), in ascending order of their start
    times. *)
Theorem get_by_category_lists (category : string) (active_only : bool)
    (db : DB) :
  match ActivityManager.get_by_category category active_only db with
  | Ok l =>
      exists c,
        validate_category category = Ok c /\
        (forall a,
            In a l <->
            In a (activities db) /\ Activity.category a = c /\
            (active_only = true -> Activity.is_active a = true)) /\
        StronglySorted start_le l
  | Raise e =>
      (forall c, In c CATEGORIES -> lower c <> lower category) /\
      exists msg, e = ValueError msg
  end.
Proof.
  unfold ActivityManager.get_by_category.
  pose proof (validate_category_cases category) as Hc.
  destruct (validate_category category) as [c|e]; cbn [bind]; [|exact Hc].
  exists c. split; [reflexivity|]. split; [|apply sorted_by_start_time].
  intros a. rewrite in_sorted_by_start_time.
  destruct active_only; rewrite ?filter_In, ?String.eqb_eq; [tauto|].
  split; [intros [H1 H2]; repeat split; auto; discriminate | tauto].
Qed.

End Listings.

(** ** The activity table *)

Section ActivityTable.

Lemma find_map_keeping {A : Type} (p : A -> bool) (f : A -> A)
    (l : list A) :
  (forall a, p (f a) = p a) ->
  find p (map f l) = option_map f (find p l).
Proof.
  intros Hp. induction l as [|x l IH]; simpl; [reflexivity|].
  rewrite Hp. destruct (p x); [reflexivity | exact IH].
Qed.

Lemma find_filter_keeping {A : Type} (p q : A -> bool) (l : list A) :
  (forall a, p a = true -> q a = true) ->
  find p (filter q l) = find p l.
Proof.
  intros Hpq. induction l as [|x l IH]; simpl; [reflexivity|].
  destruct (q x) eqn:Hq; simpl.
  - destruct (p x); [reflexivity | exact IH].
  - destruct (p x) eqn:Hpx; [|exact IH].
    apply Hpq in Hpx. congruence.
Qed.

Lemma find_app_old {A : Type} (p : A -> bool) (l : list A) (x : A) :
  p x = false -> find p (l ++ [x]) = find p l.
Proof.
  intros Hx. induction l as [|y l IH]; simpl.
  - now rewrite Hx.
  - destruct (p y); [reflexivity | exact IH].
Qed.

Lemma get_by_id_some (activity_id : Z) (db : DB) (a : Activity.t) :
  ActivityManager.get_by_id activity_id db = Some a ->
  In a (activities db) /\ Activity.id a = activity_id.
Proof.
  unfold ActivityManager.get_by_id. intros H. apply find_some in H.
  destruct H as [Hin Hid]. apply Z.eqb_eq in Hid. now split.
Qed.

Lemma get_by_id_known (activity_id : Z) (db : DB) :
  ActivityManager.get_by_id activity_id db <> None <->
  In activity_id (map Activity.id (activities db)).
Proof.
  unfold ActivityManager.get_by_id. rewrite in_map_iff. split.
  - destruct (find _ _) as [a|] eqn:Hf; [intros _|congruence].
    apply find_some in Hf. destruct Hf as [Hin Hid].
    apply Z.eqb_eq in Hid. now exists a.
  - intros (a & Hid & Hin) Hnone.
    pose proof (find_none _ _ Hnone a Hin) as H. simpl in H.
    apply Z.eqb_neq in H. contradiction.
Qed.

Lemma next_id_above (ids : list Z) (x : Z) :
  In x ids -> x < next_id ids.
Proof.
  intros Hin. apply max_ids_bound in Hin. unfold next_id. lia.
Qed.

Lemma next_id_positive (ids : list Z) : 1 <= next_id ids.
Proof.
  unfold next_id.
  assert (0 <= fold_right Z.max 0 ids) by (induction ids; simpl; lia).
  lia.
Qed.

(** What [create] does when it returns. *)
Lemma create_returns (parser_parse : string -> option datetime)
    (now : datetime) (title start_time category : string)
    (description : option string) (duration : option Z) (recurrence : string)
    (custom_days location : option string) (prep_time : Z)
    (is_outdoor : bool) (db db' : DB) (a : Activity.t) :
  ActivityManager.create parser_parse now title start_time category
    description duration recurrence custom_days location prep_time
    is_outdoor db = (Ok a, db') ->
  exists parsed c r,
    parse_time parser_parse start_time = Ok parsed /\
    validate_category category = Ok c /\
    validate_recurrence recurrence = Ok r /\
    (forall n, duration = Some n -> 0 <= n <= 1440) /\
    0 <= prep_time <= 180 /\
    a = Activity.mk (next_id (map Activity.id (activities db))) title
          description c parsed duration r custom_days location prep_time
          is_outdoor true now now /\
    db' = mkDB (activities db ++ [a]) (completions db).
Proof.
  unfold ActivityManager.create. cbv zeta.
  destruct (parse_time parser_parse start_time) as [parsed|] eqn:Hp;
    [|discriminate]. cbn [bind].
  destruct (validate_category category) as [c|] eqn:Hc; [|discriminate].
  cbn [bind].
  destruct (validate_recurrence recurrence) as [r|] eqn:Hr; [|discriminate].
  cbn [bind].
  assert (Hd : (exists dur,
             match duration with
             | Some d => if truthy_int duration
                         then d' <- validate_duration d;; Ok (Some d')
                         else Ok duration
             | None => Ok duration
             end = Ok dur /\
             dur = duration /\
             (forall n, duration = Some n -> 0 <= n <= 1440))
           \/ exists e, match duration with
             | Some d => if truthy_int duration
                         then d' <- validate_duration d;; Ok (Some d')
                         else Ok duration
             | None => Ok duration
             end = Raise e).
  { destruct duration as [d|];
      [|left; eexists; split; [reflexivity|]; split; [reflexivity|];
        discriminate].
    unfold truthy_int. destruct (d =? 0) eqn:Hz; cbn [negb].
    - apply Z.eqb_eq in Hz. left. eexists. split; [reflexivity|].
      split; [reflexivity|]. intros n Hn. injection Hn as <-. lia.
    - destruct (validate_duration d) as [d'|e] eqn:Hv; cbn [bind].
      + apply validate_duration_ok in Hv. destruct Hv as [-> Hv].
        left. eexists. split; [reflexivity|]. split; [reflexivity|].
        intros n Hn. injection Hn as <-. lia.
      + right. now exists e. }
  destruct Hd as [(dur & -> & -> & Hdur) | (e & ->)]; [|discriminate].
  cbn [bind].
  assert (Hq : (if negb (prep_time =? 0) then validate_prep_time prep_time
                else Ok prep_time) = Ok prep_time /\ 0 <= prep_time <= 180
               \/ exists e, (if negb (prep_time =? 0)
                             then validate_prep_time prep_time
                             else Ok prep_time) = Raise e).
  { destruct (prep_time =? 0) eqn:Hz; cbn [negb].
    - apply Z.eqb_eq in Hz. left. split; [reflexivity | lia].
    - destruct (validate_prep_time prep_time) as [p|e] eqn:Hv.
      + apply validate_prep_time_ok in Hv. destruct Hv as [-> Hv].
        left. now split.
      + right. now exists e. }
  destruct Hq as [(-> & Hprep) | (e & ->)]; [|discriminate].
  cbn [bind]. intros H. injection H as <- <-.
  exists parsed, c, r.
  split; [reflexivity|]. split; [reflexivity|]. split; [reflexivity|].
  split; [exact Hdur|]. split; [exact Hprep|]. split; reflexivity.
Qed.

(** X7. An activity that [create] returns gets a key that no row had:
    larger than every key of the table, and at least 1. Reading that
    key back gives the activity; every other key reads as before, and so
    do the completions. The activity is active. *)
Theorem create_then_get_by_id (parser_parse : string -> option datetime)
    (now : datetime) (title start_time category : string)
    (description : option string) (duration : option Z) (recurrence : string)
    (custom_days location : option string) (prep_time : Z)
    (is_outdoor : bool) (db db' : DB) (a : Activity.t) :
  ActivityManager.create parser_parse now title start_time category
    description duration recurrence custom_days location prep_time
    is_outdoor db = (Ok a, db') ->
  1 <= Activity.id a /\
  (forall b, In b (activities db) -> Activity.id b < Activity.id a) /\
  ActivityManager.get_by_id (Activity.id a) db' = Some a /\
  (forall j, j <> Activity.id a ->
             ActivityManager.get_by_id j db'
             = ActivityManager.get_by_id j db) /\
  completions db' = completions db /\
  Activity.is_active a = true.
Proof.
  intros H. apply create_returns in H.
  destruct H as (parsed & c & r & _ & _ & _ & _ & _ & Ha & ->).
  assert (Hid : Activity.id a = next_id (map Activity.id (activities db)))
    by (rewrite Ha; reflexivity).
  assert (Hbelow : forall b, In b (activities db) ->
                             Activity.id b < Activity.id a).
  { intros b Hb. rewrite Hid. apply next_id_above. now apply in_map. }
  split; [rewrite Hid; apply next_id_positive|].
  split; [exact Hbelow|].
  unfold ActivityManager.get_by_id. cbn [activities completions].
  split; [|split; [|split; [reflexivity | rewrite Ha; reflexivity]]].
  - apply find_app_new; [|apply Z.eqb_refl].
    destruct (find _ (activities db)) as [b|] eqn:Hf; [|reflexivity].
    apply find_some in Hf. destruct Hf as [Hin Heq].
    apply Z.eqb_eq in Heq. apply Hbelow in Hin. lia.
  - intros j Hj. apply find_app_old. apply Z.eqb_neq. congruence.
Qed.

Lemma create_then_get_by_id_witness :
  let now := mkdatetime (mkdate 2024 3 5) (mktime 8 0 0 0) in
  let a := Activity.mk 1 "Run" None "Health" (mktime 9 0 0 0) (Some 30)
             "daily" None None 15 true true now now in
  1 <= Activity.id a /\
  ActivityManager.get_by_id (Activity.id a) (mkDB [a] []) = Some a.
Proof.
  intros now a.
  pose proof (create_then_get_by_id sample_parser now "Run" "09:00" "health"
                None (Some 30) "Daily" None None 15 true empty_db
                (mkDB [a] []) a eq_refl) as H.
  split; [apply H | apply H].
Defined.

Ltac case_matches :=
  repeat match goal with
         | |- context [match ?x with _ => _ end] =>
             lazymatch x with
             | context [match _ with _ => _ end] => fail
             | _ => destruct x eqn:?
             end
         end.

Lemma create_cases (parser_parse : string -> option datetime)
    (now : datetime) (title start_time category : string)
    (description : option string) (duration : option Z) (recurrence : string)
    (custom_days location : option string) (prep_time : Z)
    (is_outdoor : bool) (db : DB) :
  (exists a db',
      ActivityManager.create parser_parse now title start_time category
        description duration recurrence custom_days location prep_time
        is_outdoor db = (Ok a, db'))
  \/ (exists msg,
      ActivityManager.create parser_parse now title start_time category
        description duration recurrence custom_days location prep_time
        is_outdoor db = (Raise (ValueError msg), db)).
Proof.
  unfold ActivityManager.create, parse_time, validate_category,
    validate_recurrence, validate_duration, validate_prep_time, bind.
  cbv zeta. case_matches;
    solve [ left; eexists; eexists; reflexivity
          | right; eexists; reflexivity ].
Qed.

Lemma create_accepted (parser_parse : string -> option datetime)
    (now : datetime) (title start_time category : string)
    (description : option string) (duration : option Z) (recurrence : string)
    (custom_days location : option string) (prep_time : Z)
    (is_outdoor : bool) (db : DB) :
  parser_parse start_time <> None ->
  (exists c, In c CATEGORIES /\ lower c = lower category) ->
  In (lower recurrence) RECURRENCE_OPTIONS ->
  (forall n, duration = Some n -> 0 <= n <= 1440) ->
  0 <= prep_time <= 180 ->
  exists a db',
    ActivityManager.create parser_parse now title start_time category
      description duration recurrence custom_days location prep_time
      is_outdoor db = (Ok a, db').
Proof.
  intros Hp (c & Hin & Hc) Hr Hd Hq.
  unfold ActivityManager.create, parse_time. cbv zeta.
  destruct (parser_parse start_time) as [parsed|]; [|congruence].
  cbn [bind].
  pose proof (validate_category_cases category) as Hcat.
  destruct (validate_category category) as [c'|e];
    [|destruct Hcat as [Hcat _]; elim (Hcat c Hin Hc)].
  cbn [bind]. unfold validate_recurrence.
  apply str_in_list_iff in Hr. rewrite Hr. cbn [bind].
  assert (Hdur : match duration with
                 | Some d => if truthy_int duration
                             then d' <- validate_duration d;; Ok (Some d')
                             else Ok duration
                 | None => Ok duration
                 end = Ok duration).
  { destruct duration as [d|]; [|reflexivity].
    unfold truthy_int. destruct (d =? 0) eqn:Hz; cbn [negb]; [reflexivity|].
    apply Z.eqb_neq in Hz. specialize (Hd d eq_refl).
    unfold validate_duration.
    destruct (d <? 1) eqn:H1; [apply Z.ltb_lt in H1; lia|].
    destruct (1440 <? d) eqn:H2; [apply Z.ltb_lt in H2; lia|].
    reflexivity. }
  rewrite Hdur. cbn [bind].
  assert (Hprep : (if negb (prep_time =? 0)
                   then validate_prep_time prep_time
                   else Ok prep_time) = Ok prep_time).
  { destruct (prep_time =? 0); cbn [negb]; [reflexivity|].
    unfold validate_prep_time.
    destruct (prep_time <? 0) eqn:H1; [apply Z.ltb_lt in H1; lia|].
    destruct (180 <? prep_time) eqn:H2; [apply Z.ltb_lt in H2; lia|].
    reflexivity. }
  rewrite Hprep. cbn [bind]. eexists. eexists. reflexivity.
Qed.

(** X8. [create] returns an activity exactly when the parser reads the
    start time, the category is one of the eight up to the case of the
    letters, the lower case of the recurrence is one of the six kinds, the
    duration is absent or within 0..1440, and the preparation time is
    within 0..180. A call that does not return an activity raises
    [ValueError] and leaves the database as it was. *)
Theorem create_accepts (parser_parse : string -> option datetime)
    (now : datetime) (title start_time category : string)
    (description : option string) (duration : option Z) (recurrence : string)
    (custom_days location : option string) (prep_time : Z)
    (is_outdoor : bool) (db : DB) :
  let outcome :=
    ActivityManager.create parser_parse now title start_time category
      description duration recurrence custom_days location prep_time
      is_outdoor db in
  let accepted :=
    parser_parse start_time <> None /\
    (exists c, In c CATEGORIES /\ lower c = lower category) /\
    In (lower recurrence) RECURRENCE_OPTIONS /\
    (forall n, duration = Some n -> 0 <= n <= 1440) /\
    0 <= prep_time <= 180 in
  (accepted <-> exists a, fst outcome = Ok a) /\
  (~ accepted -> exists msg, outcome = (Raise (ValueError msg), db)).
Proof.
  cbv zeta.
  assert (Hback :
    forall a,
      fst (ActivityManager.create parser_parse now title start_time category
             description duration recurrence custom_days location prep_time
             is_outdoor db) = Ok a ->
      parser_parse start_time <> None /\
      (exists c, In c CATEGORIES /\ lower c = lower category) /\
      In (lower recurrence) RECURRENCE_OPTIONS /\
      (forall n, duration = Some n -> 0 <= n <= 1440) /\
      0 <= prep_time <= 180).
  { intros a Ha.
    destruct (ActivityManager.create _ _ _ _ _ _ _ _ _ _ _ _ _)
      as [o db'] eqn:Hc.
    simpl in Ha. subst o. apply create_returns in Hc.
    destruct Hc as (parsed & c & r & Hp & Hcat & Hr & Hd & Hq & _).
    split; [|split; [|split; [|split]]]; auto.
    - unfold parse_time in Hp.
      destruct (parser_parse start_time); [congruence | discriminate].
    - pose proof (validate_category_cases category) as Hcan.
      rewrite Hcat in Hcan. exists c. tauto.
    - unfold validate_recurrence in Hr.
      destruct (str_in_list _ _) eqn:Hin; [|discriminate].
      now apply str_in_list_iff. }
  split; [split|].
  - intros (Hp & Hc & Hr & Hd & Hq).
    destruct (create_accepted parser_parse now title start_time category
                description duration recurrence custom_days location
                prep_time is_outdoor db Hp Hc Hr Hd Hq) as (a & db' & ->).
    now exists a.
  - intros [a Ha]. exact (Hback a Ha).
  - intros Hno.
    destruct (create_cases parser_parse now title start_time category
                description duration recurrence custom_days location
                prep_time is_outdoor db) as [(a & db' & H) | H];
      [|exact H].
    elim Hno. apply (Hback a). now rewrite H.
Qed.

Lemma create_accepts_witness :
  exists msg,
    ActivityManager.create sample_parser
      (mkdatetime (mkdate 2024 3 5) (mktime 8 0 0 0))
      "Run" "09:00" "Sport" None None "daily" None None 15 false empty_db
    = (Raise (ValueError msg), empty_db).
Proof.
  apply create_accepts.
  intros (_ & (c & Hin & Hc) & _). simpl in Hin.
  repeat (destruct Hin as [<- | Hin]; [discriminate Hc|]). contradiction.
Defined.

End ActivityTable.

(** ** Changes to an activity *)

Section UpdateFields.

Variable R : Activity.t -> Activity.t -> Prop.
Hypothesis R_refl : forall a, R a a.
Hypothesis R_trans : forall a b c, R a b -> R b c -> R a c.
Hypothesis R_title : forall v a, R a (Activity.set_title v a).
Hypothesis R_start_time : forall v a, R a (Activity.set_start_time v a).
Hypothesis R_category :
  forall v a, In v CATEGORIES -> R a (Activity.set_category v a).
Hypothesis R_description : forall v a, R a (Activity.set_description v a).
Hypothesis R_duration :
  forall v a, 1 <= v <= 1440 -> R a (Activity.set_duration (Some v) a).
Hypothesis R_recurrence :
  forall v a, In v RECURRENCE_OPTIONS -> R a (Activity.set_recurrence v a).
Hypothesis R_location : forall v a, R a (Activity.set_location v a).
Hypothesis R_prep_time :
  forall v a, 0 <= v <= 180 -> R a (Activity.set_prep_time v a).
Hypothesis R_is_outdoor : forall v a, R a (Activity.set_is_outdoor v a).

(** A relation that every assignment of [update] respects holds between
    the activity before and after the assignments. *)
Lemma update_fields_related (parser_parse : string -> option datetime)
    (title start_time category description : option string)
    (duration : option Z) (recurrence location : option string)
    (prep_time : option Z) (is_outdoor : option bool)
    (a a' : Activity.t) :
  ActivityManager.update_fields parser_parse title start_time category
    description duration recurrence location prep_time is_outdoor a = Ok a' ->
  R a a'.
Proof.
  unfold ActivityManager.update_fields. cbv zeta.
  set (a1 := match title with Some v => _ | None => _ end).
  assert (H1 : R a a1).
  { unfold a1. destruct title as [v|]; [|apply R_refl].
    destruct (truthy_str (Some v)); [apply R_title | apply R_refl]. }
  clearbody a1.
  destruct (match start_time with Some v => _ | None => _ end)
    as [a2|] eqn:E2; [|discriminate]. cbn [bind].
  assert (H2 : R a1 a2).
  { destruct start_time as [v|]; [|injection E2 as <-; apply R_refl].
    destruct (truthy_str (Some v)); [|injection E2 as <-; apply R_refl].
    destruct (parse_time parser_parse v); [|discriminate].
    cbn [bind] in E2. injection E2 as <-. apply R_start_time. }
  clear E2.
  destruct (match category with Some v => _ | None => _ end)
    as [a3|] eqn:E3; [|discriminate]. cbn [bind].
  assert (H3 : R a2 a3).
  { destruct category as [v|]; [|injection E3 as <-; apply R_refl].
    destruct (truthy_str (Some v)); [|injection E3 as <-; apply R_refl].
    destruct (validate_category v) as [c|] eqn:Hc; [|discriminate].
    cbn [bind] in E3. injection E3 as <-. apply R_category.
    exact (validate_category_ok _ _ Hc). }
  clear E3.
  set (a4 := match description with Some v => _ | None => _ end).
  assert (H4 : R a3 a4).
  { unfold a4. destruct description; [apply R_description | apply R_refl]. }
  clearbody a4.
  destruct (match duration with Some v => _ | None => _ end)
    as [a5|] eqn:E5; [|discriminate]. cbn [bind].
  assert (H5 : R a4 a5).
  { destruct duration as [v|]; [|injection E5 as <-; apply R_refl].
    destruct (truthy_int (Some v)); [|injection E5 as <-; apply R_refl].
    destruct (validate_duration v) as [d|] eqn:Hd; [|discriminate].
    cbn [bind] in E5. injection E5 as <-. apply R_duration.
    exact (proj2 (validate_duration_ok _ _ Hd)). }
  clear E5.
  destruct (match recurrence with Some v => _ | None => _ end)
    as [a6|] eqn:E6; [|discriminate]. cbn [bind].
  assert (H6 : R a5 a6).
  { destruct recurrence as [v|]; [|injection E6 as <-; apply R_refl].
    destruct (truthy_str (Some v)); [|injection E6 as <-; apply R_refl].
    destruct (validate_recurrence v) as [r|] eqn:Hr; [|discriminate].
    cbn [bind] in E6. injection E6 as <-. apply R_recurrence.
    exact (validate_recurrence_ok _ _ Hr). }
  clear E6.
  set (a7 := match location with Some v => _ | None => _ end).
  assert (H7 : R a6 a7).
  { unfold a7. destruct location; [apply R_location | apply R_refl]. }
  clearbody a7.
  destruct (match prep_time with Some v => _ | None => _ end)
    as [a8|] eqn:E8; [|discriminate]. cbn [bind].
  assert (H8 : R a7 a8).
  { destruct prep_time as [v|]; [|injection E8 as <-; apply R_refl].
    destruct (validate_prep_time v) as [p|] eqn:Hp; [|discriminate].
    cbn [bind] in E8. injection E8 as <-. apply R_prep_time.
    exact (proj2 (validate_prep_time_ok _ _ Hp)). }
  clear E8.
  intros H. injection H as <-.
  assert (H9 : R a8 match is_outdoor with
                    | Some v => Activity.set_is_outdoor v a8
                    | None => a8
                    end)
    by (destruct is_outdoor; [apply R_is_outdoor | apply R_refl]).
  eauto 10.
Qed.

End UpdateFields.

Section Updates.

(** The columns no assignment of [update] reaches. *)
Lemma update_fields_keeps (parser_parse : string -> option datetime)
    (title start_time category description : option string)
    (duration : option Z) (recurrence location : option string)
    (prep_time : option Z) (is_outdoor : option bool)
    (a a' : Activity.t) :
  ActivityManager.update_fields parser_parse title start_time category
    description duration recurrence location prep_time is_outdoor a = Ok a' ->
  Activity.id a' = Activity.id a /\
  Activity.custom_days a' = Activity.custom_days a /\
  Activity.is_active a' = Activity.is_active a /\
  Activity.created_at a' = Activity.created_at a /\
  Activity.updated_at a' = Activity.updated_at a.
Proof.
  apply (update_fields_related
           (fun a a' =>
              Activity.id a' = Activity.id a /\
              Activity.custom_days a' = Activity.custom_days a /\
              Activity.is_active a' = Activity.is_active a /\
              Activity.created_at a' = Activity.created_at a /\
              Activity.updated_at a' = Activity.updated_at a));
    try (intros; cbn; tauto).
  intros x y z (? & ? & ? & ? & ?) (? & ? & ? & ? & ?).
  repeat split; congruence.
Qed.

Lemma update_fields_ok (parser_parse : string -> option datetime)
    (title start_time category description : option string)
    (duration : option Z) (recurrence location : option string)
    (prep_time : option Z) (is_outdoor : option bool)
    (a a' : Activity.t) :
  ActivityManager.update_fields parser_parse title start_time category
    description duration recurrence location prep_time is_outdoor a = Ok a' ->
  activity_ok a -> activity_ok a'.
Proof.
  apply (update_fields_related (fun a a' => activity_ok a -> activity_ok a'));
    unfold activity_ok;
    try (intros v x (H1 & H2 & H3 & H4); destruct x;
         exact (conj H1 (conj H2 (conj H3 H4)))).
  - auto.
  - auto.
  - intros v x Hv (H1 & H2 & H3 & H4). destruct x.
    exact (conj Hv (conj H2 (conj H3 H4))).
  - intros v x Hv (H1 & H2 & H3 & H4). destruct x.
    split; [exact H1|]. split; [exact H2|]. split; [exact H3|].
    intros n Hn. injection Hn as <-. lia.
  - intros v x Hv (H1 & H2 & H3 & H4). destruct x.
    exact (conj H1 (conj Hv (conj H3 H4))).
  - intros v x Hv (H1 & H2 & H3 & H4). destruct x.
    exact (conj H1 (conj H2 (conj Hv H4))).
Qed.


Lemma flush_activity_cases (now : datetime) (before after : Activity.t) :
  ActivityManager.flush_activity now before after = after \/
  ActivityManager.flush_activity now before after
  = Activity.set_updated_at now after.
Proof.
  unfold ActivityManager.flush_activity.
  destruct (Activity.same_columns before after); auto.
Qed.

Lemma update_activity_row_ids (row : Activity.t) (rows : list Activity.t) :
  map Activity.id (ActivityManager.update_activity_row row rows)
  = map Activity.id rows.
Proof.
  unfold ActivityManager.update_activity_row. rewrite map_map.
  apply map_ext. intros a.
  destruct (Activity.id a =? Activity.id row) eqn:H; [|reflexivity].
  apply Z.eqb_eq in H. congruence.
Qed.

Lemma find_update_activity_row (j : Z) (row : Activity.t)
    (rows : list Activity.t) :
  find (fun a => Activity.id a =? j)
       (ActivityManager.update_activity_row row rows)
  = match find (fun a => Activity.id a =? j) rows with
    | Some a => Some (if j =? Activity.id row then row else a)
    | None => None
    end.
Proof.
  unfold ActivityManager.update_activity_row.
  rewrite find_map_keeping.
  - destruct (find _ rows) as [a|] eqn:Hf; [|reflexivity].
    cbn [option_map]. apply find_some in Hf. destruct Hf as [_ Hid].
    apply Z.eqb_eq in Hid. now rewrite Hid.
  - intros a. destruct (Activity.id a =? Activity.id row) eqn:H;
      [|reflexivity].
    apply Z.eqb_eq in H. now rewrite H.
Qed.

Lemma get_by_id_update_activity_row (j : Z) (row : Activity.t) (db : DB)
    (rest : list Completion.t) :
  ActivityManager.get_by_id j
    (mkDB (ActivityManager.update_activity_row row (activities db)) rest)
  = match ActivityManager.get_by_id j db with
    | Some a => Some (if j =? Activity.id row then row else a)
    | None => None
    end.
Proof.
  apply find_update_activity_row.
Qed.

Lemma NoDup_map_eq {A B : Type} (f : A -> B) (l : list A) (x y : A) :
  NoDup (map f l) -> In x l -> In y l -> f x = f y -> x = y.
Proof.
  induction l as [|z l IH]; simpl; [tauto|].
  intros Hnd Hx Hy Heq. inversion Hnd as [|? ? Hnot Hnd']; subst.
  destruct Hx as [-> | Hx], Hy as [-> | Hy]; auto.
  - elim Hnot. rewrite Heq. now apply in_map.
  - elim Hnot. rewrite <- Heq. now apply in_map.
Qed.



Lemma same_columns_toggled (a : Activity.t) :
  Activity.same_columns a
    (Activity.set_is_active (negb (Activity.is_active a)) a) = false.
Proof.
  unfold Activity.same_columns. cbn [Activity.is_active Activity.set_is_active].
  destruct (Activity.is_active a); cbn [negb Bool.eqb];
    apply andb_false_r.
Qed.

(** X9. An [update] that returns an activity has written one row: the
    activity keeps its key, its custom days, its active flag and its time
    of creation; the key reads back as the returned activity, every other
    key as before; the completions are as before. Its time of update is
    the time of the call or the one it had. An unknown key returns [None]
    and writes nothing. *)
Theorem update_writes_one_row (parser_parse : string -> option datetime)
    (now : datetime) (activity_id : Z)
    (title start_time category description : option string)
    (duration : option Z) (recurrence location : option string)
    (prep_time : option Z) (is_outdoor : option bool) (db db' : DB)
    (r : option Activity.t) :
  ActivityManager.update parser_parse now activity_id title start_time
    category description duration recurrence location prep_time is_outdoor
    db = (Ok r, db') ->
  match r with
  | None => ActivityManager.get_by_id activity_id db = None /\ db' = db
  | Some a' =>
      (exists a,
          ActivityManager.get_by_id activity_id db = Some a /\
          Activity.custom_days a' = Activity.custom_days a /\
          Activity.is_active a' = Activity.is_active a /\
          Activity.created_at a' = Activity.created_at a /\
          (Activity.updated_at a' = now \/
           Activity.updated_at a' = Activity.updated_at a)) /\
      Activity.id a' = activity_id /\
      ActivityManager.get_by_id activity_id db' = Some a' /\
      (forall j, j <> activity_id ->
                 ActivityManager.get_by_id j db'
                 = ActivityManager.get_by_id j db) /\
      completions db' = completions db
  end.
Proof.
  unfold ActivityManager.update.
  destruct (ActivityManager.get_by_id activity_id db) as [a|] eqn:Hg.
  - destruct (ActivityManager.update_fields _ _ _ _ _ _ _ _ _ _ a)
      as [changed|e] eqn:Hu; [|discriminate].
    cbv zeta. intros H. injection H as <- <-.
    apply get_by_id_some in Hg as Hg'. destruct Hg' as [_ Hid].
    apply update_fields_keeps in Hu.
    destruct Hu as (K1 & K2 & K3 & K4 & K5).
    set (a' := ActivityManager.flush_activity now a changed).
    assert (Ha' : a' = changed \/ a' = Activity.set_updated_at now changed)
      by apply flush_activity_cases.
    assert (Hid' : Activity.id a' = activity_id)
      by (destruct Ha' as [-> | ->]; cbn; congruence).
    split; [exists a; split; [reflexivity|]|].
    { destruct Ha' as [-> | ->]; cbn; repeat split; auto. }
    split; [exact Hid'|].
    split; [|split; [|reflexivity]].
    + rewrite get_by_id_update_activity_row, Hg, Hid', Z.eqb_refl.
      reflexivity.
    + intros j Hj. rewrite get_by_id_update_activity_row, Hid'.
      destruct (ActivityManager.get_by_id j db); [|reflexivity].
      apply Z.eqb_neq in Hj. now rewrite Hj.
  - intros H. injection H as <- <-. now split.
Qed.

Lemma update_writes_one_row_witness :
  let now := mkdatetime (mkdate 2024 3 6) (mktime 8 0 0 0) in
  let a := sample_activity 1 "Run" "daily" (mktime 7 0 0 0) (mkdate 2024 1 1)
  in
  let a' := Activity.set_updated_at now (Activity.set_category "Health" a) in
  let db := mkDB [a] [] in
  Activity.id a' = 1 /\
  ActivityManager.get_by_id 1 (mkDB [a'] []) = Some a'.
Proof.
  intros now a a' db.
  pose proof (update_writes_one_row sample_parser now 1 None None
                (Some "HEALTH") None None None None None None db
                (mkDB [a'] []) (Some a') eq_refl) as H.
  cbv beta iota in H. split; apply H.
Defined.



Lemma toggle_known (now : datetime) (activity_id : Z) (db : DB)
    (a : Activity.t) :
  ActivityManager.get_by_id activity_id db = Some a ->
  let a1 := Activity.set_updated_at now
              (Activity.set_is_active (negb (Activity.is_active a)) a) in
  ActivityManager.toggle now activity_id db
  = (Some a1,
     mkDB (ActivityManager.update_activity_row a1 (activities db))
          (completions db)).
Proof.
  intros Hg. unfold ActivityManager.toggle. rewrite Hg. cbv zeta.
  unfold ActivityManager.flush_activity. now rewrite same_columns_toggled.
Qed.

(** X11. Two [toggle] calls on an activity give it back as it was, but
    for its time of update: the first returns it with the active flag
    turned and the time of the call, the second with the flag as it was
    at first and the time of the second call. Other keys and the
    completions are not touched. *)
Theorem toggle_twice (now1 now2 : datetime) (activity_id : Z) (db : DB)
    (a : Activity.t) :
  ActivityManager.get_by_id activity_id db = Some a ->
  let first := ActivityManager.toggle now1 activity_id db in
  let second := ActivityManager.toggle now2 activity_id (snd first) in
  fst first
  = Some (Activity.set_updated_at now1
            (Activity.set_is_active (negb (Activity.is_active a)) a)) /\
  fst second = Some (Activity.set_updated_at now2 a) /\
  completions (snd second) = completions db /\
  (forall j, j <> activity_id ->
             ActivityManager.get_by_id j (snd second)
             = ActivityManager.get_by_id j db).
Proof.
  intros Hg. cbv zeta.
  apply get_by_id_some in Hg as Hg'. destruct Hg' as [_ Hid].
  rewrite (toggle_known now1 activity_id db a Hg). cbv zeta.
  set (a1 := Activity.set_updated_at now1
               (Activity.set_is_active (negb (Activity.is_active a)) a)).
  cbn [fst snd].
  assert (Hid1 : Activity.id a1 = activity_id) by exact Hid.
  assert (Hg1 : ActivityManager.get_by_id activity_id
                  (mkDB (ActivityManager.update_activity_row a1
                           (activities db)) (completions db)) = Some a1).
  { rewrite get_by_id_update_activity_row, Hg, Hid1, Z.eqb_refl.
    reflexivity. }
  rewrite (toggle_known now2 activity_id _ a1 Hg1). cbv zeta.
  cbn [fst snd activities completions].
  assert (Hback : Activity.set_updated_at now2
                    (Activity.set_is_active (negb (Activity.is_active a1)) a1)
                  = Activity.set_updated_at now2 a).
  { unfold a1. destruct a. cbn. now rewrite negb_involutive. }
  rewrite Hback.
  split; [reflexivity|]. split; [reflexivity|]. split; [reflexivity|].
  intros j Hj. unfold ActivityManager.get_by_id. cbn [activities].
  rewrite !find_update_activity_row.
  cbn [Activity.id Activity.set_updated_at]. rewrite Hid1, Hid.
  apply Z.eqb_neq in Hj. rewrite Hj.
  destruct (find _ (activities db)); reflexivity.
Qed.

Lemma toggle_twice_witness :
  let now1 := mkdatetime (mkdate 2024 3 6) (mktime 8 0 0 0) in
  let now2 := mkdatetime (mkdate 2024 3 7) (mktime 8 0 0 0) in
  let a := sample_activity 1 "Run" "daily" (mktime 7 0 0 0) (mkdate 2024 1 1)
  in
  let db := mkDB [a] [] in
  fst (ActivityManager.toggle now2 1
         (snd (ActivityManager.toggle now1 1 db)))
  = Some (Activity.set_updated_at now2 a).
Proof.
  intros now1 now2 a db.
  exact (proj1 (proj2 (toggle_twice now1 now2 1 db a eq_refl))).
Defined.

Lemma in_update_activity_row (b row : Activity.t) (rows : list Activity.t) :
  In b (ActivityManager.update_activity_row row rows) <->
  (b = row /\ In (Activity.id row) (map Activity.id rows)) \/
  (In b rows /\ Activity.id b <> Activity.id row).
Proof.
  unfold ActivityManager.update_activity_row. rewrite in_map_iff. split.
  - intros (x & Hx & Hin).
    destruct (Activity.id x =? Activity.id row) eqn:H.
    + apply Z.eqb_eq in H. left. split; [now symmetry|].
      rewrite <- H. now apply in_map.
    + apply Z.eqb_neq in H. right. subst x. now split.
  - intros [[-> Hin] | [Hin Hne]].
    + apply in_map_iff in Hin. destruct Hin as (x & Hx & Hin).
      exists x. split; [|exact Hin].
      apply Z.eqb_eq in Hx. now rewrite Hx.
    + exists b. split; [|exact Hin].
      apply Z.eqb_neq in Hne. now rewrite Hne.
Qed.

(** X12. An active activity that is toggled leaves the listing of
    every date, and the listings lose nothing else: after the call
    [get_for_date] lists the activities it listed before, less those of
    the toggled key. *)
Theorem toggle_hides (now : datetime) (activity_id : Z) (db : DB)
    (a : Activity.t) (target_date : date) (b : Activity.t) :
  ActivityManager.get_by_id activity_id db = Some a ->
  Activity.is_active a = true ->
  In b (ActivityManager.get_for_date target_date
          (snd (ActivityManager.toggle now activity_id db))) <->
  In b (ActivityManager.get_for_date target_date db) /\
  Activity.id b <> activity_id.
Proof.
  intros Hg Hact.
  apply get_by_id_some in Hg as Hg'. destruct Hg' as [Hin Hid].
  rewrite (toggle_known now activity_id db a Hg). cbv zeta.
  rewrite Hact. cbn [negb snd].
  set (a1 := Activity.set_updated_at now (Activity.set_is_active false a)).
  assert (Hid1 : Activity.id a1 = activity_id) by exact Hid.
  assert (Hoff : Activity.is_active a1 = false) by reflexivity.
  unfold ActivityManager.get_for_date.
  rewrite !fold_left_collect. cbn [app].
  rewrite !in_sorted_by_start_time, !filter_In, !in_get_all.
  cbn [activities]. rewrite in_update_activity_row, Hid1. split.
  - intros [[[[-> _] | [Hb Hne]] Hactive] Hdue].
    + specialize (Hactive eq_refl). congruence.
    + tauto.
  - intros [[[Hb Hactive] Hdue] Hne]. tauto.
Qed.

Lemma toggle_hides_witness :
  let now := mkdatetime (mkdate 2024 3 6) (mktime 8 0 0 0) in
  let a := sample_activity 1 "Run" "daily" (mktime 7 0 0 0) (mkdate 2024 1 1)
  in
  let b := sample_activity 2 "Read" "daily" (mktime 21 0 0 0)
             (mkdate 2024 1 1) in
  In b (ActivityManager.get_for_date (mkdate 2024 3 6)
          (snd (ActivityManager.toggle now 1 (mkDB [a; b] [])))).
Proof.
  intros now a b.
  apply (toggle_hides now 1 (mkDB [a; b] []) a (mkdate 2024 3 6) b
           eq_refl eq_refl).
  split; [right; left; reflexivity | discriminate].
Defined.

(** X13. [delete] answers whether the key was known. After the call
    the key is unknown, and no completion references it; the completions
    of other activities, and the other activities, are as before. A
    later [mark] for the key returns [None] and writes nothing. *)
Theorem delete_cascade (activity_id : Z) (db : DB) :
  let outcome := ActivityManager.delete activity_id db in
  let db' := snd outcome in
  (fst outcome = true <->
   ActivityManager.get_by_id activity_id db <> None) /\
  (if fst outcome
   then completions db'
        = filter (fun c => negb (Completion.activity_id c =? activity_id))
                 (completions db) /\
        (forall j, j <> activity_id ->
                   ActivityManager.get_by_id j db'
                   = ActivityManager.get_by_id j db)
   else db' = db) /\
  ActivityManager.get_by_id activity_id db' = None /\
  (forall k status target_date notes c,
      fst (CompletionManager.mark k activity_id status target_date notes db')
      <> Ok (Some c)) /\
  (forall k status target_date notes,
      snd (CompletionManager.mark k activity_id status target_date notes db')
      = db').
Proof.
  cbv zeta.
  assert (Hmark : forall db0,
             ActivityManager.get_by_id activity_id db0 = None ->
             (forall k status target_date notes c,
                 fst (CompletionManager.mark k activity_id status target_date
                        notes db0) <> Ok (Some c)) /\
             (forall k status target_date notes,
                 snd (CompletionManager.mark k activity_id status target_date
                        notes db0) = db0)).
  { intros db0 Hnone.
    assert (H : forall k status target_date notes c,
               fst (CompletionManager.mark k activity_id status target_date
                      notes db0) <> Ok (Some c)).
    { intros k status target_date notes c.
      unfold CompletionManager.mark, ActivityManager.get_by_id in *.
      destruct (validate_status status); [|discriminate].
      rewrite Hnone. discriminate. }
    split; [exact H|].
    intros k status target_date notes. apply mark_fails_unchanged.
    intros c. apply H. }
  unfold ActivityManager.delete.
  destruct (ActivityManager.get_by_id activity_id db) as [a|] eqn:Hg.
  - apply get_by_id_some in Hg as Hg'. destruct Hg' as [_ Hid].
    rewrite Hid. cbn [fst snd].
    assert (Hgone : ActivityManager.get_by_id activity_id
                      (mkDB (filter (fun a0 => negb (Activity.id a0
                                                     =? activity_id))
                                    (activities db))
                            (filter (fun c => negb (Completion.activity_id c
                                                    =? activity_id))
                                    (completions db))) = None).
    { unfold ActivityManager.get_by_id. cbn [activities].
      destruct (find _ (filter _ _)) as [x|] eqn:Hf; [|reflexivity].
      apply find_some in Hf. destruct Hf as [Hx Heq].
      apply filter_In in Hx. destruct Hx as [_ Hx].
      rewrite Heq in Hx. discriminate. }
    split; [split; [discriminate | reflexivity]|].
    split; [|split; [exact Hgone | exact (Hmark _ Hgone)]].
    split; [reflexivity|].
    intros j Hj. unfold ActivityManager.get_by_id. cbn [activities].
    apply find_filter_keeping. intros x Hx. apply Z.eqb_eq in Hx.
    apply negb_true_iff, Z.eqb_neq. congruence.
  - cbn [fst snd].
    split; [split; [discriminate | congruence]|].
    split; [reflexivity|]. split; [exact Hg | exact (Hmark _ Hg)].
Qed.

End Updates.

(** ** The invariant of the database *)

Section Invariant.

Lemma NoDup_map_filter {A B : Type} (f : A -> B) (q : A -> bool)
    (l : list A) :
  NoDup (map f l) -> NoDup (map f (filter q l)).
Proof.
  induction l as [|x l IH]; simpl; [auto|].
  intros Hnd. inversion Hnd as [|? ? Hnot Hnd']; subst.
  destruct (q x); simpl; [|auto].
  constructor; [|auto].
  intros Hin. apply Hnot. apply in_map_iff in Hin.
  destruct Hin as (y & Hy & Hin). apply filter_In in Hin.
  rewrite <- Hy. apply in_map. tauto.
Qed.

Lemma filter_filter_length {A : Type} (p q : A -> bool) (l : list A) :
  (List.length (filter p (filter q l)) <= List.length (filter p l))%nat.
Proof.
  induction l as [|x l IH]; simpl; [lia|].
  destruct (q x); simpl; destruct (p x); simpl; lia.
Qed.

Lemma pair_unique_completions (db db' : DB) :
  completions db' = completions db -> pair_unique db -> pair_unique db'.
Proof.
  intros H Hpair a d. specialize (Hpair a d).
  unfold pair_rows in *. now rewrite H.
Qed.

Lemma no_orphans_ids (db db' : DB) :
  map Activity.id (activities db') = map Activity.id (activities db) ->
  completions db' = completions db ->
  no_orphans db -> no_orphans db'.
Proof.
  intros Hids Hc Hno c Hin. rewrite Hc in Hin.
  apply get_by_id_known. rewrite Hids. apply get_by_id_known.
  now apply Hno.
Qed.

Lemma set_updated_at_ok (now : datetime) (a : Activity.t) :
  activity_ok a -> activity_ok (Activity.set_updated_at now a).
Proof. destruct a. exact (fun H => H). Qed.

Lemma flush_activity_ok (now : datetime) (before after : Activity.t) :
  activity_ok after ->
  activity_ok (ActivityManager.flush_activity now before after).
Proof.
  intros H. destruct (flush_activity_cases now before after) as [-> | ->];
    [exact H | now apply set_updated_at_ok].
Qed.

Lemma update_activity_row_wf (row : Activity.t) (db : DB) :
  activity_ok row -> db_wf db ->
  db_wf (mkDB (ActivityManager.update_activity_row row (activities db))
              (completions db)).
Proof.
  intros Hrow (Hapk & Hpk & Hpair & Hno & Ha & Hc).
  assert (Hids := update_activity_row_ids row (activities db)).
  split; [|split; [|split; [|split; [|split]]]].
  - unfold activity_pk_unique. cbn [activities]. now rewrite Hids.
  - exact Hpk.
  - now apply (pair_unique_completions db).
  - now apply (no_orphans_ids db).
  - cbn [activities]. apply Forall_forall. intros b Hb.
    apply in_update_activity_row in Hb.
    destruct Hb as [[-> _] | [Hb _]]; [exact Hrow|].
    now apply (proj1 (Forall_forall _ _) Ha).
  - exact Hc.
Qed.

Lemma create_wf (parser_parse : string -> option datetime)
    (now : datetime) (title start_time category : string)
    (description : option string) (duration : option Z) (recurrence : string)
    (custom_days location : option string) (prep_time : Z)
    (is_outdoor : bool) (db : DB) :
  db_wf db ->
  db_wf (snd (ActivityManager.create parser_parse now title start_time
                category description duration recurrence custom_days
                location prep_time is_outdoor db)).
Proof.
  intros Hwf.
  destruct (create_cases parser_parse now title start_time category
              description duration recurrence custom_days location
              prep_time is_outdoor db) as [(a & db' & H) | (msg & H)];
    rewrite H; cbn [snd]; [|exact Hwf].
  apply create_returns in H.
  destruct H as (parsed & c & r & _ & Hc & Hr & Hd & Hq & Ha & ->).
  destruct Hwf as (Hapk & Hpk & Hpair & Hno & Hacts & Hcs).
  assert (Hid : Activity.id a = next_id (map Activity.id (activities db)))
    by (rewrite Ha; reflexivity).
  split; [|split; [|split; [|split; [|split]]]].
  - unfold activity_pk_unique. cbn [activities].
    rewrite map_app. cbn [map]. apply NoDup_snoc; [exact Hapk|].
    rewrite Hid. apply next_id_fresh.
  - exact Hpk.
  - now apply (pair_unique_completions db).
  - intros x Hx. cbn [completions] in Hx. apply get_by_id_known.
    cbn [activities]. rewrite map_app, in_app_iff. left.
    apply get_by_id_known. now apply Hno.
  - cbn [activities]. apply Forall_app. split; [exact Hacts|].
    constructor; [|constructor]. rewrite Ha. unfold activity_ok.
    cbn [Activity.category Activity.recurrence Activity.prep_time
         Activity.duration].
    split; [exact (validate_category_ok _ _ Hc)|].
    split; [exact (validate_recurrence_ok _ _ Hr)|].
    split; [exact Hq | exact Hd].
  - exact Hcs.
Qed.

Lemma update_wf (parser_parse : string -> option datetime)
    (now : datetime) (activity_id : Z)
    (title start_time category description : option string)
    (duration : option Z) (recurrence location : option string)
    (prep_time : option Z) (is_outdoor : option bool) (db : DB) :
  db_wf db ->
  db_wf (snd (ActivityManager.update parser_parse now activity_id title
                start_time category description duration recurrence location
                prep_time is_outdoor db)).
Proof.
  intros Hwf. unfold ActivityManager.update.
  destruct (ActivityManager.get_by_id activity_id db) as [a|] eqn:Hg;
    [|exact Hwf].
  destruct (ActivityManager.update_fields _ _ _ _ _ _ _ _ _ _ a)
    as [changed|e] eqn:Hu; [|exact Hwf].
  cbv zeta. cbn [snd]. apply update_activity_row_wf; [|exact Hwf].
  apply flush_activity_ok. apply (update_fields_ok _ _ _ _ _ _ _ _ _ _ _ _ Hu).
  apply get_by_id_some in Hg. destruct Hg as [Hin _].
  destruct Hwf as (_ & _ & _ & _ & Hacts & _).
  now apply (proj1 (Forall_forall _ _) Hacts).
Qed.

Lemma toggle_wf (now : datetime) (activity_id : Z) (db : DB) :
  db_wf db -> db_wf (snd (ActivityManager.toggle now activity_id db)).
Proof.
  intros Hwf.
  destruct (ActivityManager.get_by_id activity_id db) as [a|] eqn:Hg.
  - rewrite (toggle_known now activity_id db a Hg). cbv zeta. cbn [snd].
    apply update_activity_row_wf; [|exact Hwf].
    apply get_by_id_some in Hg. destruct Hg as [Hin _].
    destruct Hwf as (_ & _ & _ & _ & Hacts & _).
    pose proof (proj1 (Forall_forall _ _) Hacts a Hin) as Hok.
    destruct a. exact Hok.
  - unfold ActivityManager.toggle. rewrite Hg. exact Hwf.
Qed.

Lemma delete_wf (activity_id : Z) (db : DB) :
  db_wf db -> db_wf (snd (ActivityManager.delete activity_id db)).
Proof.
  intros Hwf. unfold ActivityManager.delete.
  destruct (ActivityManager.get_by_id activity_id db) as [a|] eqn:Hg;
    [|exact Hwf].
  cbn [snd]. destruct Hwf as (Hapk & Hpk & Hpair & Hno & Hacts & Hcs).
  split; [|split; [|split; [|split; [|split]]]].
  - unfold activity_pk_unique. cbn [activities].
    now apply NoDup_map_filter.
  - unfold pk_unique. cbn [completions]. now apply NoDup_map_filter.
  - intros x d. unfold pair_rows. cbn [completions].
    etransitivity; [apply filter_filter_length | apply (Hpair x d)].
  - intros c Hc. cbn [completions] in Hc. apply filter_In in Hc.
    destruct Hc as [Hc Hne]. apply negb_true_iff, Z.eqb_neq in Hne.
    unfold ActivityManager.get_by_id. cbn [activities].
    rewrite find_filter_keeping; [now apply Hno|].
    intros x Hx. apply Z.eqb_eq in Hx.
    apply negb_true_iff, Z.eqb_neq. congruence.
  - cbn [activities]. apply Forall_forall. intros x Hx.
    apply filter_In in Hx. now apply (proj1 (Forall_forall _ _) Hacts).
  - cbn [completions]. apply Forall_forall. intros x Hx.
    apply filter_In in Hx. now apply (proj1 (Forall_forall _ _) Hcs).
Qed.

(** The three ways [mark] ends. *)
Lemma mark_cases (k : clock) (activity_id : Z) (status : string)
    (target_date : option date) (notes : option string) (db : DB) :
  let d := resolved_date k target_date in
  snd (CompletionManager.mark k activity_id status target_date notes db) = db
  \/ (exists v e,
        validate_status status = Ok v /\
        In e (completions db) /\
        snd (CompletionManager.mark k activity_id status target_date notes db)
        = mkDB (activities db)
               (CompletionManager.update_row
                  (CompletionManager.remark k v notes e) (completions db)))
  \/ (exists v,
        validate_status status = Ok v /\
        ActivityManager.get_by_id activity_id db <> None /\
        snd (CompletionManager.mark k activity_id status target_date notes db)
        = mkDB (activities db)
               (completions db
                ++ [Completion.mk
                      (next_id (map Completion.id (completions db)))
                      activity_id d v
                      (if String.eqb v "done" then Some (now k) else None)
                      notes (now k)])).
Proof.
  cbv zeta. unfold CompletionManager.mark, resolved_date.
  destruct (validate_status status) as [v|]; [|now left].
  destruct (find _ (activities db)) as [a|] eqn:Ha; [|now left].
  destruct (CompletionManager.find_pair _ _ db) as [e|] eqn:He.
  - right. left. exists v, e. split; [reflexivity|].
    split; [|reflexivity]. apply find_some_pair in He. apply He.
  - right. right. exists v. split; [reflexivity|].
    split; [|reflexivity].
    unfold ActivityManager.get_by_id. rewrite Ha. discriminate.
Qed.

Lemma mark_wf (k : clock) (activity_id : Z) (status : string)
    (target_date : option date) (notes : option string) (db : DB) :
  db_wf db ->
  db_wf (snd (CompletionManager.mark k activity_id status target_date notes
                db)).
Proof.
  intros Hwf.
  pose proof Hwf as (Hapk & Hpk & Hpair & Hno & Hacts & Hcs).
  pose proof (mark_invariant k activity_id status target_date notes db
                Hpk Hpair) as Hinv. cbv zeta in Hinv.
  destruct Hinv as [Hpk' Hpair'].
  destruct (mark_cases k activity_id status target_date notes db)
    as [H | [(v & e & Hv & He & H) | (v & Hv & Hknown & H)]];
    rewrite H in *; [exact Hwf| |].
  - apply validate_status_ok in Hv. destruct Hv as [_ Hv].
    split; [exact Hapk|]. split; [exact Hpk'|]. split; [exact Hpair'|].
    split; [|split; [exact Hacts|]].
    + intros c Hc. cbn [completions] in Hc.
      unfold CompletionManager.update_row in Hc. apply in_map_iff in Hc.
      destruct Hc as (x & Hx & Hin).
      apply get_by_id_known. cbn [activities]. apply get_by_id_known.
      destruct (Completion.id x =? _); subst c;
        [exact (Hno e He) | now apply Hno].
    + cbn [completions]. apply Forall_forall. intros c Hc.
      unfold CompletionManager.update_row in Hc. apply in_map_iff in Hc.
      destruct Hc as (x & Hx & Hin).
      destruct (Completion.id x =? _); subst c;
        [|now apply (proj1 (Forall_forall _ _) Hcs)].
      unfold completion_ok, CompletionManager.remark.
      cbn [Completion.status Completion.completed_at].
      split; [exact Hv|]. intros ->. discriminate.
  - apply validate_status_ok in Hv. destruct Hv as [_ Hv].
    split; [exact Hapk|]. split; [exact Hpk'|]. split; [exact Hpair'|].
    split; [|split; [exact Hacts|]].
    + intros c Hc. cbn [completions] in Hc. apply in_app_iff in Hc.
      apply get_by_id_known. cbn [activities]. apply get_by_id_known.
      destruct Hc as [Hc | [<- | []]]; [now apply Hno | exact Hknown].
    + cbn [completions]. apply Forall_app. split; [exact Hcs|].
      constructor; [|constructor]. unfold completion_ok.
      cbn [Completion.status Completion.completed_at].
      split; [exact Hv|]. intros ->. discriminate.
Qed.

Lemma run_wf (parser_parse : string -> option datetime) (k : clock)
    (c : command) (db : DB) :
  db_wf db -> db_wf (run parser_parse k c db).
Proof.
  destruct c; cbn [run];
    [apply create_wf | apply update_wf | apply delete_wf | apply toggle_wf
    | apply mark_wf].
Qed.

Lemma run_all_wf (parser_parse : string -> option datetime)
    (history : list (clock * command)) (db : DB) :
  db_wf db -> db_wf (run_all parser_parse history db).
Proof.
  unfold run_all. revert db.
  induction history as [|call history IH]; intros db Hwf; [exact Hwf|].
  cbn [fold_left]. apply IH. now apply run_wf.
Qed.

Lemma empty_db_wf : db_wf empty_db.
Proof.
  split; [constructor|]. split; [constructor|].
  split; [intros a d; simpl; lia|].
  split; [intros c []|]. split; constructor.
Qed.

(** X14. Whatever calls to [create], [update], [delete], [toggle] and
    [mark] are made on an empty database, with whatever arguments, the
    database they leave is well formed: the keys of the activities and of
    the completions are unique, no pair of an activity and a date has two
    completions, every completion belongs to an activity of the table,
    every activity has a category, a recurrence, a duration and a
    preparation time that the validators let through, and every completion
    has one of the four statuses, and the time it was done at when that
    status is [done]. *)
Theorem reachable_well_formed (parser_parse : string -> option datetime)
    (history : list (clock * command)) :
  db_wf (run_all parser_parse history empty_db).
Proof.
  apply run_all_wf, empty_db_wf.
Qed.

End Invariant.

(** ** Reading the ledger *)

Section LedgerReads.

Lemma find_map_keeping_in {A : Type} (p : A -> bool) (f : A -> A)
    (l : list A) :
  (forall a, In a l -> p (f a) = p a) ->
  find p (map f l) = option_map f (find p l).
Proof.
  induction l as [|x l IH]; intros Hp; simpl; [reflexivity|].
  rewrite (Hp x (or_introl eq_refl)).
  destruct (p x); [reflexivity|].
  apply IH. intros a Ha. apply Hp. now right.
Qed.

(** A [mark] that returns a completion leaves the rows of the other
    pairs as they were. *)
Lemma mark_other_pairs (k : clock) (activity_id : Z) (status : string)
    (target_date : option date) (notes : option string) (db db' : DB)
    (c : Completion.t) (other_id : Z) (other_date : date) :
  pk_unique db ->
  CompletionManager.mark k activity_id status target_date notes db
  = (Ok (Some c), db') ->
  other_id <> activity_id \/ other_date <> resolved_date k target_date ->
  CompletionManager.find_pair other_id other_date db'
  = CompletionManager.find_pair other_id other_date db.
Proof.
  intros Hpk Hm Hother.
  pose proof (mark_returns _ _ _ _ _ _ _ _ Hm) as (_ & _ & Hc & Hrows).
  cbv zeta in Hc, Hrows.
  set (d := resolved_date k target_date) in *.
  assert (Hnot : is_pair other_id other_date c = false).
  { apply find_some_pair in Hc. destruct Hc as (_ & Ha & Hd).
    destruct (is_pair other_id other_date c) eqn:Hp; [|reflexivity].
    apply is_pair_true in Hp. destruct Hp as [Hp1 Hp2].
    destruct Hother; congruence. }
  rewrite !find_pair_is.
  destruct (CompletionManager.find_pair activity_id d db) as [old|] eqn:Hold.
  - destruct Hrows as [Hrem ->].
    apply find_some_pair in Hold. destruct Hold as (Hin & Ha & Hd).
    assert (Hkeys : Completion.id c = Completion.id old /\
                    Completion.activity_id c = Completion.activity_id old /\
                    Completion.date c = Completion.date old)
      by (rewrite Hrem; repeat split).
    destruct Hkeys as (K1 & K2 & K3).
    unfold CompletionManager.update_row. rewrite find_map_keeping_in.
    + destruct (find _ (completions db)) as [x|] eqn:Hx; [|reflexivity].
      cbn [option_map]. apply find_some in Hx. destruct Hx as [Hxin Hxp].
      destruct (Completion.id x =? Completion.id c) eqn:Hid; [|reflexivity].
      apply Z.eqb_eq in Hid.
      assert (x = old)
        by (apply (NoDup_map_eq Completion.id (completions db));
            auto; congruence).
      subst x. exfalso. apply is_pair_true in Hxp.
      destruct Hxp as [Hp1 Hp2]. destruct Hother; congruence.
    + intros x Hx.
      pose proof (update_row_keys old c (completions db) Hpk Hin K1 K2 K3
                    x Hx) as Hk. cbv zeta in Hk.
      destruct Hk as (_ & Hk2 & Hk3). unfold is_pair.
      now rewrite Hk2, Hk3.
  - destruct Hrows as [_ ->]. apply find_app_old. exact Hnot.
Qed.

(** X15. After a [mark] that returns a completion,
    [get_completion_status] reads the lower case of the status for the
    pair that was marked, and what it read before for every other pair. *)
Theorem mark_then_status (k : clock) (activity_id : Z) (status : string)
    (target_date : option date) (notes : option string) (db db' : DB)
    (c : Completion.t) :
  pk_unique db ->
  CompletionManager.mark k activity_id status target_date notes db
  = (Ok (Some c), db') ->
  CompletionManager.get_completion_status k activity_id target_date db'
  = Some (lower status) /\
  (forall k' other_id other_date,
      other_id <> activity_id \/
      resolved_date k' other_date <> resolved_date k target_date ->
      CompletionManager.get_completion_status k' other_id other_date db'
      = CompletionManager.get_completion_status k' other_id other_date db).
Proof.
  intros Hpk Hm. split.
  - pose proof (mark_returns _ _ _ _ _ _ _ _ Hm) as (_ & _ & Hc & Hrows).
    cbv zeta in Hc, Hrows. unfold CompletionManager.get_completion_status.
    fold (resolved_date k target_date). rewrite Hc. cbn [option_map].
    f_equal.
    destruct (CompletionManager.find_pair _ _ db);
      destruct Hrows as [-> _]; reflexivity.
  - intros k' other_id other_date Hother.
    unfold CompletionManager.get_completion_status.
    fold (resolved_date k' other_date).
    now rewrite (mark_other_pairs _ _ _ _ _ _ _ _ other_id
                   (resolved_date k' other_date) Hpk Hm Hother).
Qed.

Lemma mark_then_status_witness :
  let d := mkdate 2024 3 5 in
  let k := clock_at d (mktime 21 0 0 0) in
  let a := sample_activity 1 "Run" "daily" (mktime 7 0 0 0) (mkdate 2024 1 1)
  in
  let c := Completion.mk 1 1 d "partial" None (Some "slow") (now k) in
  CompletionManager.get_completion_status k 1 None (mkDB [a] [c])
  = Some (lower "Partial").
Proof.
  intros d k a c.
  refine (proj1 (mark_then_status k 1 "Partial" None (Some "slow")
                   (mkDB [a] []) (mkDB [a] [c]) c _ eq_refl)).
  constructor.
Defined.

Lemma StronglySorted_firstn {A : Type} (R : A -> A -> Prop) (n : nat)
    (l : list A) :
  StronglySorted R l -> StronglySorted R (firstn n l).
Proof.
  revert l. induction n as [|n IH]; intros l Hs; [constructor|].
  destruct l as [|x l]; [constructor|]. cbn [firstn].
  inversion Hs as [|? ? Hs' Hall]; subst.
  constructor; [now apply IH|].
  apply Forall_forall. intros y Hy.
  apply (proj1 (Forall_forall _ _) Hall).
  rewrite <- (firstn_skipn n l). apply in_or_app. now left.
Qed.

Lemma StronglySorted_app_inv {A : Type} (R : A -> A -> Prop)
    (l1 l2 : list A) :
  StronglySorted R (l1 ++ l2) ->
  Forall (fun x => Forall (R x) l2) l1.
Proof.
  induction l1 as [|x l1 IH]; intros Hs; [constructor|].
  cbn [app] in Hs. inversion Hs as [|? ? Hs' Hall]; subst.
  constructor; [|now apply IH].
  apply Forall_forall. intros y Hy.
  apply (proj1 (Forall_forall _ _) Hall). apply in_or_app. now right.
Qed.

(** X16. For a key and a limit that the driver can bind (signed
    integers of 64 bits), [get_for_activity] returns rows of the
    activity, the newest date first. A negative limit gives the whole
    history of the activity. A limit of 0 or more gives that many rows of
    it, or all of them when there are fewer, and no row that is left out
    is newer than a row that is returned. *)
Theorem get_for_activity_history (activity_id limit : Z) (db : DB) :
  sqlite_int activity_id = true ->
  sqlite_int limit = true ->
  let history := CompletionManager.get_for_activity activity_id limit db in
  let whole := CompletionManager.get_for_activity activity_id (-1) db in
  (forall c, In c whole <->
             In c (completions db) /\ Completion.activity_id c = activity_id)
  /\
  StronglySorted date_ge history /\
  (exists older,
      Permutation whole (history ++ older) /\
      Forall (fun c => Forall (date_ge c) older) history) /\
  (0 <= limit -> Z.of_nat (List.length history)
                 = Z.min limit (Z.of_nat (List.length whole))) /\
  (limit < 0 -> history = whole).
Proof.
  intros _ _. cbv zeta. unfold CompletionManager.get_for_activity.
  set (rows := sorted_by_rev Completion.date date_ltb _).
  assert (Hs : StronglySorted date_ge rows).
  { apply (sorted_by_rev_sorted Completion.date date_ltb date_ltb_asym).
    intros x y z Hyx Hzy. eapply date_ge_trans; eassumption. }
  unfold CompletionManager.sql_limit. cbn [Z.ltb Z.compare].
  split; [|split; [|split; [|split]]].
  - intros c. unfold rows. split.
    + intros H. apply (Permutation_in _ (sorted_by_rev_perm _ _ _)) in H.
      apply filter_In in H. now rewrite Z.eqb_eq in H.
    + intros H.
      apply (Permutation_in _ (Permutation_sym (sorted_by_rev_perm _ _ _))).
      apply filter_In. now rewrite Z.eqb_eq.
  - destruct (limit <? 0); [exact Hs | now apply StronglySorted_firstn].
  - destruct (limit <? 0).
    + exists []. rewrite app_nil_r. split; [reflexivity|].
      apply Forall_forall. intros c _. constructor.
    + exists (skipn (Z.to_nat limit) rows).
      rewrite firstn_skipn. split; [reflexivity|].
      apply StronglySorted_app_inv. now rewrite firstn_skipn.
  - intros Hl. destruct (limit <? 0) eqn:Hneg; [apply Z.ltb_lt in Hneg; lia|].
    rewrite length_firstn. lia.
  - intros Hl. apply Z.ltb_lt in Hl. now rewrite Hl.
Qed.

(** X16 on a history of three days, read with a limit of 2: the rows of
    the two newest days, the newest first. *)
Lemma get_for_activity_history_witness :
  let t := mkdatetime (mkdate 2024 3 6) (mktime 21 0 0 0) in
  let row id d status := Completion.mk id 1 d status None None t in
  let db :=
    mkDB []
         [row 1 (mkdate 2024 3 4) "done";
          row 2 (mkdate 2024 3 6) "missed";
          row 3 (mkdate 2024 3 5) "done"] in
  map Completion.id (CompletionManager.get_for_activity 1 2 db) = [2; 3] /\
  Z.of_nat (List.length (CompletionManager.get_for_activity 1 2 db)) = 2 /\
  StronglySorted date_ge (CompletionManager.get_for_activity 1 2 db).
Proof.
  intros t row db.
  pose proof (get_for_activity_history 1 2 db eq_refl eq_refl) as H.
  cbv zeta in H. destruct H as (_ & Hsorted & _ & Hlen & _).
  split; [reflexivity|]. split; [|exact Hsorted].
  rewrite Hlen; [reflexivity | lia].
Defined.

End LedgerReads.

(** ** The counts of a range add up *)

Section StatsPartition.

Lemma with_status_partition (rows : list Completion.t) :
  Forall (fun c => In (Completion.status c) COMPLETION_STATUSES) rows ->
  (List.length (with_status "done" rows)
   + List.length (with_status "missed" rows)
   + List.length (with_status "partial" rows)
   + List.length (with_status "rescheduled" rows)
   = List.length rows)%nat.
Proof.
  induction 1 as [|c rows Hc _ IH]; [reflexivity|].
  unfold with_status in *. cbn [filter].
  simpl in Hc.
  destruct Hc as [<- | [<- | [<- | [<- | []]]]]; cbn [String.eqb Ascii.eqb
    Bool.eqb andb]; cbn [List.length]; lia.
Qed.

(** X17. When the completions of a range have statuses of the four,
    the counts [get_stats] returns for the four add up to its total, and
    none of them is negative. *)
Theorem get_stats_partition (start_date end_date : date) (db : DB) :
  Forall (fun c => In (Completion.status c) COMPLETION_STATUSES)
         (in_range start_date end_date db) ->
  let s := CompletionManager.get_stats start_date end_date db in
  CompletionManager.done s + CompletionManager.missed s
  + CompletionManager.partial s + CompletionManager.rescheduled s
  = CompletionManager.total s /\
  0 <= CompletionManager.done s /\ 0 <= CompletionManager.missed s /\
  0 <= CompletionManager.partial s /\ 0 <= CompletionManager.rescheduled s.
Proof.
  intros Hall. cbv zeta. unfold CompletionManager.get_stats.
  fold (in_range start_date end_date db). cbv zeta.
  apply with_status_partition in Hall.
  destruct (Z.of_nat (List.length (in_range start_date end_date db)) =? 0);
    cbn [CompletionManager.done CompletionManager.missed
         CompletionManager.partial CompletionManager.rescheduled
         CompletionManager.total]; [lia|].
  rewrite !count_status_filter. lia.
Qed.

Lemma get_stats_partition_witness :
  let t := mkdatetime (mkdate 2024 3 10) (mktime 21 0 0 0) in
  let row id aid d status := Completion.mk id aid d status None None t in
  let db :=
    mkDB []
         [row 1 1 (mkdate 2024 3 4) "done";
          row 2 1 (mkdate 2024 3 5) "partial";
          row 3 2 (mkdate 2024 3 5) "missed";
          row 4 2 (mkdate 2024 3 11) "done"] in
  let s := CompletionManager.get_stats (mkdate 2024 3 4) (mkdate 2024 3 10) db
  in
  CompletionManager.done s + CompletionManager.missed s
  + CompletionManager.partial s + CompletionManager.rescheduled s
  = CompletionManager.total s.
Proof.
  intros t row db s.
  refine (proj1 (get_stats_partition (mkdate 2024 3 4) (mkdate 2024 3 10) db
                   _)).
  repeat constructor; simpl; tauto.
Defined.

End StatsPartition.

(** ** What the two streaks count *)

Section StreakCounts.

Lemma walk_back_spec (has : date -> bool) (y m : Z) (n : nat) :
  (1 <= n)%nat ->
  forall s,
    match walk_back has y m n s with
    | Ok r =>
        exists N, r = s + Z.of_nat N /\ (N < n)%nat /\
          (forall i, (i < N)%nat ->
                     has (mkdate y m (Z.of_nat (n - i))) = true) /\
          has (mkdate y m (Z.of_nat (n - N))) = false
    | Raise e =>
        e = ValueError "day is out of range for month" /\
        forall i, (i < n)%nat -> has (mkdate y m (Z.of_nat (n - i))) = true
    end.
Proof.
  induction n as [|n IH]; intros Hn s; [lia|].
  cbn [walk_back].
  destruct (has (mkdate y m (Z.of_nat (S n)))) eqn:Hhas.
  - destruct n as [|n'].
    + split; [reflexivity|]. intros i Hi.
      replace i with 0%nat by lia. exact Hhas.
    + specialize (IH ltac:(lia) (s + 1)).
      destruct (walk_back has y m (S n') (s + 1)) as [r|e].
      * destruct IH as (N & -> & HN & Hrun & Hgap).
        exists (S N). split; [lia|]. split; [lia|]. split.
        -- intros i Hi. destruct i as [|i]; [exact Hhas|].
           replace (S (S n') - S i)%nat with (S n' - i)%nat by lia.
           apply Hrun. lia.
        -- replace (S (S n') - S N)%nat with (S n' - N)%nat by lia.
           exact Hgap.
      * destruct IH as [-> Hall]. split; [reflexivity|].
        intros i Hi. destruct i as [|i]; [exact Hhas|].
        replace (S (S n') - S i)%nat with (S n' - i)%nat by lia.
        apply Hall. lia.
  - exists 0%nat. split; [lia|]. split; [lia|]. split; [intros i Hi; lia|].
    exact Hhas.
Qed.

(** What [get_streak] returns, and when it raises. *)
Lemma get_streak_cases (k : clock) (activity_id : Z) (db : DB) :
  valid_dateb (today k) = true ->
  match CompletionManager.get_streak k activity_id db with
  | Ok n =>
      0 <= n < day (today k) /\
      (forall i, 0 <= i < n ->
                 has_done activity_id db (days_back (today k) i) = true) /\
      has_done activity_id db (days_back (today k) n) = false
  | Raise e =>
      e = ValueError "day is out of range for month" /\
      forall i, 0 <= i < day (today k) ->
                has_done activity_id db (days_back (today k) i) = true
  end.
Proof.
  intros Hv. rewrite (get_streak_walk _ _ _ Hv).
  apply valid_dateb_iff in Hv. destruct Hv as (_ & _ & Hday).
  pose proof (walk_back_spec (has_done activity_id db) (year (today k))
                (month (today k)) (Z.to_nat (day (today k))) ltac:(lia) 0)
    as H.
  destruct (walk_back _ _ _ _ _) as [r|e].
  - destruct H as (N & -> & HN & Hrun & Hgap).
    split; [lia|]. split.
    + intros i Hi. specialize (Hrun (Z.to_nat i) ltac:(lia)).
      unfold days_back.
      replace (day (today k) - i)
        with (Z.of_nat (Z.to_nat (day (today k)) - Z.to_nat i)) by lia.
      exact Hrun.
    + unfold days_back.
      replace (day (today k) - (0 + Z.of_nat N))
        with (Z.of_nat (Z.to_nat (day (today k)) - N)) by lia.
      exact Hgap.
  - destruct H as [-> Hall]. split; [reflexivity|].
    intros i Hi. specialize (Hall (Z.to_nat i) ltac:(lia)).
    unfold days_back.
    replace (day (today k) - i)
      with (Z.of_nat (Z.to_nat (day (today k)) - Z.to_nat i)) by lia.
    exact Hall.
Qed.

(** X18. The streak of the ledger counts inside the month of today. A
    streak it returns is the number of days in a row, back from today,
    that the activity has a [done] completion for, and is less than the
    day of the month; when every day from today back to the first of the
    month has one, the call raises [ValueError]. *)
Theorem get_streak_inside_month (k : clock) (activity_id : Z) (db : DB) :
  valid_dateb (today k) = true ->
  match CompletionManager.get_streak k activity_id db with
  | Ok n =>
      0 <= n < day (today k) /\
      (forall i, 0 <= i < n ->
                 has_done activity_id db (days_back (today k) i) = true) /\
      has_done activity_id db (days_back (today k) n) = false
  | Raise e =>
      e = ValueError "day is out of range for month" /\
      forall i, 0 <= i < day (today k) ->
                has_done activity_id db (days_back (today k) i) = true
  end.
Proof.
  exact (get_streak_cases k activity_id db).
Qed.

Lemma get_streak_inside_month_witness :
  let k := clock_at (mkdate 2024 3 3) (mktime 21 0 0 0) in
  let row id d := Completion.mk id 1 d "done" (Some (now k)) None (now k) in
  let db :=
    mkDB [sample_activity 1 "Run" "daily" (mktime 7 0 0 0) (mkdate 2024 1 1)]
         [row 1 (mkdate 2024 3 2); row 2 (mkdate 2024 3 3)] in
  0 <= 2 < day (today k) /\
  has_done 1 db (days_back (today k) 2) = false.
Proof.
  intros k row db.
  pose proof (get_streak_inside_month k 1 db eq_refl) as H.
  change (CompletionManager.get_streak k 1 db) with (@Ok Z 2) in H.
  cbv beta iota in H. split; apply H.
Defined.

Lemma days_before_zero (e : date) :
  valid_dateb e = true -> days_before e 0 = e.
Proof.
  intros Hv. apply valid_dateb_iff in Hv. unfold days_before.
  rewrite Z.sub_0_r. apply fromordinal_toordinal; lia.
Qed.

Lemma days_before_valid (e : date) (i : Z) :
  valid_dateb e = true -> 0 <= i < toordinal e ->
  valid_dateb (days_before e i) = true /\
  toordinal (days_before e i) = toordinal e - i.
Proof.
  intros Hv Hi. pose proof (toordinal_range e Hv). unfold days_before.
  generalize (eq_refl (fromordinal (toordinal e - i))).
  generalize (fromordinal (toordinal e - i)) at 2 3 4.
  intros d Hd. apply (fromordinal_valid (toordinal e - i)); [lia | exact Hd].
Qed.

Lemma sub_days_one (e : date) :
  valid_dateb e = true ->
  if toordinal e =? 1
  then sub_days e 1 = Raise (OverflowError "date value out of range")
  else sub_days e 1 = Ok (days_before e 1) /\
       valid_dateb (days_before e 1) = true /\
       toordinal (days_before e 1) = toordinal e - 1.
Proof.
  intros Hv. pose proof (toordinal_range e Hv) as Hr.
  unfold sub_days, add_days.
  destruct (toordinal e =? 1) eqn:H1.
  - apply Z.eqb_eq in H1. rewrite H1. reflexivity.
  - apply Z.eqb_neq in H1.
    split; [|apply days_before_valid; [exact Hv | lia]].
    unfold days_before. rewrite Z.add_opp_r.
    replace ((0 <? toordinal e - 1) && (toordinal e - 1 <=? _MAXORDINAL))
      with true
      by (symmetry; apply andb_true_iff; rewrite Z.ltb_lt, Z.leb_le; lia).
    reflexivity.
Qed.

(** A row dated after [e] is for none of the days up to [e]. *)
Lemma newer_row_not_before (c : Completion.t) (e : date) (i : Z) :
  valid_dateb e = true -> 0 <= i < toordinal e ->
  date_eqb (Completion.date c) e = false ->
  date_ltb (Completion.date c) e = false ->
  date_eqb (Completion.date c) (days_before e i) = false.
Proof.
  intros Hv Hi Heq Hlt.
  destruct (days_before_valid e i Hv Hi) as [Hvd Hod].
  assert (Hle : date_leb (days_before e i) e = true)
    by (apply (toordinal_le _ _ Hvd Hv); lia).
  apply not_true_iff_false. apply not_true_iff_false in Heq.
  revert Heq Hlt Hle.
  rewrite !date_eqb_fields, date_ltb_ge, date_leb_le. lia.
Qed.

(** The row of [e] is for none of the days before [e]. *)
Lemma row_not_before (c : Completion.t) (e : date) (i : Z) :
  valid_dateb e = true -> 1 <= i < toordinal e ->
  date_eqb (Completion.date c) e = true ->
  date_eqb (Completion.date c) (days_before e i) = false.
Proof.
  intros Hv Hi Heq. apply date_eqb_eq in Heq.
  destruct (days_before_valid e i Hv ltac:(lia)) as [_ Hod].
  apply date_eqb_neq. intros H. rewrite Heq in H. rewrite <- H in Hod. lia.
Qed.

Lemma days_before_step (e : date) (i : Z) :
  toordinal (days_before e 1) = toordinal e - 1 ->
  days_before (days_before e 1) i = days_before e (i + 1).
Proof.
  intros H. unfold days_before at 1. rewrite H. unfold days_before.
  f_equal. lia.
Qed.

Lemma analytics_loop_spec (rows : list Completion.t) :
  StronglySorted date_ge rows ->
  forall (e : date) (s : Z),
    valid_dateb e = true ->
    match AnalyticsEngine.streak_loop rows e s with
    | Ok r =>
        exists N, r = s + N /\ 0 <= N < toordinal e /\
          (forall i, 0 <= i < N -> has_date rows (days_before e i) = true) /\
          has_date rows (days_before e N) = false
    | Raise x =>
        x = OverflowError "date value out of range" /\
        forall i, 0 <= i < toordinal e ->
                  has_date rows (days_before e i) = true
    end.
Proof.
  induction rows as [|c rows IH]; intros Hsorted e s Hv;
    pose proof (toordinal_range e Hv) as Hr.
  - exists 0. split; [lia|]. split; [lia|]. split; [intros; lia | reflexivity].
  - inversion Hsorted as [|? ? Hrows Hc]; subst.
    cbn [AnalyticsEngine.streak_loop].
    destruct (date_eqb (Completion.date c) e) eqn:Heq.
    + pose proof (sub_days_one e Hv) as Hsub.
      destruct (toordinal e =? 1) eqn:H1.
      * rewrite Hsub. cbn [bind]. split; [reflexivity|].
        intros i Hi. apply Z.eqb_eq in H1.
        replace i with 0 by lia.
        now rewrite (days_before_zero e Hv), has_date_cons, Heq.
      * apply Z.eqb_neq in H1. destruct Hsub as (-> & Hv' & Ho').
        cbn [bind]. specialize (IH Hrows (days_before e 1) (s + 1) Hv').
        destruct (AnalyticsEngine.streak_loop rows _ _) as [r|x].
        -- destruct IH as (N & -> & HN & Hrun & Hgap).
           exists (N + 1). split; [lia|]. split; [lia|]. split.
           ++ intros i Hi. rewrite has_date_cons.
              destruct (Z.eq_dec i 0) as [-> | Hne].
              ** now rewrite (days_before_zero e Hv), Heq.
              ** rewrite <- (Z.sub_add 1 i), <- (days_before_step e _ Ho').
                 rewrite Hrun by lia. apply orb_true_r.
           ++ rewrite has_date_cons, <- (days_before_step e _ Ho'), Hgap.
              rewrite (days_before_step e _ Ho').
              rewrite (row_not_before c e (N + 1) Hv ltac:(lia) Heq).
              reflexivity.
        -- destruct IH as [-> Hall]. split; [reflexivity|].
           intros i Hi. rewrite has_date_cons.
           destruct (Z.eq_dec i 0) as [-> | Hne].
           ++ now rewrite (days_before_zero e Hv), Heq.
           ++ rewrite <- (Z.sub_add 1 i), <- (days_before_step e _ Ho').
              rewrite Hall by lia. apply orb_true_r.
    + destruct (date_ltb (Completion.date c) e) eqn:Hlt.
      * exists 0. split; [lia|]. split; [lia|]. split; [intros; lia|].
        rewrite (days_before_zero e Hv), has_date_cons, Heq.
        now rewrite (has_date_false_below rows c e Hc Hlt).
      * specialize (IH Hrows e s Hv).
        destruct (AnalyticsEngine.streak_loop rows e s) as [r|x].
        -- destruct IH as (N & -> & HN & Hrun & Hgap).
           exists N. split; [lia|]. split; [lia|]. split.
           ++ intros i Hi. rewrite has_date_cons, Hrun by lia.
              apply orb_true_r.
           ++ rewrite has_date_cons, Hgap.
              now rewrite (newer_row_not_before c e N Hv HN Heq Hlt).
        -- destruct IH as [-> Hall]. split; [reflexivity|].
           intros i Hi. rewrite has_date_cons, Hall by lia.
           apply orb_true_r.
Qed.

Lemma calculate_streak_loop (k : clock) (activity_id : Z) (db : DB) :
  AnalyticsEngine._calculate_streak k activity_id db
  = AnalyticsEngine.streak_loop
      (CompletionManager.done_rows activity_id db) (today k) 0.
Proof.
  unfold AnalyticsEngine._calculate_streak.
  now destruct (CompletionManager.done_rows activity_id db).
Qed.

(** X19. The streak of the analytics counts across months. A streak
    it returns is the number of days in a row, back from today, that the
    activity has a [done] completion for; it raises, [OverflowError], only
    when every day from today back to 0001-01-01 has one. *)
Theorem calculate_streak_counts (k : clock) (activity_id : Z) (db : DB) :
  valid_dateb (today k) = true ->
  match AnalyticsEngine._calculate_streak k activity_id db with
  | Ok n =>
      0 <= n < toordinal (today k) /\
      (forall i, 0 <= i < n ->
                 has_done activity_id db (days_before (today k) i) = true) /\
      has_done activity_id db (days_before (today k) n) = false
  | Raise e =>
      e = OverflowError "date value out of range" /\
      forall i, 0 <= i < toordinal (today k) ->
                has_done activity_id db (days_before (today k) i) = true
  end.
Proof.
  intros Hv. rewrite calculate_streak_loop.
  pose proof (analytics_loop_spec _ (done_rows_sorted activity_id db)
                (today k) 0 Hv) as H.
  destruct (AnalyticsEngine.streak_loop _ _ _) as [r|x].
  - destruct H as (N & -> & HN & Hrun & Hgap).
    rewrite Z.add_0_l. split; [exact HN|]. split.
    + intros i Hi. rewrite <- has_date_done_rows. now apply Hrun.
    + now rewrite <- has_date_done_rows.
  - destruct H as [-> Hall]. split; [reflexivity|].
    intros i Hi. rewrite <- has_date_done_rows. now apply Hall.
Qed.

Lemma calculate_streak_counts_witness :
  let k := clock_at (mkdate 2024 3 1) (mktime 21 0 0 0) in
  let row id d := Completion.mk id 1 d "done" (Some (now k)) None (now k) in
  let db :=
    mkDB [sample_activity 1 "Run" "daily" (mktime 7 0 0 0) (mkdate 2024 1 1)]
         [row 1 (mkdate 2024 2 29); row 2 (mkdate 2024 3 1)] in
  has_done 1 db (days_before (today k) 2) = false.
Proof.
  intros k row db.
  pose proof (calculate_streak_counts k 1 db eq_refl) as H.
  change (AnalyticsEngine._calculate_streak k 1 db) with (@Ok Z 2) in H.
  cbv beta iota in H. apply H.
Defined.

End StreakCounts.

(** ** The streak listing returns *)

Section StreakListing.

Lemma analytics_loop_total (rows : list Completion.t) :
  forall (e : date) (s : Z),
    valid_dateb e = true ->
    Z.of_nat (List.length rows) < toordinal e ->
    exists r, AnalyticsEngine.streak_loop rows e s = Ok r /\
              s <= r <= s + Z.of_nat (List.length rows).
Proof.
  induction rows as [|c rows IH]; intros e s Hv Hlen.
  - exists s. split; [reflexivity | simpl; lia].
  - cbn [AnalyticsEngine.streak_loop]. cbn [List.length] in *.
    destruct (date_eqb (Completion.date c) e).
    + pose proof (sub_days_one e Hv) as Hsub.
      destruct (toordinal e =? 1) eqn:H1; [apply Z.eqb_eq in H1; lia|].
      destruct Hsub as (-> & Hv' & Ho'). cbn [bind].
      destruct (IH (days_before e 1) (s + 1) Hv' ltac:(lia)) as (r & -> & Hr).
      exists r. split; [reflexivity | lia].
    + destruct (date_ltb (Completion.date c) e).
      * exists s. split; [reflexivity | lia].
      * destruct (IH e s Hv ltac:(lia)) as (r & -> & Hr).
        exists r. split; [reflexivity | lia].
Qed.

Lemma done_rows_length (activity_id : Z) (db : DB) :
  (List.length (CompletionManager.done_rows activity_id db)
   <= List.length (completions db))%nat.
Proof.
  unfold CompletionManager.done_rows.
  rewrite (Permutation_length (sorted_by_rev_perm _ _ _)).
  apply filter_length_le.
Qed.

Lemma calculate_streak_total (k : clock) (activity_id : Z) (db : DB) :
  valid_dateb (today k) = true ->
  Z.of_nat (List.length (completions db)) < toordinal (today k) ->
  exists n, AnalyticsEngine._calculate_streak k activity_id db = Ok n /\
            0 <= n <= Z.of_nat (List.length (completions db)).
Proof.
  intros Hv Hlen. rewrite calculate_streak_loop.
  pose proof (done_rows_length activity_id db) as Hle.
  destruct (analytics_loop_total (CompletionManager.done_rows activity_id db)
              (today k) 0 Hv ltac:(lia)) as (r & -> & Hr).
  exists r. split; [reflexivity | lia].
Qed.

Lemma streak_entries_total (k : clock) (acts : list Activity.t) (db : DB) :
  valid_dateb (today k) = true ->
  Z.of_nat (List.length (completions db)) < toordinal (today k) ->
  exists l, AnalyticsEngine.streak_entries k acts db = Ok l /\
            Forall (fun entry =>
                      0 <= AnalyticsEngine.entry_streak entry
                      <= Z.of_nat (List.length (completions db))) l.
Proof.
  intros Hv Hlen. induction acts as [|a acts IH].
  - exists []. split; [reflexivity | constructor].
  - cbn [AnalyticsEngine.streak_entries].
    destruct (calculate_streak_total k (Activity.id a) db Hv Hlen)
      as (n & -> & Hn).
    destruct IH as (l & -> & Hl). cbn [bind].
    eexists. split; [reflexivity|]. constructor; [exact Hn | exact Hl].
Qed.

(** X20. While the ledger has fewer completions than there are days
    from 0001-01-01 to today, [get_streaks] returns: one entry for each
    active activity, the longest streak first, every streak between 0 and
    the number of completions. *)
Theorem get_streaks_total (k : clock) (db : DB) :
  valid_dateb (today k) = true ->
  Z.of_nat (List.length (completions db)) < toordinal (today k) ->
  exists l,
    AnalyticsEngine.get_streaks k db = Ok l /\
    StronglySorted streak_ge l /\
    Permutation (map AnalyticsEngine.entry_activity_id l)
                (map Activity.id (filter Activity.is_active (activities db)))
    /\
    Forall (fun entry =>
              0 <= AnalyticsEngine.entry_streak entry
              <= Z.of_nat (List.length (completions db))) l.
Proof.
  intros Hv Hlen.
  destruct (streak_entries_total k (filter Activity.is_active (activities db))
              db Hv Hlen) as (l0 & Hl0 & Hbound).
  assert (Hg : AnalyticsEngine.get_streaks k db
               = Ok (sorted_by_rev AnalyticsEngine.entry_streak Z.ltb l0))
    by (unfold AnalyticsEngine.get_streaks; now rewrite Hl0).
  exists (sorted_by_rev AnalyticsEngine.entry_streak Z.ltb l0).
  split; [exact Hg|].
  pose proof (get_streaks_spec k db _ Hg) as (Hs & Hp & _).
  split; [exact Hs|]. split; [exact Hp|].
  apply Forall_forall. intros entry Hin.
  apply (Permutation_in _ (sorted_by_rev_perm _ _ _)) in Hin.
  now apply (proj1 (Forall_forall _ _) Hbound).
Qed.

Lemma get_streaks_total_witness :
  let k := clock_at (mkdate 2024 3 1) (mktime 21 0 0 0) in
  let row id d := Completion.mk id 1 d "done" (Some (now k)) None (now k) in
  let db :=
    mkDB [sample_activity 1 "Run" "daily" (mktime 7 0 0 0) (mkdate 2024 1 1)]
         [row 1 (mkdate 2024 2 29); row 2 (mkdate 2024 3 1)] in
  exists l, AnalyticsEngine.get_streaks k db = Ok l.
Proof.
  intros k row db.
  destruct (get_streaks_total k db eq_refl) as (l & Hl & _).
  - vm_compute. reflexivity.
  - now exists l.
Defined.

End StreakListing.

(** ** Dates in words *)

Section ParseDate.

Lemma is_space_lower (c : ascii) : is_space (ascii_lower c) = is_space c.
Proof.
  destruct c as [[] [] [] [] [] [] [] []]; reflexivity.
Qed.

Lemma lstrip_lower (s : string) : lstrip (lower s) = lower (lstrip s).
Proof.
  induction s as [|c s IH]; [reflexivity|].
  cbn [lower lstrip]. rewrite is_space_lower.
  destruct (is_space c); [exact IH | reflexivity].
Qed.

Lemma lstrip_blank_app (pre s : string) :
  lstrip pre = "" -> lstrip (pre ++ s) = lstrip s.
Proof.
  induction pre as [|c pre IH]; [reflexivity|].
  cbn [lstrip append]. destruct (is_space c); [exact IH | discriminate].
Qed.

Lemma rstrip_blank (s : string) : lstrip s = "" -> rstrip s = "".
Proof.
  induction s as [|c s IH]; [reflexivity|].
  cbn [lstrip rstrip]. destruct (is_space c); [|discriminate].
  intros H. now rewrite (IH H).
Qed.

Lemma rstrip_app_blank (s post : string) :
  lstrip post = "" -> rstrip (s ++ post) = rstrip s.
Proof.
  intros Hpost. induction s as [|c s IH].
  - cbn [append]. now apply rstrip_blank.
  - cbn [append rstrip]. now rewrite IH.
Qed.

Lemma lstrip_app_blank (s post : string) :
  lstrip post = "" ->
  lstrip (s ++ post) = (lstrip s ++ post)%string \/
  (lstrip s = "" /\ lstrip (s ++ post) = "").
Proof.
  intros Hpost. induction s as [|c s IH].
  - right. now split.
  - cbn [append lstrip]. destruct (is_space c); [exact IH | now left].
Qed.

Lemma strip_blank_around (pre s post : string) :
  lstrip pre = "" -> lstrip post = "" ->
  strip (pre ++ s ++ post) = strip s.
Proof.
  intros Hpre Hpost. unfold strip. rewrite (lstrip_blank_app _ _ Hpre).
  destruct (lstrip_app_blank s post Hpost) as [-> | [-> ->]];
    [now apply rstrip_app_blank | reflexivity].
Qed.

Lemma lower_blank (s : string) : lstrip s = "" -> lstrip (lower s) = "".
Proof.
  intros H. now rewrite lstrip_lower, H.
Qed.

Lemma parse_date_normal (parser_parse : string -> option datetime)
    (today : date) (pre s post s' : string) :
  lstrip pre = "" -> lstrip post = "" -> lower s = lower s' ->
  parse_date parser_parse today (pre ++ s ++ post)
  = parse_date parser_parse today s'.
Proof.
  intros Hpre Hpost Hs. unfold parse_date.
  rewrite !lower_app.
  rewrite (strip_blank_around _ _ _ (lower_blank _ Hpre) (lower_blank _ Hpost)).
  now rewrite Hs.
Qed.

(** X21. [parse_date] reads a text whatever the case of its letters
    and the white space around it. The words [today], [tomorrow] and
    [yesterday] give today, the day after and the day before; at the two
    ends of the calendar [tomorrow] and [yesterday] raise
    [OverflowError], which is no [ValueError]. *)
Theorem parse_date_words (parser_parse : string -> option datetime)
    (today : date) (pre s post : string) :
  valid_dateb today = true ->
  lstrip pre = "" -> lstrip post = "" ->
  (forall s', lower s = lower s' ->
              parse_date parser_parse today (pre ++ s ++ post)
              = parse_date parser_parse today s') /\
  (lower s = "today" ->
   parse_date parser_parse today (pre ++ s ++ post) = Ok today) /\
  (lower s = "tomorrow" ->
   parse_date parser_parse today (pre ++ s ++ post)
   = if toordinal today <? _MAXORDINAL
     then Ok (days_before today (-1))
     else Raise (OverflowError "date value out of range")) /\
  (lower s = "yesterday" ->
   parse_date parser_parse today (pre ++ s ++ post)
   = if 1 <? toordinal today
     then Ok (days_before today 1)
     else Raise (OverflowError "date value out of range")).
Proof.
  intros Hv Hpre Hpost. pose proof (toordinal_range today Hv) as Hr.
  split; [|split; [|split]].
  - intros s' Hs. now apply parse_date_normal.
  - intros Hs.
    now rewrite (parse_date_normal _ _ _ _ _ "today" Hpre Hpost Hs).
  - intros Hs.
    rewrite (parse_date_normal _ _ _ _ _ "tomorrow" Hpre Hpost Hs).
    unfold parse_date. cbn [lower strip lstrip rstrip ascii_lower].
    unfold add_days, days_before.
    replace (toordinal today - (-1)) with (toordinal today + 1) by lia.
    destruct (toordinal today <? _MAXORDINAL) eqn:Hlt.
    + apply Z.ltb_lt in Hlt.
      replace ((0 <? toordinal today + 1)
               && (toordinal today + 1 <=? _MAXORDINAL)) with true
        by (symmetry; apply andb_true_iff; rewrite Z.ltb_lt, Z.leb_le; lia).
      reflexivity.
    + apply Z.ltb_ge in Hlt.
      replace ((0 <? toordinal today + 1)
               && (toordinal today + 1 <=? _MAXORDINAL)) with false
        by (symmetry; apply andb_false_iff; right; apply Z.leb_gt; lia).
      reflexivity.
  - intros Hs.
    rewrite (parse_date_normal _ _ _ _ _ "yesterday" Hpre Hpost Hs).
    unfold parse_date. cbn [lower strip lstrip rstrip ascii_lower].
    unfold sub_days, add_days, days_before. rewrite Z.add_opp_r.
    destruct (1 <? toordinal today) eqn:Hlt.
    + apply Z.ltb_lt in Hlt.
      replace ((0 <? toordinal today - 1)
               && (toordinal today - 1 <=? _MAXORDINAL)) with true
        by (symmetry; apply andb_true_iff; rewrite Z.ltb_lt, Z.leb_le; lia).
      reflexivity.
    + apply Z.ltb_ge in Hlt.
      replace ((0 <? toordinal today - 1)
               && (toordinal today - 1 <=? _MAXORDINAL)) with false
        by (symmetry; apply andb_false_iff; left; apply Z.ltb_ge; lia).
      reflexivity.
Qed.

Lemma parse_date_words_witness :
  parse_date sample_parser (mkdate 9999 12 31) ("  " ++ "ToMorrow" ++ " ")
  = Raise (OverflowError "date value out of range").
Proof.
  exact (proj1 (proj2 (proj2 (parse_date_words sample_parser
                                (mkdate 9999 12 31) "  " "ToMorrow" " "
                                eq_refl eq_refl eq_refl))) eq_refl).
Defined.

Lemma parse_date_raises (parser_parse : string -> option datetime)
    (today : date) (date_str : string) (e : exn) :
  parse_date parser_parse today date_str = Raise e ->
  (exists msg, e = ValueError msg) \/
  e = OverflowError "date value out of range".
Proof.
  unfold parse_date, sub_days.
  destruct (String.eqb _ "today"); [discriminate|].
  destruct (String.eqb _ "tomorrow");
    [intros H; right; exact (proj1 (add_days_raise _ _ _ H))|].
  destruct (String.eqb _ "yesterday");
    [intros H; right; exact (proj1 (add_days_raise _ _ _ H))|].
  destruct (parser_parse _); [discriminate|].
  intros H. injection H as <-. left. eexists. reflexivity.
Qed.

End ParseDate.

(** ** The endpoints of the activities *)

Section Endpoints.

Lemma mark_raises (k : clock) (activity_id : Z) (status : string)
    (target_date : option date) (notes : option string) (db db' : DB)
    (e : exn) :
  CompletionManager.mark k activity_id status target_date notes db
  = (Raise e, db') ->
  db' = db /\ ~ In (lower status) COMPLETION_STATUSES /\
  exists msg, e = ValueError msg.
Proof.
  unfold CompletionManager.mark, validate_status.
  destruct (str_in_list (lower status) COMPLETION_STATUSES) eqn:Hin.
  - destruct (find _ (activities db)); [|discriminate].
    destruct (CompletionManager.find_pair _ _ db); discriminate.
  - intros H. injection H as <- <-. split; [reflexivity|].
    split; [|eexists; reflexivity].
    intros Hc. apply str_in_list_iff in Hc. congruence.
Qed.

Lemma mark_none (k : clock) (activity_id : Z) (status : string)
    (target_date : option date) (notes : option string) (db db' : DB) :
  CompletionManager.mark k activity_id status target_date notes db
  = (Ok None, db') ->
  ActivityManager.get_by_id activity_id db = None.
Proof.
  unfold CompletionManager.mark, ActivityManager.get_by_id.
  destruct (validate_status status); [|discriminate].
  destruct (find _ (activities db)); [|reflexivity].
  destruct (CompletionManager.find_pair _ _ db); discriminate.
Qed.

(** X22. For a key that the driver can bind (a signed integer of 64
    bits) the endpoint [mark_activity] ends in one of four ways. It
    returns the completion that [mark] wrote, with the key of the
    activity, the lower case of the status and the date in ISO form, and
    the status then reads back from the ledger. It answers 404 for an
    unknown activity, and 400 for a known one when the status is none of
    the four or the date is not read. It lets [OverflowError] through
    when the date is a day past an end of the calendar. In the last three
    cases nothing is written; and it never reads an attribute of
    [None]. *)
Theorem mark_activity_responses (parser_parse : string -> option datetime)
    (k : clock) (activity_id : Z) (data_status : string)
    (data_notes data_date : option string) (db : DB) :
  sqlite_int activity_id = true ->
  let outcome :=
    Api.mark_activity parser_parse k activity_id data_status data_notes
      data_date db in
  match fst outcome with
  | Api.Returns body =>
      exists completion target_date,
        CompletionManager.mark k activity_id data_status target_date
          data_notes db = (Ok (Some completion), snd outcome) /\
        Api.c_activity_id body = activity_id /\
        Api.c_status body = lower data_status /\
        Api.c_date body = isoformat (resolved_date k target_date) /\
        CompletionManager.get_completion_status k activity_id target_date
          (snd outcome) = Some (lower data_status)
  | Api.HTTPException status_code detail =>
      snd outcome = db /\
      ((status_code = 404 /\
        ActivityManager.get_by_id activity_id db = None) \/
       (status_code = 400 /\
        ActivityManager.get_by_id activity_id db <> None /\
        (~ In (lower data_status) COMPLETION_STATUSES \/
         exists text msg,
           data_date = Some text /\
           parse_date parser_parse (today k) text
           = Raise (ValueError msg))))
  | Api.Propagates e =>
      snd outcome = db /\
      e = OverflowError "date value out of range" /\
      exists text,
        data_date = Some text /\
        parse_date parser_parse (today k) text = Raise e
  | Api.AttributeError _ => False
  end.
Proof.
  intros _. cbv zeta. unfold Api.mark_activity.
  destruct (ActivityManager.get_by_id activity_id db) as [a|] eqn:Hg;
    [|cbn [fst snd]; split; [reflexivity | now left]].
  assert (Hknown : ActivityManager.get_by_id activity_id db <> None)
    by congruence.
  set (target :=
         match data_date with
         | Some text =>
             if truthy_str data_date
             then d <- parse_date parser_parse (today k) text;; Ok (Some d)
             else Ok None
         | None => Ok None
         end).
  assert (Htarget :
            match target with
            | Ok _ => True
            | Raise e =>
                exists text, data_date = Some text /\
                             parse_date parser_parse (today k) text = Raise e
            end).
  { unfold target. destruct data_date as [text|]; [|exact I].
    destruct (truthy_str (Some text)); [|exact I].
    destruct (parse_date parser_parse (today k) text) as [d|e] eqn:Hp;
      cbn [bind]; [exact I|]. now exists text. }
  destruct target as [target_date|e].
  - destruct (CompletionManager.mark k activity_id data_status target_date
                data_notes db) as [[[c|]|e] db'] eqn:Hm.
    + cbn [fst snd].
      pose proof (mark_returns _ _ _ _ _ _ _ _ Hm) as (_ & _ & Hc & Hrows).
      cbv zeta in Hc, Hrows.
      exists c, target_date. split; [exact Hm|].
      pose proof (find_some_pair _ _ _ _ Hc) as (_ & Hid & Hdate).
      cbn [Api.c_activity_id Api.c_status Api.c_date].
      split; [exact Hid|].
      assert (Hstatus : Completion.status c = lower data_status)
        by (destruct (CompletionManager.find_pair _ _ db);
            destruct Hrows as [-> _]; reflexivity).
      split; [exact Hstatus|]. split; [now rewrite Hdate|].
      unfold CompletionManager.get_completion_status.
      fold (resolved_date k target_date). rewrite Hc. cbn [option_map].
      now rewrite Hstatus.
    + apply mark_none in Hm. congruence.
    + apply mark_raises in Hm. destruct Hm as (-> & Hbad & msg & ->).
      cbn [fst snd]. split; [reflexivity|]. right.
      split; [reflexivity|]. split; [discriminate|]. now left.
  - destruct Htarget as (text & Hd & Hp).
    destruct (parse_date_raises _ _ _ _ Hp) as [[msg ->] | ->];
      cbn [fst snd].
    + split; [reflexivity|]. right. split; [reflexivity|].
      split; [discriminate|]. right. now exists text, msg.
    + split; [reflexivity|]. split; [reflexivity|]. now exists text.
Qed.

(** X22 on two calls against a database with activity 1: a mark of the
    unknown activity 2 is answered 404 and writes nothing, and a mark of
    activity 1 with a status of no kind is answered 400. *)
Lemma mark_activity_responses_witness :
  let k := clock_at (mkdate 2024 3 5) (mktime 8 0 0 0) in
  let db :=
    mkDB [sample_activity 1 "Run" "daily" (mktime 7 0 0 0) (mkdate 2024 1 1)]
         [] in
  snd (Api.mark_activity sample_parser k 2 "done" None None db) = db /\
  ActivityManager.get_by_id 2 db = None /\
  snd (Api.mark_activity sample_parser k 1 "skipped" None None db) = db.
Proof.
  intros k db.
  pose proof (mark_activity_responses sample_parser k 2 "done" None None db
                eq_refl) as H2.
  pose proof (mark_activity_responses sample_parser k 1 "skipped" None None
                db eq_refl) as H1.
  cbv zeta in H1, H2.
  change (fst (Api.mark_activity sample_parser k 2 "done" None None db))
    with (@Api.HTTPException Api.completion_response 404
            "Activity not found") in H2.
  destruct (fst (Api.mark_activity sample_parser k 1 "skipped" None None db))
    as [body|status_code detail|e|name] eqn:Hfst; try discriminate Hfst.
  cbv beta iota in H2.
  destruct H2 as [Hdb [[_ Hnone] | [Hcode _]]]; [|discriminate Hcode].
  split; [exact Hdb|]. split; [exact Hnone|]. exact (proj1 H1).
Defined.

(** X23. For a key and a limit that the driver can bind (signed integers
    of 64 bits) the endpoint [get_activity_history] answers 404 for an
    unknown activity. For a known one it returns the activity, the streak of the
    ledger, which is less than the day of the month, and one item for each
    row of [get_for_activity], in its order; but it lets the [ValueError]
    of [get_streak] through, unhandled, when the activity has a [done]
    completion for every day from today back to the first of the
    month. *)
Theorem get_activity_history_responses (k : clock) (activity_id limit : Z)
    (db : DB) :
  sqlite_int activity_id = true ->
  sqlite_int limit = true ->
  valid_dateb (today k) = true ->
  match Api.get_activity_history k activity_id limit db with
  | Api.Returns body =>
      exists activity,
        ActivityManager.get_by_id activity_id db = Some activity /\
        Api.h_activity body = Api.activity_to_response activity /\
        CompletionManager.get_streak k activity_id db
        = Ok (Api.h_streak body) /\
        0 <= Api.h_streak body < day (today k) /\
        map Api.h_status (Api.h_history body)
        = map Completion.status
            (CompletionManager.get_for_activity activity_id limit db) /\
        map Api.h_date (Api.h_history body)
        = map (fun c => isoformat (Completion.date c))
            (CompletionManager.get_for_activity activity_id limit db)
  | Api.HTTPException status_code _ =>
      status_code = 404 /\
      ActivityManager.get_by_id activity_id db = None
  | Api.Propagates e =>
      e = ValueError "day is out of range for month" /\
      ActivityManager.get_by_id activity_id db <> None /\
      forall i, 0 <= i < day (today k) ->
                has_done activity_id db (days_back (today k) i) = true
  | Api.AttributeError _ => False
  end.
Proof.
  intros _ _ Hv. unfold Api.get_activity_history.
  destruct (ActivityManager.get_by_id activity_id db) as [a|] eqn:Hg;
    [|now split].
  pose proof (get_streak_cases k activity_id db Hv) as Hs.
  destruct (CompletionManager.get_streak k activity_id db) as [n|e].
  - exists a. cbn [Api.h_activity Api.h_streak Api.h_history].
    split; [reflexivity|]. split; [reflexivity|]. split; [reflexivity|].
    split; [apply Hs|]. rewrite !map_map. split; reflexivity.
  - destruct Hs as [-> Hall]. split; [reflexivity|].
    split; [discriminate | exact Hall].
Qed.

Lemma get_activity_history_responses_witness :
  let k := clock_at (mkdate 2024 3 1) (mktime 21 0 0 0) in
  let row := Completion.mk 1 1 (mkdate 2024 3 1) "done" (Some (now k)) None
               (now k) in
  let db :=
    mkDB [sample_activity 1 "Run" "daily" (mktime 7 0 0 0) (mkdate 2024 1 1)]
         [row] in
  ActivityManager.get_by_id 1 db <> None /\
  has_done 1 db (days_back (today k) 0) = true.
Proof.
  intros k row db.
  pose proof (get_activity_history_responses k 1 10 db eq_refl eq_refl
                eq_refl) as H.
  change (Api.get_activity_history k 1 10 db)
    with (@Api.Propagates Api.history_response
            (ValueError "day is out of range for month")) in H.
  cbv beta iota in H. destruct H as (_ & Hk & Hall).
  split; [exact Hk | apply Hall; simpl; lia].
Defined.

Lemma delete_gone (activity_id : Z) (db : DB) :
  ActivityManager.get_by_id activity_id
    (snd (ActivityManager.delete activity_id db)) = None.
Proof.
  unfold ActivityManager.delete.
  destruct (ActivityManager.get_by_id activity_id db) as [a|] eqn:Hg;
    [|exact Hg].
  apply get_by_id_some in Hg. destruct Hg as [_ Hid].
  cbn [snd]. unfold ActivityManager.get_by_id. cbn [activities].
  destruct (find _ (filter _ _)) as [x|] eqn:Hf; [|reflexivity].
  apply find_some in Hf. destruct Hf as [Hx Heq].
  apply filter_In in Hx. destruct Hx as [_ Hx].
  apply Z.eqb_eq in Heq. rewrite Heq, Hid, Z.eqb_refl in Hx. discriminate.
Qed.

(** X24. For a key that the driver can bind (a signed integer of 64
    bits) the endpoints [get_activity], [delete_activity] and
    [toggle_activity] answer 404 exactly for an unknown activity, and then
    write nothing. After [delete_activity] has deleted an activity, the
    five endpoints that take its key answer 404 for it. *)
Theorem deleted_activity_is_gone (parser_parse : string -> option datetime)
    (k : clock) (activity_id limit : Z) (data_status : string)
    (data_notes data_date : option string) (db : DB) :
  sqlite_int activity_id = true ->
  let known := ActivityManager.get_by_id activity_id db <> None in
  (known <-> exists body, Api.get_activity activity_id db = Api.Returns body)
  /\
  (known <->
   fst (Api.delete_activity activity_id db) = Api.Returns "Activity deleted")
  /\
  (known <->
   exists body,
     fst (Api.toggle_activity (now k) activity_id db) = Api.Returns body) /\
  (~ known ->
   Api.get_activity activity_id db
   = Api.HTTPException 404 "Activity not found" /\
   Api.delete_activity activity_id db
   = (Api.HTTPException 404 "Activity not found", db) /\
   Api.toggle_activity (now k) activity_id db
   = (Api.HTTPException 404 "Activity not found", db)) /\
  (let db' := snd (Api.delete_activity activity_id db) in
   Api.get_activity activity_id db'
   = Api.HTTPException 404 "Activity not found" /\
   Api.delete_activity activity_id db'
   = (Api.HTTPException 404 "Activity not found", db') /\
   Api.toggle_activity (now k) activity_id db'
   = (Api.HTTPException 404 "Activity not found", db') /\
   Api.mark_activity parser_parse k activity_id data_status data_notes
     data_date db' = (Api.HTTPException 404 "Activity not found", db') /\
   Api.get_activity_history k activity_id limit db'
   = Api.HTTPException 404 "Activity not found").
Proof.
  intros _. cbv zeta.
  assert (Hunknown : forall db0,
             ActivityManager.get_by_id activity_id db0 = None ->
             Api.get_activity activity_id db0
             = Api.HTTPException 404 "Activity not found" /\
             Api.delete_activity activity_id db0
             = (Api.HTTPException 404 "Activity not found", db0) /\
             Api.toggle_activity (now k) activity_id db0
             = (Api.HTTPException 404 "Activity not found", db0) /\
             Api.mark_activity parser_parse k activity_id data_status
               data_notes data_date db0
             = (Api.HTTPException 404 "Activity not found", db0) /\
             Api.get_activity_history k activity_id limit db0
             = Api.HTTPException 404 "Activity not found").
  { intros db0 H0.
    unfold Api.get_activity, Api.delete_activity, Api.toggle_activity,
      Api.mark_activity, Api.get_activity_history, ActivityManager.delete,
      ActivityManager.toggle.
    rewrite H0. repeat split. }
  pose proof (delete_gone activity_id db) as Hgone.
  destruct (ActivityManager.get_by_id activity_id db) as [a|] eqn:Hg.
  - split; [|split; [|split; [|split]]].
    + split; [intros _ | discriminate].
      unfold Api.get_activity. rewrite Hg. eexists. reflexivity.
    + split; [intros _ | discriminate].
      unfold Api.delete_activity, ActivityManager.delete. now rewrite Hg.
    + split; [intros _ | discriminate].
      unfold Api.toggle_activity.
      rewrite (toggle_known _ _ _ _ Hg). cbv zeta. eexists. reflexivity.
    + intros H. elim H. discriminate.
    + assert (Hsnd : snd (Api.delete_activity activity_id db)
                     = snd (ActivityManager.delete activity_id db)).
      { unfold Api.delete_activity.
        destruct (ActivityManager.delete activity_id db) as [[] ?];
          reflexivity. }
      rewrite Hsnd. destruct (Hunknown _ Hgone) as (H1 & H2 & H3 & H4 & H5).
      repeat split; assumption.
  - assert (Hsnd : snd (Api.delete_activity activity_id db) = db)
      by (unfold Api.delete_activity, ActivityManager.delete;
          now rewrite Hg).
    rewrite Hsnd. destruct (Hunknown _ Hg) as (H1 & H2 & H3 & H4 & H5).
    split; [|split; [|split; [|split]]].
    + split; [intros H; now elim H | intros [body Hb]; congruence].
    + split; [intros H; now elim H|]. rewrite H2. discriminate.
    + split; [intros H; now elim H|]. rewrite H3. intros [body Hb].
      discriminate.
    + intros _. repeat split; assumption.
    + repeat split; assumption.
Qed.

(** X24 on a database with activity 1: the delete is answered, and a
    read of the activity after it is answered 404. *)
Lemma deleted_activity_is_gone_witness :
  let k := clock_at (mkdate 2024 3 5) (mktime 8 0 0 0) in
  let db :=
    mkDB [sample_activity 1 "Run" "daily" (mktime 7 0 0 0) (mkdate 2024 1 1)]
         [] in
  let db' := snd (Api.delete_activity 1 db) in
  fst (Api.delete_activity 1 db) = Api.Returns "Activity deleted" /\
  Api.get_activity 1 db' = Api.HTTPException 404 "Activity not found" /\
  Api.get_activity 2 db = Api.HTTPException 404 "Activity not found".
Proof.
  intros k db db'.
  pose proof (deleted_activity_is_gone sample_parser k 1 10 "done" None None
                db eq_refl) as H1.
  pose proof (deleted_activity_is_gone sample_parser k 2 10 "done" None None
                db eq_refl) as H2.
  cbv zeta in H1, H2.
  destruct H1 as (_ & Hdel & _ & _ & Hgone & _).
  destruct H2 as (_ & _ & _ & Hunknown & _).
  split; [apply (proj1 Hdel); discriminate|]. split; [exact Hgone|].
  apply Hunknown. intros Hk. apply Hk. reflexivity.
Defined.

End Endpoints.

(** ** Suggestions for the activities of a day *)

Section Suggestions.

Lemma time_new_cases (e : Z) :
  match time_new (e / 60) (e mod 60) with
  | Ok _ => 0 <= e < 1440
  | Raise x => (exists msg, x = ValueError msg) /\ (e < 0 \/ 1440 <= e)
  end.
Proof.
  unfold time_new.
  destruct ((0 <=? e / 60) && (e / 60 <=? 23)) eqn:Hh; cbn [negb].
  - apply andb_true_iff in Hh. rewrite Z.leb_le, Z.leb_le in Hh.
    replace ((0 <=? e mod 60) && (e mod 60 <=? 59)) with true
      by (symmetry; apply andb_true_iff; rewrite !Z.leb_le; divmod).
    cbn [negb]. divmod.
  - split; [eexists; reflexivity|].
    apply andb_false_iff in Hh. rewrite !Z.leb_gt in Hh. divmod.
Qed.

Lemma back_to_back_loop_step (a b : Activity.t) (rest : list Activity.t)
    (suggestions : list SmartSuggestions.Suggestion) :
  SmartSuggestions.back_to_back_loop (a :: b :: rest) suggestions
  = match Activity.duration a with
    | Some d =>
        if truthy_int (Activity.duration a) then
          match time_new (end_minutes a d / 60) (end_minutes a d mod 60) with
          | Ok _ =>
              SmartSuggestions.back_to_back_loop (b :: rest)
                (let gap :=
                   hour (Activity.start_time b) * 60
                   + minute (Activity.start_time b) - end_minutes a d in
                 if (gap <? 15) && (0 <=? gap) then
                   suggestions ++
                   [SmartSuggestions.mkSuggestion
                      ("Tight schedule: only " ++ str_int gap
                       ++ " min between '" ++ Activity.title a
                       ++ "' and '" ++ Activity.title b ++ "'")%string
                      "low" "time" None]
                 else suggestions)
          | Raise e => Raise e
          end
        else SmartSuggestions.back_to_back_loop (b :: rest) suggestions
    | None => SmartSuggestions.back_to_back_loop (b :: rest) suggestions
    end.
Proof.
  unfold end_minutes.
  change (SmartSuggestions.back_to_back_loop (a :: b :: rest) suggestions)
    with (suggestions' <-
            match Activity.duration a with
            | Some duration =>
                if truthy_int (Activity.duration a) then
                  let end_minutes :=
                    hour (Activity.start_time a) * 60
                    + minute (Activity.start_time a) + duration in
                  end_time <- time_new (end_minutes / 60)
                                (end_minutes mod 60) ;;
                  let next_start_minutes :=
                    hour (Activity.start_time b) * 60
                    + minute (Activity.start_time b) in
                  let gap := next_start_minutes - end_minutes in
                  Ok (if (gap <? 15) && (0 <=? gap) then
                        suggestions ++
                        [SmartSuggestions.mkSuggestion
                           ("Tight schedule: only " ++ str_int gap
                            ++ " min between '" ++ Activity.title a
                            ++ "' and '" ++ Activity.title b
                            ++ "'")%string
                           "low" "time" None]
                      else suggestions)
                else Ok suggestions
            | None => Ok suggestions
            end ;;
          SmartSuggestions.back_to_back_loop (b :: rest) suggestions').
  destruct (Activity.duration a) as [d|]; [|reflexivity].
  destruct (truthy_int (Some d)); [|reflexivity].
  cbv zeta. now destruct (time_new _ _).
Qed.

Lemma back_to_back_loop_spec (activities : list Activity.t) :
  forall suggestions,
    match SmartSuggestions.back_to_back_loop activities suggestions with
    | Ok _ => Forall (fun a => ~ off_the_clock a) (removelast activities)
    | Raise e =>
        (exists msg, e = ValueError msg) /\
        Exists off_the_clock (removelast activities)
    end.
Proof.
  induction activities as [|a rest IH]; intros suggestions;
    [cbn; constructor|].
  destruct rest as [|b rest]; [cbn; constructor|].
  change (removelast (a :: b :: rest)) with (a :: removelast (b :: rest)).
  rewrite back_to_back_loop_step.
  destruct (Activity.duration a) as [d|] eqn:Hd.
  - unfold truthy_int. destruct (d =? 0) eqn:Hz; cbn [negb].
    + apply Z.eqb_eq in Hz. specialize (IH suggestions).
      destruct (SmartSuggestions.back_to_back_loop (b :: rest) suggestions).
      * constructor; [|exact IH]. intros (d' & Hd' & Hne & _). congruence.
      * split; [apply IH | right; apply IH].
    + apply Z.eqb_neq in Hz.
      pose proof (time_new_cases (end_minutes a d)) as Ht.
      destruct (time_new _ _) as [end_time|x].
      * match goal with
        | |- context [SmartSuggestions.back_to_back_loop _ ?s] =>
            specialize (IH s);
            destruct (SmartSuggestions.back_to_back_loop (b :: rest) s)
        end.
        -- constructor; [|exact IH]. intros (d' & Hd' & _ & Hoff).
           rewrite Hd in Hd'. injection Hd' as <-. lia.
        -- split; [apply IH | right; apply IH].
      * destruct Ht as [Hx Hoff]. split; [exact Hx|]. left.
        exists d. auto.
  - specialize (IH suggestions).
    destruct (SmartSuggestions.back_to_back_loop (b :: rest) suggestions).
    + constructor; [|exact IH]. intros (d' & Hd' & _). congruence.
    + split; [apply IH | right; apply IH].
Qed.

(** X25. [_get_activity_suggestions] raises [ValueError] exactly when
    one of the activities of the date, the last in order of start time
    left aside, has a duration that takes it to 24:00 or later (the end
    time it builds is then no time of day); whatever the weather service
    answers. Otherwise it returns a list. *)
Theorem activity_suggestions_overrun (readings : nat -> option Z)
    (target_date : date) (db : DB) :
  let activities := ActivityManager.get_for_date target_date db in
  match SmartSuggestions._get_activity_suggestions readings target_date db
  with
  | Ok _ => Forall (fun a => ~ off_the_clock a) (removelast activities)
  | Raise e =>
      (exists msg, e = ValueError msg) /\
      Exists off_the_clock (removelast activities)
  end.
Proof.
  cbv zeta. unfold SmartSuggestions._get_activity_suggestions,
    SmartSuggestions._get_activities_for_date.
  apply back_to_back_loop_spec.
Qed.

(** The evening of a day whose last activity but one runs past
    midnight. *)
Example activity_suggestions_past_midnight :
  let created := mkdatetime (mkdate 2024 1 1) (mktime 8 0 0 0) in
  let sleep :=
    Activity.mk 1 "Sleep" None "Health" (mktime 23 0 0 0) (Some 480) "daily"
      None None 15 false true created created in
  let read :=
    Activity.mk 2 "Read" None "Personal" (mktime 23 30 0 0) None "daily"
      None None 15 false true created created in
  exists msg,
    SmartSuggestions._get_activity_suggestions (fun _ => None)
      (mkdate 2024 3 5) (mkDB [sleep; read] [])
    = Raise (ValueError msg).
Proof. cbv zeta. eexists. reflexivity. Qed.

End Suggestions.

(** ** The search *)

Section Search.









(** The wildcards are not taken literally. *)
Example search_wildcard :
  let a := sample_activity 1 "Gym" "daily" (mktime 7 0 0 0) (mkdate 2024 1 1)
  in
  ActivityManager.search "g_m" (mkDB [a] []) = [a] /\
  ~ occurs_ignoring_case "g_m" (Activity.title a).
Proof.
  cbv zeta. split; [reflexivity|].
  intros H. apply str_in_lower_iff in H; [|reflexivity]. discriminate H.
Qed.

End Search.

(** ** The statistics of a week *)

Section WeeklyStats.

(** X27. [calculate_stats] of the analytics and [get_stats] of the
    ledger agree: for the week of the date, Monday to Sunday, the first
    returns the total, the four counts and the completion rate that the
    second returns for the bounds of that week; and it raises what
    [get_week_bounds] raises. *)
Theorem calculate_stats_agrees (today : date) (target_date : option date)
    (db : DB) :
  match get_week_bounds today target_date "monday" with
  | Ok (ws, we) =>
      exists s,
        AnalyticsEngine.calculate_stats today target_date db = Ok s /\
        AnalyticsEngine.week_start s = ws /\
        AnalyticsEngine.week_end s = we /\
        let g := CompletionManager.get_stats ws we db in
        AnalyticsEngine.total s = CompletionManager.total g /\
        AnalyticsEngine.done s = CompletionManager.done g /\
        AnalyticsEngine.missed s = CompletionManager.missed g /\
        AnalyticsEngine.partial s = CompletionManager.partial g /\
        AnalyticsEngine.rescheduled s = CompletionManager.rescheduled g /\
        AnalyticsEngine.completion_rate s
        = CompletionManager.completion_rate g
  | Raise e => AnalyticsEngine.calculate_stats today target_date db = Raise e
  end.
Proof.
  unfold AnalyticsEngine.calculate_stats, AnalyticsEngine.get_weekly_data.
  destruct (get_week_bounds today target_date "monday") as [[ws we]|e];
    [|reflexivity].
  cbn [bind]. unfold CompletionManager.get_stats. cbv zeta.
  set (rows := filter _ (completions db)).
  destruct (Z.of_nat (List.length rows) =? 0).
  - eexists. split; [reflexivity|]. repeat split.
  - destruct (AnalyticsEngine._calculate_day_stats rows);
      eexists; (split; [reflexivity|]); repeat split.
Qed.

Lemma dict_update_keys (key : string) (f : AnalyticsEngine.tally ->
                                           AnalyticsEngine.tally)
    (default : AnalyticsEngine.tally)
    (d : list (string * AnalyticsEngine.tally)) :
  In key (map fst d) ->
  map fst (AnalyticsEngine.dict_update key f default d) = map fst d.
Proof.
  induction d as [|[k v] d IH]; [contradiction|].
  cbn [map fst AnalyticsEngine.dict_update]. intros Hin.
  destruct (String.eqb k key) eqn:Hk; [reflexivity|].
  apply String.eqb_neq in Hk. cbn [map fst]. f_equal. apply IH.
  destruct Hin; [contradiction | assumption].
Qed.

Lemma dict_update_in (key : string) (f : AnalyticsEngine.tally ->
                                         AnalyticsEngine.tally)
    (default : AnalyticsEngine.tally)
    (d : list (string * AnalyticsEngine.tally)) (k : string)
    (v : AnalyticsEngine.tally) :
  NoDup (map fst d) -> In key (map fst d) ->
  In (k, v) (AnalyticsEngine.dict_update key f default d) ->
  (k <> key /\ In (k, v) d) \/
  (k = key /\ exists v0, In (k, v0) d /\ v = f v0).
Proof.
  induction d as [|[k0 v0] d IH]; [contradiction|].
  cbn [map fst AnalyticsEngine.dict_update]. intros Hnd Hkey Hin.
  inversion Hnd as [|? ? Hnot Hnd']; subst.
  destruct (String.eqb k0 key) eqn:Hk.
  - apply String.eqb_eq in Hk. subst k0.
    destruct Hin as [Heq | Hin].
    + injection Heq as <- <-. right. split; [reflexivity|].
      exists v0. split; [now left | reflexivity].
    + left. split; [|now right].
      intros ->. apply Hnot. apply in_map_iff. now exists (key, v).
  - apply String.eqb_neq in Hk.
    destruct Hin as [Heq | Hin].
    + injection Heq as <- <-. left. split; [exact Hk | now left].
    + destruct Hkey as [Hkey | Hkey]; [contradiction|].
      destruct (IH Hnd' Hkey Hin) as [[H1 H2] | (H1 & v1 & H2 & H3)].
      * left. split; [exact H1 | now right].
      * right. split; [exact H1|]. exists v1. split; [now right | exact H3].
Qed.

(** The number of completions of a list that fall on a day of the
    week. *)
Lemma strftime_A_days (d : date) : In (strftime_A d) AnalyticsEngine.days.
Proof.
  unfold strftime_A. pose proof (weekday_cases d) as H.
  repeat (destruct H as [H | H]; [rewrite H; simpl; tauto|]).
  rewrite H; simpl; tauto.
Qed.

Lemma days_nodup : NoDup AnalyticsEngine.days.
Proof.
  repeat constructor; simpl; intuition discriminate.
Qed.

Lemma count_completion_total (c : Completion.t)
    (data : AnalyticsEngine.tally) :
  snd (AnalyticsEngine.count_completion c data) = snd data + 1.
Proof.
  destruct data as [done total]. unfold AnalyticsEngine.count_completion.
  destruct (String.eqb _ "done"); [reflexivity|].
  destruct (String.eqb _ "partial"); reflexivity.
Qed.

Lemma on_day_app (day : string) (a b : list Completion.t) :
  on_day day (a ++ b) = on_day day a ++ on_day day b.
Proof. apply filter_app. Qed.

(** After the counting loop every day has its entry, and the total of
    a day is the number of completions that fall on it. *)
Lemma day_counts_loop (rows seen : list Completion.t)
    (day_data : list (string * AnalyticsEngine.tally)) :
  map fst day_data = AnalyticsEngine.days ->
  (forall day v, In (day, v) day_data ->
                 snd v = Z.of_nat (List.length (on_day day seen))) ->
  let after :=
    fold_left
      (fun day_data completion =>
         AnalyticsEngine.dict_update
           (strftime_A (Completion.date completion))
           (AnalyticsEngine.count_completion completion) (Float.Int 0, 0)
           day_data)
      rows day_data in
  map fst after = AnalyticsEngine.days /\
  (forall day v, In (day, v) after ->
                 snd v = Z.of_nat (List.length (on_day day (seen ++ rows)))).
Proof.
  revert seen day_data.
  induction rows as [|c rows IH]; intros seen day_data Hkeys Hcount.
  - cbv zeta. cbn [fold_left]. rewrite app_nil_r. now split.
  - cbv zeta. cbn [fold_left].
    replace (seen ++ c :: rows) with ((seen ++ [c]) ++ rows)
      by (now rewrite <- app_assoc).
    assert (Hin : In (strftime_A (Completion.date c)) (map fst day_data))
      by (rewrite Hkeys; apply strftime_A_days).
    apply IH.
    + now rewrite dict_update_keys.
    + intros day v Hv.
      apply dict_update_in in Hv;
        [|rewrite Hkeys; apply days_nodup | exact Hin].
      rewrite on_day_app, length_app. unfold on_day at 2. cbn [filter].
      destruct Hv as [[Hne Hv] | (-> & v0 & Hv & ->)].
      * apply String.eqb_neq in Hne. rewrite String.eqb_sym, Hne.
        cbn [List.length]. rewrite (Hcount _ _ Hv). lia.
      * rewrite String.eqb_refl, count_completion_total.
        cbn [List.length]. rewrite (Hcount _ _ Hv). lia.
Qed.

Lemma day_counts_spec (rows : list Completion.t) :
  map fst (AnalyticsEngine.day_counts rows) = AnalyticsEngine.days /\
  (forall day v, In (day, v) (AnalyticsEngine.day_counts rows) ->
                 snd v = Z.of_nat (List.length (on_day day rows))).
Proof.
  unfold AnalyticsEngine.day_counts.
  apply (day_counts_loop rows []).
  - rewrite map_map. cbn [fst]. apply map_id.
  - intros day v Hv. apply in_map_iff in Hv.
    destruct Hv as (x & Hx & _). now injection Hx as <- <-.
Qed.

Lemma in_day_rates (name : string) (st : AnalyticsEngine.day_stats)
    (day_data : list (string * AnalyticsEngine.tally)) :
  In (name, st) (AnalyticsEngine.day_rates day_data) ->
  exists v, In (name, v) day_data /\ 0 < snd v /\
            AnalyticsEngine.day_total st = snd v.
Proof.
  unfold AnalyticsEngine.day_rates. rewrite in_flat_map.
  intros ([day [done total]] & Hin & H).
  destruct (0 <? total) eqn:Hpos; [|contradiction].
  destruct H as [H | []]. injection H as <- <-.
  exists (done, total). apply Z.ltb_lt in Hpos. now repeat split.
Qed.

Lemma sum_totals_day_rates
    (day_data : list (string * AnalyticsEngine.tally)) :
  (forall day v, In (day, v) day_data -> 0 <= snd v) ->
  sum_totals (AnalyticsEngine.day_rates day_data)
  = fold_right (fun item acc => snd (snd item) + acc) 0 day_data.
Proof.
  induction day_data as [|[day [done total]] rest IH]; intros Hpos;
    [reflexivity|].
  unfold AnalyticsEngine.day_rates in *. cbn [flat_map fold_right snd].
  unfold sum_totals in *. rewrite fold_right_app.
  assert (Hrest : forall day v, In (day, v) rest -> 0 <= snd v)
    by (intros d v Hv; apply (Hpos d v); now right).
  specialize (Hpos day (done, total) (or_introl eq_refl)). cbn [snd] in Hpos.
  destruct (0 <? total) eqn:Ht; cbn [fold_right snd
    AnalyticsEngine.day_total]; rewrite (IH Hrest); [reflexivity|].
  apply Z.ltb_ge in Ht. lia.
Qed.

Lemma sum_by_keys (g : string -> Z) (keys : list string)
    (day_data : list (string * AnalyticsEngine.tally)) :
  map fst day_data = keys ->
  (forall day v, In (day, v) day_data -> snd v = g day) ->
  fold_right (fun item acc => snd (snd item) + acc) 0 day_data
  = fold_right (fun day acc => g day + acc) 0 keys.
Proof.
  revert keys. induction day_data as [|[day v] rest IH]; intros keys Hk Hg.
  - now subst keys.
  - subst keys. cbn [map fst fold_right snd].
    rewrite (Hg day v (or_introl eq_refl)). f_equal.
    apply IH; [reflexivity|]. intros d w Hw. apply (Hg d w). now right.
Qed.

Lemma on_day_partition (rows : list Completion.t) :
  fold_right (fun day acc => Z.of_nat (List.length (on_day day rows)) + acc)
             0 AnalyticsEngine.days
  = Z.of_nat (List.length rows).
Proof.
  induction rows as [|c rows IH]; [reflexivity|].
  unfold AnalyticsEngine.days, on_day in *. cbn [fold_right filter] in *.
  pose proof (strftime_A_days (Completion.date c)) as Hday.
  unfold AnalyticsEngine.days in Hday. cbn [In] in Hday.
  repeat (destruct Hday as [<- | Hday];
          [cbn [String.eqb Ascii.eqb Bool.eqb andb List.length];
           cbn [List.length] in IH; lia|]).
  contradiction.
Qed.

(** X28. The grouping by day of [calculate_stats]: the days it lists
    are days of the week that have completions in the week, each with
    the number of them as its total, and the totals add up to the total of
    the week. When the week has completions, the worst day is one of the
    listed days, never [None]; the best day, when there is one, is a
    listed day too. *)
Theorem calculate_stats_by_day (today : date) (target_date : option date)
    (db : DB) (s : AnalyticsEngine.weekly_stats) :
  AnalyticsEngine.calculate_stats today target_date db = Ok s ->
  let rows :=
    in_range (AnalyticsEngine.week_start s) (AnalyticsEngine.week_end s) db
  in
  (forall name st,
      In (name, st) (AnalyticsEngine.by_day s) ->
      In name AnalyticsEngine.days /\
      0 < AnalyticsEngine.day_total st /\
      AnalyticsEngine.day_total st
      = Z.of_nat (List.length (on_day name rows))) /\
  sum_totals (AnalyticsEngine.by_day s) = AnalyticsEngine.total s /\
  (AnalyticsEngine.total s <> 0 ->
   exists name,
     AnalyticsEngine.worst_day s = Some name /\
     In name (map fst (AnalyticsEngine.by_day s))) /\
  (forall name,
      AnalyticsEngine.best_day s = Some name ->
      In name (map fst (AnalyticsEngine.by_day s))).
Proof.
  unfold AnalyticsEngine.calculate_stats, AnalyticsEngine.get_weekly_data.
  destruct (get_week_bounds today target_date "monday") as [[ws we]|e];
    [|discriminate].
  cbn [bind]. fold (in_range ws we db). cbv zeta.
  set (rows := in_range ws we db).
  destruct (Z.of_nat (List.length rows) =? 0) eqn:Hzero.
  - intros H. injection H as <-.
    cbn [AnalyticsEngine.by_day AnalyticsEngine.total
         AnalyticsEngine.worst_day AnalyticsEngine.best_day].
    split; [intros name st []|]. split; [reflexivity|].
    split; [intros H; now elim H | discriminate].
  - apply Z.eqb_neq in Hzero.
    pose proof (day_counts_spec rows) as [Hkeys Hcount].
    assert (Hentries : forall name st,
               In (name, st) (AnalyticsEngine._calculate_day_stats rows) ->
               In name AnalyticsEngine.days /\
               0 < AnalyticsEngine.day_total st /\
               AnalyticsEngine.day_total st
               = Z.of_nat (List.length (on_day name rows))).
    { intros name st Hin. apply in_day_rates in Hin.
      destruct Hin as (v & Hv & Hpos & ->).
      split; [|split; [exact Hpos | exact (Hcount _ _ Hv)]].
      rewrite <- Hkeys. apply in_map_iff. now exists (name, v). }
    assert (Hsum : sum_totals (AnalyticsEngine._calculate_day_stats rows)
                   = Z.of_nat (List.length rows)).
    { unfold AnalyticsEngine._calculate_day_stats.
      rewrite sum_totals_day_rates
        by (intros day v Hv; rewrite (Hcount _ _ Hv); lia).
      rewrite (sum_by_keys
                 (fun day => Z.of_nat (List.length (on_day day rows)))
                 AnalyticsEngine.days _ Hkeys Hcount).
      apply on_day_partition. }
    set (by_day := AnalyticsEngine._calculate_day_stats rows) in *.
    destruct by_day as [|x xs] eqn:Hby;
      [unfold sum_totals in Hsum; cbn in Hsum; lia|].
    set (sorted := sorted_by_rev _ Float.ltb (x :: xs)).
    assert (Hperm : Permutation sorted (x :: xs))
      by apply sorted_by_rev_perm.
    assert (Hne : sorted <> [])
      by (intros H0; rewrite H0 in Hperm;
          apply Permutation_nil in Hperm; discriminate).
    set (nothing := ("", AnalyticsEngine.mkday_stats 0 0 Float.zero)).
    assert (Hlast : In (List.last sorted nothing) (x :: xs)).
    { apply (Permutation_in _ Hperm).
      destruct (exists_last Hne) as (l & y & ->).
      rewrite last_last. apply in_or_app. right. now left. }
    assert (Hfirst : In (List.hd nothing sorted) (x :: xs)).
    { apply (Permutation_in _ Hperm).
      destruct sorted; [congruence | now left]. }
    intros H. injection H as <-.
    cbn [AnalyticsEngine.by_day AnalyticsEngine.total
         AnalyticsEngine.worst_day AnalyticsEngine.best_day].
    split; [exact Hentries|]. split; [exact Hsum|]. split.
    + intros _. exists (fst (List.last sorted nothing)).
      destruct (List.last sorted nothing) as [name st] eqn:Hl.
      destruct (Hentries name st Hlast) as (_ & Hpos & _).
      apply Z.ltb_lt in Hpos. cbn [fst snd]. rewrite Hpos.
      split; [reflexivity|]. apply in_map_iff. now exists (name, st).
    + intros name.
      destruct (Float.ltb Float.zero _); [|discriminate].
      intros H. injection H as <-.
      apply in_map. exact Hfirst.
Qed.

Lemma calculate_stats_by_day_witness :
  let t := mkdatetime (mkdate 2024 3 10) (mktime 21 0 0 0) in
  let row id d status := Completion.mk id 1 d status None None t in
  let db :=
    mkDB [sample_activity 1 "Run" "daily" (mktime 7 0 0 0) (mkdate 2024 1 1)]
         [row 1 (mkdate 2024 3 4) "done";
          row 2 (mkdate 2024 3 5) "partial";
          row 3 (mkdate 2024 3 6) "missed"] in
  exists s,
    AnalyticsEngine.calculate_stats (mkdate 2024 3 6) None db = Ok s /\
    sum_totals (AnalyticsEngine.by_day s) = 3 /\
    AnalyticsEngine.best_day s = Some "Monday" /\
    AnalyticsEngine.worst_day s = Some "Wednesday".
Proof.
  intros t row db.
  destruct (AnalyticsEngine.calculate_stats (mkdate 2024 3 6) None db)
    as [s|] eqn:Hs; [|vm_compute in Hs; discriminate].
  exists s. split; [reflexivity|].
  pose proof (calculate_stats_by_day _ _ _ _ Hs) as (_ & Hsum & _).
  vm_compute in Hs. injection Hs as <-.
  split; [exact Hsum|]. split; reflexivity.
Defined.

End WeeklyStats.

(** ** What the week listing holds *)

Section WeekListing.

Lemma activity_in_iff (all result : list Activity.t) (x : Activity.t) :
  NoDup (map Activity.id all) -> incl result all -> In x all ->
  (ActivityManager.activity_in x result = true <-> In x result).
Proof.
  intros Hnd Hincl Hx. unfold ActivityManager.activity_in.
  rewrite existsb_exists. split.
  - intros (r & Hr & Hid). apply Z.eqb_eq in Hid.
    now rewrite <- (NoDup_map_eq Activity.id all r x Hnd (Hincl r Hr) Hx Hid).
  - intros Hin. exists x. split; [exact Hin | apply Z.eqb_refl].
Qed.

Lemma week_day_pass_members (current : date) (all : list Activity.t) :
  NoDup (map Activity.id all) ->
  forall (rows result : list Activity.t),
    incl rows all -> incl result all ->
    let after :=
      fold_left
        (fun result activity =>
           if ActivityManager._is_scheduled_for_date activity current
           then (if negb (ActivityManager.activity_in activity result)
                 then result ++ [activity] else result)
           else result)
        rows result in
    forall a,
      In a after <->
      In a result \/
      (In a rows /\
       ActivityManager._is_scheduled_for_date a current = true).
Proof.
  intros Hnd rows. induction rows as [|x rows IH];
    intros result Hrows Hres; cbv zeta; cbn [fold_left].
  - intros a. simpl. tauto.
  - assert (Hx : In x all) by (apply Hrows; now left).
    assert (Hrows' : incl rows all)
      by (intros y Hy; apply Hrows; now right).
    intros a.
    destruct (ActivityManager._is_scheduled_for_date x current) eqn:Hs.
    + destruct (ActivityManager.activity_in x result) eqn:Hin; cbn [negb].
      * apply (activity_in_iff all result x Hnd Hres Hx) in Hin.
        rewrite (IH result Hrows' Hres a). simpl.
        split; [tauto|]. intros [H | [[<- | H] Hd]]; auto.
      * assert (Hres' : incl (result ++ [x]) all).
        { intros y Hy. apply in_app_iff in Hy.
          destruct Hy as [Hy | [<- | []]]; auto. }
        rewrite (IH (result ++ [x]) Hrows' Hres' a), in_app_iff. simpl.
        split; [intros [[H | [<- | []]] | [H Hd]]; auto|].
        intros [H | [[<- | H] Hd]]; auto.
    + rewrite (IH result Hrows' Hres a). simpl.
      split; [tauto|]. intros [H | [[<- | H] Hd]]; auto. congruence.
Qed.

Lemma week_loop_members (fuel : nat) (all : list Activity.t)
    (week_end : date) :
  NoDup (map Activity.id all) ->
  forall (current : date) (result l : list Activity.t),
    incl result all ->
    ActivityManager.week_loop fuel current week_end all result
    = Some (Ok l) ->
    forall a,
      In a l <->
      In a result \/
      (In a all /\
       exists i, 0 <= i /\
         let d := mkdate (year current) (month current) (day current + i) in
         date_leb d week_end = true /\
         ActivityManager._is_scheduled_for_date a d = true).
Proof.
  intros Hnd. induction fuel as [|fuel IH];
    intros current result l Hres; cbn [ActivityManager.week_loop].
  - destruct (date_leb current week_end) eqn:Hle; [discriminate|].
    intros H a. injection H as <-. split; [now left|].
    intros [H | (_ & i & Hi & Hd & _)]; [exact H|]. exfalso.
    cbv zeta in Hd. apply not_true_iff_false in Hle.
    revert Hle Hd. rewrite !date_leb_le. cbn [year month day]. lia.
  - destruct (date_leb current week_end) eqn:Hle.
    + destruct (replace_day current (day current + 1)) as [c'|e] eqn:Hr;
        [|discriminate].
      apply replace_day_ok in Hr. destruct Hr as [-> _].
      intros Hloop a.
      pose proof (week_day_pass_members current all Hnd all result
                    (incl_refl all) Hres) as Hpass. cbv zeta in Hpass.
      fold (ActivityManager.week_day_pass current all result) in Hpass.
      assert (Hres' : incl (ActivityManager.week_day_pass current all result)
                           all).
      { intros y Hy. apply Hpass in Hy. destruct Hy as [Hy | [Hy _]]; auto. }
      rewrite (IH _ _ _ Hres' Hloop a), Hpass. cbn [year month day].
      assert (Hcur : current = mkdate (year current) (month current)
                                 (day current + 0))
        by (destruct current; cbn [year month day]; now rewrite Z.add_0_r).
      split.
      * intros [[H | [Ha Hd]] | (Ha & i & Hi & Hd & Hs)].
        -- now left.
        -- right. split; [exact Ha|]. exists 0. split; [lia|].
           cbv zeta. rewrite <- Hcur. now split.
        -- right. split; [exact Ha|]. exists (i + 1). split; [lia|].
           cbv zeta in *.
           replace (day current + (i + 1)) with (day current + 1 + i) by lia.
           now split.
      * intros [H | (Ha & i & Hi & Hd & Hs)]; [now left; left|].
        cbv zeta in Hd, Hs.
        destruct (Z.eq_dec i 0) as [-> | Hne].
        -- left. right. rewrite <- Hcur in Hs. now split.
        -- right. split; [exact Ha|]. exists (i - 1). split; [lia|].
           cbv zeta.
           replace (day current + 1 + (i - 1)) with (day current + i) by lia.
           now split.
    + intros H a. injection H as <-. split; [now left|].
      intros [H | (_ & i & Hi & Hd & _)]; [exact H|]. exfalso.
      cbv zeta in Hd. apply not_true_iff_false in Hle.
      revert Hle Hd. rewrite !date_leb_le. cbn [year month day]. lia.
Qed.

Lemma get_all_active_nodup (db : DB) :
  activity_pk_unique db ->
  NoDup (map Activity.id (ActivityManager.get_all true db)).
Proof.
  intros Hpk. unfold ActivityManager.get_all.
  eapply Permutation_NoDup;
    [apply Permutation_map; symmetry; apply sorted_by_perm|].
  now apply NoDup_map_filter.
Qed.

(** X29. What [get_for_week] does, for a table with unique keys. It
    raises what [get_week_bounds] raises. It raises [ValueError] when the
    week, Monday to Sunday, holds the last day of the month of its Monday.
    For every other week it returns, each once and in ascending order of
    the start times, exactly the active activities that are scheduled for
    a day of the week. *)
Theorem get_for_week_lists (today : date) (target_date : option date)
    (db : DB) :
  activity_pk_unique db ->
  match get_week_bounds today target_date "monday" with
  | Raise e =>
      ActivityManager.get_for_week today target_date db = Some (Raise e)
  | Ok (week_start, week_end) =>
      if date_leb (month_end week_start) week_end then
        ActivityManager.get_for_week today target_date db
        = Some (Raise (ValueError "day is out of range for month"))
      else
        exists l,
          ActivityManager.get_for_week today target_date db = Some (Ok l) /\
          NoDup l /\ StronglySorted start_le l /\
          forall a,
            In a l <->
            In a (activities db) /\ Activity.is_active a = true /\
            exists d,
              date_leb week_start d = true /\ date_leb d week_end = true /\
              ActivityManager._is_scheduled_for_date a d = true
  end.
Proof.
  intros Hpk.
  destruct (get_week_bounds today target_date "monday") as [[ws we]|e]
    eqn:Hb; [|unfold ActivityManager.get_for_week; now rewrite Hb].
  pose proof (get_week_bounds_ok _ _ _ _ _ Hb) as Hok. cbv zeta in Hok.
  destruct Hok as (Hvs & Hve & _ & Hord).
  pose proof (get_for_week_month_end today target_date db ws we Hb Hvs)
    as Hcases.
  destruct (date_leb (month_end ws) we) eqn:Hend; [exact Hcases|].
  destruct Hcases as [l Hl]. exists l. split; [exact Hl|].
  pose proof (get_for_week_nodup_sorted _ _ _ _ Hl) as (_ & Hnd & Hsorted).
  split; [exact Hnd|]. split; [exact Hsorted|].
  unfold ActivityManager.get_for_week in Hl. rewrite Hb in Hl.
  destruct (ActivityManager.week_loop _ ws we _ []) as [[r|x]|] eqn:Hloop;
    [|discriminate|discriminate].
  injection Hl as <-. intros a.
  rewrite in_sorted_by_start_time.
  rewrite (week_loop_members _ _ _ (get_all_active_nodup db Hpk) _ _ _
             (incl_nil_l _) Hloop a).
  rewrite in_get_all.
  (* the days of the week are the days of the month from that of the
     Monday to that of the Sunday *)
  apply not_true_iff_false in Hend.
  assert (Hle : date_leb ws we = true)
    by (apply (toordinal_le _ _ Hvs Hve); lia).
  apply valid_dateb_iff in Hvs, Hve.
  revert Hend Hle. rewrite !date_leb_le. unfold month_end.
  cbn [year month day]. intros Hend Hle.
  split.
  - intros [[] | ([Hin Hact] & i & Hi & Hd & Hs)].
    split; [exact Hin|]. split; [now apply Hact|].
    cbv zeta in Hd, Hs.
    exists (mkdate (year ws) (month ws) (day ws + i)).
    split; [|split; [exact Hd | exact Hs]].
    apply date_leb_le. cbn [year month day]. lia.
  - intros (Hin & Hact & d & Hlo & Hhi & Hs). right.
    split; [split; [exact Hin | now intros _]|].
    exists (day d - day ws).
    revert Hlo Hhi. rewrite !date_leb_le. intros Hlo Hhi.
    assert (Hd : d = mkdate (year ws) (month ws) (day ws + (day d - day ws))).
    { destruct d as [y m dd]. cbn [year month day] in *. f_equal; lia. }
    split; [lia|]. cbv zeta. rewrite <- Hd.
    split; [exact Hhi | exact Hs].
Qed.

Lemma get_for_week_lists_witness :
  let daily := sample_activity 1 "Walk" "daily" (mktime 8 0 0 0)
                 (mkdate 2024 1 1) in
  let weekends := sample_activity 2 "Hike" "weekends" (mktime 7 30 0 0)
                    (mkdate 2024 1 1) in
  exists l,
    ActivityManager.get_for_week (mkdate 2024 3 13) None
      (mkDB [daily; weekends] []) = Some (Ok l) /\
    NoDup l.
Proof.
  intros daily weekends.
  assert (Hpk : activity_pk_unique (mkDB [daily; weekends] [])).
  { repeat constructor; simpl; intuition discriminate. }
  pose proof (get_for_week_lists (mkdate 2024 3 13) None
                (mkDB [daily; weekends] []) Hpk) as H.
  change (get_week_bounds (mkdate 2024 3 13) None "monday")
    with (@Ok (date * date) (mkdate 2024 3 11, mkdate 2024 3 17)) in H.
  cbv beta iota in H.
  change (date_leb (month_end (mkdate 2024 3 11)) (mkdate 2024 3 17))
    with false in H.
  cbv beta iota in H. destruct H as (l & Hl & Hnd & _).
  exists l. now split.
Defined.

End WeekListing.

(** ** Two weeks side by side *)

Section CompareWeeks.

Lemma calculate_stats_bounds (today : date) (target_date : option date)
    (db : DB) :
  match AnalyticsEngine.calculate_stats today target_date db with
  | Ok s =>
      get_week_bounds today target_date "monday"
      = Ok (AnalyticsEngine.week_start s, AnalyticsEngine.week_end s)
  | Raise e => get_week_bounds today target_date "monday" = Raise e
  end.
Proof.
  unfold AnalyticsEngine.calculate_stats, AnalyticsEngine.get_weekly_data.
  destruct (get_week_bounds today target_date "monday") as [[ws we]|e];
    [|reflexivity].
  cbn [bind]. cbv zeta.
  destruct (Z.of_nat _ =? 0); [reflexivity|].
  now destruct (AnalyticsEngine._calculate_day_stats _).
Qed.

Lemma get_week_bounds_raises (today : date) (target_date : option date)
    (week_start : string) (e : exn) :
  get_week_bounds today target_date week_start = Raise e ->
  e = OverflowError "date value out of range".
Proof.
  unfold get_week_bounds, sub_days. cbv zeta.
  destruct (add_days _ (- _)) as [ws|x] eqn:Hs; cbn [bind].
  - destruct (add_days ws 6) as [we|x] eqn:He; cbn [bind]; [discriminate|].
    intros H. injection H as <-. exact (proj1 (add_days_raise _ _ _ He)).
  - intros H. injection H as <-. exact (proj1 (add_days_raise _ _ _ Hs)).
Qed.

(** X30. [compare_weeks] sets the week of the date, Monday to Sunday,
    beside the week before it: the week it reports as previous ends the
    day before the current one starts, and starts seven days before it.
    The only exception it raises is [OverflowError], at the ends of the
    calendar. *)
Theorem compare_weeks_adjacent (today : date) (current_date : option date)
    (db : DB) :
  match AnalyticsEngine.compare_weeks today current_date db with
  | Ok c =>
      let this_week := AnalyticsEngine.current c in
      let last_week := AnalyticsEngine.previous c in
      weekday (AnalyticsEngine.week_start this_week) = 0 /\
      toordinal (AnalyticsEngine.week_end this_week)
      = toordinal (AnalyticsEngine.week_start this_week) + 6 /\
      toordinal (AnalyticsEngine.week_start last_week)
      = toordinal (AnalyticsEngine.week_start this_week) - 7 /\
      toordinal (AnalyticsEngine.week_end last_week)
      = toordinal (AnalyticsEngine.week_start this_week) - 1
  | Raise e => e = OverflowError "date value out of range"
  end.
Proof.
  unfold AnalyticsEngine.compare_weeks. cbv zeta.
  set (d := match current_date with Some d => d | None => today end).
  pose proof (calculate_stats_bounds today (Some d) db) as H1.
  destruct (AnalyticsEngine.calculate_stats today (Some d) db) as [s1|e1];
    cbn [bind]; [|exact (get_week_bounds_raises _ _ _ _ H1)].
  destruct (sub_days d 7) as [d'|e2] eqn:Hsub; cbn [bind];
    [|exact (proj1 (add_days_raise _ _ _ Hsub))].
  pose proof (calculate_stats_bounds today (Some d') db) as H2.
  destruct (AnalyticsEngine.calculate_stats today (Some d') db) as [s2|e3];
    cbn [bind]; [|exact (get_week_bounds_raises _ _ _ _ H2)].
  cbn [AnalyticsEngine.current AnalyticsEngine.previous].
  apply get_week_bounds_ok in H1, H2. cbv zeta in H1, H2.
  change (String.eqb (lower "monday") "monday") with true in H1, H2.
  cbv iota in H1, H2.
  destruct H1 as (_ & _ & Hs1 & He1), H2 as (_ & _ & Hs2 & He2).
  apply add_days_ok in Hsub. destruct Hsub as [_ Hd'].
  unfold weekday in *. rewrite Hd' in Hs2.
  split; [rewrite Hs1; divmod|]. split; [exact He1|].
  split; [rewrite Hs2, Hs1; divmod | rewrite He2, Hs2, Hs1; divmod].
Qed.

End CompareWeeks.
